(** * piws_setup: a shallow embedding of [piws_setup/piws_setup.py]

    The script deploys CubicWeb cubes: it validates a JSON configuration,
    lets the user pick one configuration file, installs python tools with
    pip, clones the cubes with mercurial or git and links them in the
    'CW_CUBES_PATH' folder.

    The embedding follows the script function by function.  Everything the
    script does to the outside (printing, logging, sub-processes, symbolic
    links) is recorded as a trace of events next to an explicit state;
    a Python exception is an outcome [Raised e] that stops the
    computation, as it does in the script where nothing catches it. *)

From Stdlib Require Import String Ascii List ZArith Bool Lia Permutation.
Import ListNotations.
Open Scope string_scope.
Open Scope list_scope.
Set Warnings "-register-all".

(** ** Values produced by [json.load] (Python 2) *)

Inductive json : Type :=
| JNull
| JBool (b : bool)
| JInt (n : Z)
| JFloat (literal : string)
| JStr (s : string)
| JList (items : list json)
| JDict (entries : list (string * json)).

(** A Python dict is an association list given in the order in which the
    dict is iterated; a key is looked up by its first binding. *)
Fixpoint assoc {A : Type} (k : string) (d : list (string * A)) : option A :=
  match d with
  | [] => None
  | (k', v) :: rest => if String.eqb k k' then Some v else assoc k rest
  end.

Definition has_key {A : Type} (k : string) (d : list (string * A)) : bool :=
  existsb (fun kv => String.eqb k (fst kv)) d.

(** The concrete types [type(...)] can answer on a value of [json.load]. *)
Inductive pytype : Type :=
| Tunicode | Tdict | Tlist | Tint | Tlong | Tfloat | Tbool | TNoneType.

(** [sys.maxint] on the 64-bit Linux the script requires; beyond it
    [json.load] answers a [long]. *)
Definition sys_maxint : Z := 2 ^ 63 - 1.

Definition type_of (v : json) : pytype :=
  match v with
  | JNull => TNoneType
  | JBool _ => Tbool
  | JInt n => if ((- sys_maxint - 1 <=? n) && (n <=? sys_maxint))%Z
              then Tint else Tlong
  | JFloat _ => Tfloat
  | JStr _ => Tunicode
  | JList _ => Tlist
  | JDict _ => Tdict
  end.

(** The members of the lists of [expected_types]: type objects, and the
    object [None] that the list for "version" holds. *)
Inductive pyobj : Type :=
| TypeObj (t : pytype)
| NoneObj.

Definition pytype_eqb (a b : pytype) : bool :=
  match a, b with
  | Tunicode, Tunicode | Tdict, Tdict | Tlist, Tlist | Tint, Tint
  | Tlong, Tlong | Tfloat, Tfloat | Tbool, Tbool | TNoneType, TNoneType => true
  | _, _ => false
  end.

(** [a == b] on these objects: a type equals itself only, and the type
    [NoneType] is not the object [None]. *)
Definition pyobj_eqb (a b : pyobj) : bool :=
  match a, b with
  | TypeObj s, TypeObj t => pytype_eqb s t
  | NoneObj, NoneObj => true
  | _, _ => false
  end.

(** [type(x) in field_types] *)
Definition type_in (t : pytype) (field_types : list pyobj) : bool :=
  existsb (pyobj_eqb (TypeObj t)) field_types.

(** ** Exceptions, events and outcomes *)

(** Arguments of a [str.format] template, of a logging call or of an
    exception message.  The model records the template and its arguments
    instead of the formatted text; text is taken to be ASCII, so that
    formatting raises no encoding error. *)
Inductive arg : Type :=
| AStr (s : string)
| AInt (z : Z)
| AJson (j : json)
| AType (t : pytype)
| AObjs (l : list pyobj).

Inductive pyexc : Type :=
| SystemExit
| NameError (name : string)
| TypeError
| ValueError
| KeyError
| AttributeError
| IOError
| OSError
| EOFError
| IndexError
| CalledProcessError (returncode : Z) (cmd : list json)
| Exception_ (template : string) (args : list arg).

(** [SystemExit] derives from [BaseException]; every other exception above
    derives from [Exception] and is caught by [except Exception]. *)
Definition is_Exception (e : pyexc) : bool :=
  match e with
  | SystemExit => false
  | _ => true
  end.

Inductive outcome (A : Type) : Type :=
| Returned (a : A)
| Raised (e : pyexc).
Arguments Returned {A} a.
Arguments Raised {A} e.

Inductive level : Type := DEBUG | INFO | ERROR.

Inductive event : Type :=
| EPrint (template : string) (args : list arg)
| ELog (lvl : level) (template : string) (args : list arg)
| EPopen (command : list string) (cwd : option string)
| ESymlink (source link_name : string).

(** ** Pure helpers of the Python library *)

(** [needle in haystack] on strings *)
Fixpoint is_substring (needle haystack : string) : bool :=
  if String.prefix needle haystack then true
  else match haystack with
       | EmptyString => false
       | String _ rest => is_substring needle rest
       end.

(** [field_name in json_data] *)
Definition py_contains (field_name : string) (json_data : json)
  : outcome bool :=
  match json_data with
  | JDict d => Returned (has_key field_name d)
  | JList l =>
      Returned (existsb (fun x => match x with
                                  | JStr s => String.eqb field_name s
                                  | _ => false
                                  end) l)
  | JStr s => Returned (is_substring field_name s)
  | _ => Raised TypeError
  end.

(** [json_data[field_name]] with a string subscript *)
Definition py_getitem (json_data : json) (field_name : string) : outcome json :=
  match json_data with
  | JDict d => match assoc field_name d with
               | Some v => Returned v
               | None => Raised KeyError
               end
  | _ => Raised TypeError
  end.

(** [posixpath.join(a, b)] where [b] comes from the configuration: a value
    that is not a string has no [startswith]. *)
Definition starts_with_slash (b : string) : bool := String.prefix "/" b.

Fixpoint ends_with_slash (a : string) : bool :=
  match a with
  | EmptyString => false
  | String c EmptyString => Ascii.eqb c "/"%char
  | String _ rest => ends_with_slash rest
  end.

Definition join (a b : string) : string :=
  if starts_with_slash b then b
  else if (String.eqb a EmptyString || ends_with_slash a)%bool
       then (a ++ b)%string
  else (a ++ "/" ++ b)%string.

Definition path_join (a : string) (b : json) : outcome string :=
  match b with
  | JStr s => Returned (join a s)
  | _ => Raised AttributeError
  end.

(** [os.path.basename]: what follows the last slash *)
Fixpoint basename_aux (acc p : string) : string :=
  match p with
  | EmptyString => acc
  | String c rest =>
      if Ascii.eqb c "/"%char then basename_aux EmptyString rest
      else basename_aux (acc ++ String c EmptyString)%string rest
  end.

Definition basename (p : string) : string := basename_aux EmptyString p.

(** ** The operating system *)

(** What the script asks of its environment.  [World] is the state of the
    machine (file system, network, installed programs).  Queries read it;
    a sub-process and [os.symlink] change it.  Executing a [__pkginfo__.py]
    file is a read: the file holds the metadata of a cube. *)
Class OS (World : Type) : Type := {
  (** [os.path.lexists], [os.path.isdir], [os.path.isfile] *)
  lexists : World -> string -> bool;
  isdir : World -> string -> bool;
  isfile : World -> string -> bool;
  (** [glob.glob(pattern)], in listing order *)
  glob : World -> string -> list string;
  (** [open(file_name)] followed by [json.load]: [IOError] when the file
      cannot be opened, [ValueError] when it is not JSON *)
  open_json_load : World -> string -> outcome json;
  (** [execfile(path, cube_info)]: the globals the file defines *)
  execfile : World -> string -> outcome (list (string * json));
  (** [os.getcwd()] *)
  getcwd : World -> string;
  (** [subprocess.Popen(command, cwd=...)] then [communicate()]:
      [None] when the child cannot be started ([OSError]), otherwise the
      captured stdout, stderr and the return code *)
  popen : list string -> option string -> World ->
          World * option (string * string * Z);
  (** [os.symlink(source, link_name)]: [None] stands for [OSError] *)
  symlink : string -> string -> World -> option World
}.

Record state (World : Type) : Type := mkState {
  world : World;
  (** the lines still to be read by [raw_input] *)
  stdin : list string
}.
Arguments mkState {World} _ _.
Arguments world {World} _.
Arguments stdin {World} _.

(** ** The monad of the script: state, trace and exceptions *)

Definition M (World A : Type) : Type :=
  state World -> outcome A * state World * list event.

Definition ret {World A : Type} (a : A) : M World A :=
  fun s => (Returned a, s, []).

Definition raise {World A : Type} (e : pyexc) : M World A :=
  fun s => (Raised e, s, []).

Definition bind {World A B : Type} (m : M World A) (f : A -> M World B)
  : M World B :=
  fun s =>
    match m s with
    | (Returned a, s1, t1) =>
        match f a s1 with
        | (o, s2, t2) => (o, s2, t1 ++ t2)
        end
    | (Raised e, s1, t1) => (Raised e, s1, t1)
    end.

Definition lift {World A : Type} (o : outcome A) : M World A :=
  fun s => (o, s, []).

Definition emit {World : Type} (e : event) : M World unit :=
  fun s => (Returned tt, s, [e]).

Definition ask {World A : Type} (q : World -> A) : M World A :=
  fun s => (Returned (q (world s)), s, []).

Declare Scope py_scope.
Delimit Scope py_scope with py.
Notation "x <- c1 ;; c2" := (bind c1 (fun x => c2))
  (at level 61, c1 at next level, right associativity) : py_scope.
Notation "c1 ;; c2" := (bind c1 (fun _ => c2))
  (at level 61, right associativity) : py_scope.
Open Scope py_scope.

Definition print {World : Type} (template : string) (args : list arg)
  : M World unit := emit (EPrint template args).

Definition logger {World : Type} (lvl : level) (template : string)
  (args : list arg) : M World unit := emit (ELog lvl template args).

(** [sys.exit()] *)
Definition sys_exit {World A : Type} : M World A := raise SystemExit.

(** [for x in xs: body] *)
Fixpoint for_each {World X : Type} (xs : list X) (body : X -> M World unit)
  : M World unit :=
  match xs with
  | [] => ret tt
  | x :: rest => body x ;; for_each rest body
  end.

(** Projections of a run *)
Definition result_of {S A : Type} (r : outcome A * S * list event)
  : outcome A :=
  fst (fst r).
Definition state_of {S A : Type} (r : outcome A * S * list event) : S :=
  snd (fst r).
Definition trace_of {S A : Type} (r : outcome A * S * list event)
  : list event :=
  snd r.

(** ** [check_configuration_integrity] *)

(** The dict literal of the function, as written. *)
Definition expected_types : list (string * list pyobj) :=
  [ ("version", [TypeObj Tunicode; NoneObj]);
    ("hg_cubes", [TypeObj Tdict]);
    ("git_cubes", [TypeObj Tdict]);
    ("pypi_tools", [TypeObj Tlist]) ].

(** The name [key] in the first [print] of the loop is bound neither in
    the function nor at module level nor among the builtins: evaluating
    it raises [NameError]. *)
Definition global_key : outcome arg := Raised (NameError "key").

Definition missing_template : string :=
  "In file : {0} : Key '{1}' is missing".
Definition wrong_type_template : string :=
  "In file : {0} : Wrong type for value associated to key '{1}' : expected {2} got {3}.".
Definition corrupted_template : string :=
  "Config file data is corrupted!".

(** The loop over [expected_types.items()]; [items] is that list, in the
    order in which Python iterates the dict. *)
Fixpoint check_fields {World : Type} (items : list (string * list pyobj))
  (json_data : json) (file_name : string) (fails : Z) : M World Z :=
  match items with
  | [] => ret fails
  | (field_name, field_types) :: rest =>
      present <- lift (py_contains field_name json_data) ;;
      if negb present then
        key <- lift global_key ;;
        print missing_template [AStr file_name; key] ;;
        check_fields rest json_data file_name (fails + 1)
      else
        value <- lift (py_getitem json_data field_name) ;;
        if negb (type_in (type_of value) field_types) then
          print wrong_type_template
            [AStr file_name; AStr field_name; AObjs field_types;
             AType (type_of value)] ;;
          check_fields rest json_data file_name (fails + 1)
        else
          check_fields rest json_data file_name fails
  end.

Definition check_configuration_integrity {World : Type}
  (items : list (string * list pyobj)) (json_data : json)
  (file_name : string) : M World unit :=
  fails <- check_fields items json_data file_name 0 ;;
  if negb (fails =? 0)%Z then
    print corrupted_template [] ;;
    sys_exit
  else ret tt.

(** ** More of the Python library: [int], list and dict subscripts *)

Definition is_space (c : ascii) : bool :=
  match nat_of_ascii c with
  | 9 | 10 | 11 | 12 | 13 | 32 => true
  | _ => false
  end.

Fixpoint lstrip (s : string) : string :=
  match s with
  | String c rest => if is_space c then lstrip rest else s
  | EmptyString => s
  end.

Fixpoint string_rev (acc s : string) : string :=
  match s with
  | EmptyString => acc
  | String c rest => string_rev (String c acc) rest
  end.

Definition strip (s : string) : string :=
  string_rev EmptyString (lstrip (string_rev EmptyString (lstrip s))).

Definition digit_of (c : ascii) : option Z :=
  let n := nat_of_ascii c in
  if (48 <=? n)%nat && (n <=? 57)%nat then Some (Z.of_nat (n - 48)) else None.

Fixpoint digits (acc : Z) (s : string) : option Z :=
  match s with
  | EmptyString => Some acc
  | String c rest =>
      match digit_of c with
      | Some d => digits (10 * acc + d) rest
      | None => None
      end
  end.

Definition unsigned (s : string) : option Z :=
  match s with
  | EmptyString => None
  | _ => digits 0 s
  end.

(** [int(user_input)] on a line of text: a decimal literal with an
    optional sign, white space allowed around it; [None] stands for
    [ValueError]. *)
Definition py_int (user_input : string) : option Z :=
  match strip user_input with
  | String "-" rest => option_map Z.opp (unsigned rest)
  | String "+" rest => unsigned rest
  | s => unsigned s
  end.

(** [dict(enumerate(xs))]: the keys are 0, 1, 2, ...; CPython iterates
    such a dict by increasing key. *)
Fixpoint enumerate_from {A : Type} (start : Z) (xs : list A) : list (Z * A) :=
  match xs with
  | [] => []
  | x :: rest => (start, x) :: enumerate_from (start + 1) rest
  end.

Definition enumerate {A : Type} (xs : list A) : list (Z * A) :=
  enumerate_from 0 xs.

(** [d[k]] on a dict with integer keys; [None] stands for [KeyError]. *)
Fixpoint dict_get {A : Type} (d : list (Z * A)) (k : Z) : option A :=
  match d with
  | [] => None
  | (k', v) :: rest => if (k =? k')%Z then Some v else dict_get rest k
  end.

(** [xs[k]] on a list: a negative index counts from the end. *)
Definition list_index {A : Type} (xs : list A) (k : Z) : outcome A :=
  let n := Z.of_nat (length xs) in
  let i := if (k <? 0)%Z then (n + k)%Z else k in
  if (i <? 0)%Z then Raised IndexError
  else match nth_error xs (Z.to_nat i) with
       | Some x => Returned x
       | None => Raised IndexError
       end.

(** [" ".join(command)] wants strings. *)
Fixpoint str_items (command : list json) : outcome (list string) :=
  match command with
  | [] => Returned []
  | JStr s :: rest =>
      match str_items rest with
      | Returned l => Returned (s :: l)
      | Raised e => Raised e
      end
  | _ :: _ => Raised TypeError
  end.

(** [a, b, c = package_item] *)
Definition unpack3 (package_item : json) : outcome (json * json * json) :=
  match package_item with
  | JList [a; b; c] => Returned (a, b, c)
  | JList _ => Raised ValueError
  | JStr (String a (String b (String c EmptyString))) =>
      Returned (JStr (String a EmptyString), JStr (String b EmptyString),
                JStr (String c EmptyString))
  | JStr _ => Raised ValueError
  | JDict [(a, _); (b, _); (c, _)] => Returned (JStr a, JStr b, JStr c)
  | JDict _ => Raised ValueError
  | _ => Raised TypeError
  end.

(** [cubes.items()] *)
Definition dict_items (cubes : json) : outcome (list (string * json)) :=
  match cubes with
  | JDict d => Returned d
  | _ => Raised AttributeError
  end.

(** [for tool_name in pypi_tools] *)
Definition iterate (pypi_tools : json) : outcome (list json) :=
  match pypi_tools with
  | JList l => Returned l
  | JDict d => Returned (map (fun kv => JStr (fst kv)) d)
  | JStr s =>
      Returned (map (fun c => JStr (String c EmptyString))
                  (list_ascii_of_string s))
  | _ => Raised TypeError
  end.

Definition nonempty (s : string) : bool :=
  match s with
  | EmptyString => false
  | _ => true
  end.

(** ** The functions of the script *)

Section Script.

Context {World : Type} `{OS World}.

(** [expected_types.items()]: the four entries of the dict literal in the
    order of iteration of the interpreter. *)
Variable expected_items : list (string * list pyobj).

(** The global parameters of the script: the only path of 'CW_CUBES_PATH'
    and the directory of option [-d]. *)
Variable cubes_path : string.
Variable clone_directory : string.

Definition load_configuration (file_name : string) : M World json :=
  opened <- ask (fun w => open_json_load w file_name) ;;
  match opened with
  | Raised IOError =>
      logger INFO "Unable to load Json file %s" [AStr file_name] ;;
      sys_exit
  | Raised e => raise e
  | Returned json_data =>
      check_configuration_integrity expected_items json_data file_name ;;
      ret json_data
  end.

(** The first loop of [choose_version_to_install] *)
Fixpoint load_versions (config_files : list string)
  (available_versions : list json) (files_names : list string)
  : M World (list json * list string) :=
  match config_files with
  | [] => ret (available_versions, files_names)
  | config_file :: rest =>
      json_data <- load_configuration config_file ;;
      version <- lift (py_getitem json_data "version") ;;
      load_versions rest (available_versions ++ [version])
        (files_names ++ [config_file])
  end.

Definition row_template : string :=
  "< {0:2} >  -----  {1:6}  -----  {2:11}".

(** The loop that displays the user options *)
Definition display_choices (version_choices : list (Z * json))
  (files_names : list string) : M World unit :=
  for_each version_choices (fun kv =>
    config_file <- lift (list_index files_names (fst kv)) ;;
    print row_template
      [AInt (fst kv); AJson (snd kv); AStr (basename config_file)]).

(** The body of [try]: [version_choices[int(user_input)]]; the bare
    [except] catches whatever it raises. *)
Definition try_choice (version_choices : list (Z * json))
  (user_input : string) : option (Z * json) :=
  match py_int user_input with
  | Some k => match dict_get version_choices k with
              | Some choice => Some (k, choice)
              | None => None
              end
  | None => None
  end.

(** [while True]: one turn per line of the standard input; [raw_input]
    raises [EOFError] when no line is left. *)
Fixpoint waiting_for_choice (version_choices : list (Z * json))
  (files_names : list string) (lines : list string) (w : World)
  : outcome string * state World * list event :=
  match lines with
  | [] =>
      (print "Please enter your choice:" [] ;;
       raise EOFError) (mkState w [])
  | user_input :: rest =>
      (print "Please enter your choice:" [] ;;
       match try_choice version_choices user_input with
       | None =>
           print "'{0}' is not a valid choice!" [AStr user_input] ;;
           (fun s =>
              waiting_for_choice version_choices files_names rest (world s))
       | Some (k, choice) =>
           print "Setup version '{0}'." [AJson choice] ;;
           lift (list_index files_names k)
       end) (mkState w rest)
  end.

Definition choose_version_to_install (config_folder : string)
  : M World string :=
  print "Loading configuration files in '{0}' ..." [AStr config_folder] ;;
  config_files <- ask (fun w => glob w (join config_folder "*.conf")) ;;
  match config_files with
  | _ :: _ =>
      loaded <- load_versions config_files [] [] ;;
      let available_versions := fst loaded in
      let files_names := snd loaded in
      let version_choices := enumerate available_versions in
      print "Please choose the CubicWeb setup version:" [] ;;
      print "CHOICE  -----  VERSION -----  CONFIG FILE" [] ;;
      display_choices version_choices files_names ;;
      (fun s =>
         waiting_for_choice version_choices files_names (stdin s) (world s))
  | [] =>
      print "No configuration file was found!" [] ;;
      sys_exit
  end.

(** [subprocess.Popen(...)] and [p.communicate()] *)
Definition Popen (command : list string) (cwd : option string)
  : M World (string * string * Z) :=
  fun s =>
    match popen command cwd (world s) with
    | (w, Some p) => (Returned p, mkState w (stdin s), [EPopen command cwd])
    | (w, None) => (Raised OSError, mkState w (stdin s), [EPopen command cwd])
    end.

Definition check_call_with_log (command : list json) (cwd : option string)
  : M World unit :=
  logger DEBUG "--- COMMAND ---" [] ;;
  words <- lift (str_items command) ;;
  logger DEBUG (String.concat " " words) [] ;;
  here <- ask getcwd ;;
  logger DEBUG
    ("CWD =" ++ match cwd with Some d => d | None => here end)%string [] ;;
  logger DEBUG "--- OUTPUT ---" [] ;;
  p <- Popen words cwd ;;
  let stdout := fst (fst p) in
  let stderr := snd (fst p) in
  let returncode := snd p in
  (if nonempty stdout then logger DEBUG stdout [] else ret tt) ;;
  (if nonempty stderr then logger ERROR stderr [] else ret tt) ;;
  logger DEBUG "--- COMMAND STATUS = %s ---" [AInt returncode] ;;
  if negb (returncode =? 0)%Z then
    raise (CalledProcessError returncode command)
  else ret tt.

Definition is_None (v : json) : bool :=
  match v with
  | JNull => true
  | _ => false
  end.

Definition hg_clone (package_url : json) (package_folder : string)
  : list json :=
  [JStr "hg"; JStr "clone"; package_url; JStr package_folder].
Definition hg_update (package_folder : string) (package_version : json)
  : list json :=
  [JStr "hg"; JStr "update"; JStr "--cwd"; JStr package_folder;
   package_version].

Definition hg_dl (package_url package_name package_version : json)
  (package_folder : string) : M World unit :=
  check_call_with_log (hg_clone package_url package_folder) None ;;
  if negb (is_None package_version) then
    check_call_with_log (hg_update package_folder package_version) None
  else ret tt.

Definition git_clone (package_url : json) (package_folder : string)
  : list json :=
  [JStr "git"; JStr "clone"; package_url; JStr package_folder].
Definition git_checkout (package_version : json) : list json :=
  [JStr "git"; JStr "checkout"; package_version].

Definition git_dl (package_url package_name package_version : json)
  (package_folder : string) : M World unit :=
  check_call_with_log (git_clone package_url package_folder) None ;;
  if negb (is_None package_version) then
    check_call_with_log (git_checkout package_version) (Some package_folder)
  else ret tt.

(** [execfile(pkginfo, cube_info)] then [cube_info["version"]] *)
Definition cube_info_version (pkginfo : string) : M World json :=
  loaded <- ask (fun w => execfile w pkginfo) ;;
  cube_info <- lift loaded ;;
  match assoc "version" cube_info with
  | Some v => ret v
  | None => raise KeyError
  end.

Definition Symlink (source link_name : string) : M World unit :=
  fun s =>
    match symlink source link_name (world s) with
    | Some w => (Returned tt, mkState w (stdin s), [ESymlink source link_name])
    | None => (Raised OSError, s, [ESymlink source link_name])
    end.

Definition not_a_cube (folder : string) : pyexc :=
  Exception_ "'{0}' folder do not contain a cube, please investigate."
    [AStr folder].

(** The body of the loop over [cubes.items()] *)
Definition export_cube (repo_type : string) (item : string * json)
  : M World unit :=
  let package_url := fst item in
  let package_item := snd item in
  unpacked <- lift (unpack3 package_item) ;;
  let package_name := fst (fst unpacked) in
  let package_version := snd (fst unpacked) in
  let cube_relative_path := snd unpacked in
  cube_folder <- lift (path_join cubes_path package_name) ;;
  package_folder <- lift (path_join clone_directory package_name) ;;
  package_cube_folder <- lift (path_join package_folder cube_relative_path) ;;
  logger INFO "    > %s (version %s)."
    [AJson package_name; AJson package_version] ;;
  linked <- ask (fun w => lexists w cube_folder) ;;
  if negb linked then
    cloned <- ask (fun w => isdir w package_folder) ;;
    (if negb cloned then
       if String.eqb repo_type "hg" then
         hg_dl (JStr package_url) package_name package_version package_folder
       else if String.eqb repo_type "git" then
         git_dl (JStr package_url) package_name package_version package_folder
       else
         raise (Exception_ "Unknown '{0}' repository type." [AStr repo_type])
     else
       let pkginfo := join package_cube_folder "__pkginfo__.py" in
       found <- ask (fun w => isfile w pkginfo) ;;
       if found then
         version <- cube_info_version pkginfo ;;
         logger INFO "Cube '%s' already cloned with version '%s', skip..."
           [AJson package_name; AJson version]
       else raise (not_a_cube package_cube_folder)) ;;
    logger DEBUG "symlink: %s -> %s."
      [AStr package_cube_folder; AStr cube_folder] ;;
    Symlink package_cube_folder cube_folder
  else
    let pkginfo := join cube_folder "__pkginfo__.py" in
    found <- ask (fun w => isfile w pkginfo) ;;
    if found then
      version <- cube_info_version pkginfo ;;
      logger INFO "Cube '%s' already exported with version '%s', skip..."
        [AJson package_name; AJson version]
    else raise (not_a_cube cube_folder).

(** [for repo_type, cubes in [("hg", hg_cubes), ("git", git_cubes)]] *)
Definition export_cubes (hg_cubes git_cubes : json) : M World unit :=
  for_each [("hg", hg_cubes); ("git", git_cubes)] (fun rc =>
    items <- lift (dict_items (snd rc)) ;;
    for_each items (export_cube (fst rc))).

Definition pip_install (tool_name : json) : list json :=
  [JStr "pip"; JStr "install"; tool_name].

Definition install_pypi_tools (pypi_tools : json) : M World unit :=
  tools <- lift (iterate pypi_tools) ;;
  for_each tools (fun tool_name =>
    logger INFO "    > %s." [AJson tool_name] ;;
    check_call_with_log (pip_install tool_name) None).

(** The module level of the script from "Display user options" on. *)
Definition main (config_folder : string) : M World unit :=
  json_file <- choose_version_to_install config_folder ;;
  json_data <- load_configuration json_file ;;
  version <- lift (py_getitem json_data "version") ;;
  hg_cubes <- lift (py_getitem json_data "hg_cubes") ;;
  git_cubes <- lift (py_getitem json_data "git_cubes") ;;
  pypi_tools <- lift (py_getitem json_data "pypi_tools") ;;
  logger INFO "Installing python modules..." [] ;;
  install_pypi_tools pypi_tools ;;
  logger INFO "Exporting cubes in '%s'..." [AStr cubes_path] ;;
  export_cubes hg_cubes git_cubes.

End Script.

(** ** The start of the script *)

(** [separator.join]'s converse, [s.split(sep)] with a one-character
    separator: the pieces between the separators, empty pieces kept. *)
Fixpoint split_on (sep : ascii) (acc s : string) : list string :=
  match s with
  | EmptyString => [acc]
  | String c rest =>
      if Ascii.eqb c sep then acc :: split_on sep EmptyString rest
      else split_on sep (acc ++ String c EmptyString)%string rest
  end.

Definition py_split (sep : ascii) (s : string) : list string :=
  split_on sep EmptyString s.

(** What the first lines of the script ask of the process and of the
    machine: [os.environ.get], [platform.system()] and
    [os.access(path, os.W_OK)]. *)
Record Host (World : Type) : Type := mkHost {
  environ_get : World -> string -> option string;
  platform_system : World -> string;
  access_W_OK : World -> string -> bool
}.
Arguments mkHost {World} _ _ _.
Arguments environ_get {World} _ _ _.
Arguments platform_system {World} _ _.
Arguments access_W_OK {World} _ _ _.

(** The list of paths as it is formatted in the messages *)
Definition paths_arg (cubes_paths : list string) : arg :=
  AJson (JList (map JStr cubes_paths)).

(** The global map for the logging level, with the values of
    [logging.INFO] and [logging.DEBUG] *)
Definition LEVELS : list (string * Z) := [("info", 20%Z); ("debug", 10%Z)].

Definition levelno (l : level) : Z :=
  match l with
  | DEBUG => 10%Z
  | INFO => 20%Z
  | ERROR => 40%Z
  end.

Section Start.

Context {World : Type} `{OS World}.
Variable host : Host World.

(** The checks of 'CW_CUBES_PATH' and of the clone directory, lines 57 to
    79; [clone_directory] is [options.clone_directory], [None] without
    option [-d].  The result is the pair of [cubes_path] and of the clone
    directory.  The [ValueError] of the last check is raised without its
    message. *)
Definition startup (clone_directory : option string)
  : M World (string * string) :=
  found <- ask (fun w => environ_get host w "CW_CUBES_PATH") ;;
  match found with
  | None =>
      raise (Exception_
               "The 'CW_CUBES_PATH' environment variable need to be set." [])
  | Some value =>
      platform <- ask (platform_system host) ;;
      if String.eqb platform "Linux" then
        let cubes_paths := py_split ":"%char value in
        if negb (length cubes_paths =? 1)%nat then
          raise (Exception_
                   "Only one extra path expected in the 'CW_CUBES_PATH' ({0}) environment variable."
                   [paths_arg cubes_paths])
        else
          cubes_path <- lift (list_index cubes_paths 0) ;;
          writable <- ask (fun w => access_W_OK host w cubes_path) ;;
          if negb writable then
            raise (Exception_
                     "No valid folder for writing found in '{0}'. The 'CW_CUBES_PATH' environment variable has not been set properly."
                     [paths_arg cubes_paths])
          else
            match clone_directory with
            | None => raise ValueError
            | Some directory =>
                is_dir <- ask (fun w => isdir w directory) ;;
                if negb is_dir then raise ValueError
                else ret (cubes_path, directory)
            end
      else
        raise (Exception_ "The '{0}' platform is not supported." [AStr platform])
  end.

(** The whole script: the checks, then the installation. *)
Definition script (expected_items : list (string * list pyobj))
  (clone_directory : option string) (config_folder : string) : M World unit :=
  checked <- startup clone_directory ;;
  main expected_items (fst checked) (snd checked) config_folder.

End Start.

(** What the terminal shows of a trace when the script runs with option
    [-l debug_level]: what [print] writes, and the log records whose level
    reaches [LEVELS[debug_level]], the level given to
    [logging.basicConfig]. *)
Definition displayed (debug_level : string) (t : list event) : list event :=
  match assoc debug_level LEVELS with
  | Some threshold =>
      filter (fun e => match e with
                       | EPrint _ _ => true
                       | ELog l _ _ => (threshold <=? levelno l)%Z
                       | _ => false
                       end) t
  | None => []
  end.

(** ** Vocabulary of the statements *)

(** The commands the script is written to run *)
Definition known_command (c : list string * option string) : bool :=
  match c with
  | (["pip"; "install"; _], None) => true
  | (["hg"; "clone"; _; _], None) => true
  | (["hg"; "update"; "--cwd"; _; _], None) => true
  | (["git"; "clone"; _; _], None) => true
  | (["git"; "checkout"; _], Some _) => true
  | _ => false
  end.

(** Every event of every run of [m] satisfies [P]. *)
Definition only {World A : Type} (P : event -> bool) (m : M World A) : Prop :=
  forall s, Forall (fun e => P e = true) (trace_of (m s)).

Definition runs_known (e : event) : bool :=
  match e with
  | EPopen command cwd => known_command (command, cwd)
  | _ => true
  end.

Definition no_process (e : event) : bool :=
  match e with
  | EPopen _ _ => false
  | _ => true
  end.

Definition no_link (e : event) : bool :=
  match e with
  | ESymlink _ _ => false
  | _ => true
  end.

(** A computation that leaves the machine and the input as they are *)
Definition reads_only {World A : Type} (m : M World A) : Prop :=
  forall s, state_of (m s) = s.

(** The program of a command, and the events whose process, if any, runs
    a given program *)
Definition program (c : list string * option string) : string :=
  hd EmptyString (fst c).

Definition runs_program (name : string) (e : event) : bool :=
  match e with
  | EPopen command cwd => String.eqb (program (command, cwd)) name
  | _ => true
  end.

(** The trace is made of consecutive parts, one for each predicate of the
    list, in order; a part may be empty. *)
Fixpoint phased (phases : list (event -> bool)) (t : list event) : Prop :=
  match phases with
  | [] => t = []
  | P :: rest =>
      exists t1 t2,
        t = t1 ++ t2 /\ Forall (fun e => P e = true) t1 /\ phased rest t2
  end.

Definition in_phases {World A : Type} (phases : list (event -> bool))
  (m : M World A) : Prop :=
  forall s, phased phases (trace_of (m s)).

(** What is left of the input is an end of what there was: lines are
    only taken from the front. *)
Definition consumes_front {World : Type} (before after : state World) : Prop :=
  world after = world before /\
  exists consumed, stdin before = consumed ++ stdin after.

(** The character [c] occurs in [s]. *)
Fixpoint occurs (c : ascii) (s : string) : bool :=
  match s with
  | EmptyString => false
  | String c' rest => Ascii.eqb c' c || occurs c rest
  end.

(** A required field offends when it is absent or when the type of its
    value is not in the list of the field. *)
Definition offending (d : list (string * json)) (it : string * list pyobj)
  : bool :=
  match assoc (fst it) d with
  | Some v => negb (type_in (type_of v) (snd it))
  | None => true
  end.

(** The line printed for a field of the wrong type *)
Definition wrong_type_event (file_name : string) (d : list (string * json))
  (it : string * list pyobj) : event :=
  EPrint wrong_type_template
    [AStr file_name; AStr (fst it); AObjs (snd it);
     AType (match assoc (fst it) d with
            | Some v => type_of v
            | None => TNoneType
            end)].

Definition prefix_trace {S A : Type} (t : list event)
  (r : outcome A * S * list event) : outcome A * S * list event :=
  (result_of r, state_of r, t ++ trace_of r).

(** The external commands and the links of a trace, in order *)
Definition commands_of (t : list event) : list (list string * option string) :=
  flat_map (fun e => match e with
                     | EPopen command cwd => [(command, cwd)]
                     | _ => []
                     end) t.

Definition symlinks_of (t : list event) : list (string * string) :=
  flat_map (fun e => match e with
                     | ESymlink source link_name => [(source, link_name)]
                     | _ => []
                     end) t.

Definition errors_of (t : list event) : list event :=
  filter (fun e => match e with
                   | ELog ERROR _ _ => true
                   | _ => false
                   end) t.

(** The events of one call of [check_call_with_log] whose child ran *)
Definition call_trace (words : list string) (cwd : option string)
  (here stdout stderr : string) (returncode : Z) : list event :=
  [ ELog DEBUG "--- COMMAND ---" [];
    ELog DEBUG (String.concat " " words) [];
    ELog DEBUG
      ("CWD =" ++ match cwd with Some d => d | None => here end)%string [];
    ELog DEBUG "--- OUTPUT ---" [];
    EPopen words cwd ]
  ++ (if nonempty stdout then [ELog DEBUG stdout []] else [])
  ++ (if nonempty stderr then [ELog ERROR stderr []] else [])
  ++ [ ELog DEBUG "--- COMMAND STATUS = %s ---" [AInt returncode] ].

(** The child process ran and ended with status zero. *)
Definition exited_zero (p : option (string * string * Z)) : bool :=
  match p with
  | Some (_, _, returncode) => (returncode =? 0)%Z
  | None => false
  end.

(** A line of input that is not a key of [version_choices], the dict of
    [n] versions: not an integer, or an integer out of range. *)
Definition invalid_input (n : nat) (user_input : string) : Prop :=
  match py_int user_input with
  | None => True
  | Some k => (k < 0 \/ Z.of_nat n <= k)%Z
  end.

(** A cube entry that is already exported: its link exists in the cubes
    path and the pkg-info file found through the link declares a version. *)
Definition already_exported {World : Type} `{OS World} (w : World)
  (cubes_path : string) (item : string * json) : Prop :=
  exists (n : string) (version : json) (r : string)
         (g : list (string * json)) (v : json),
    unpack3 (snd item) = Returned (JStr n, version, JStr r) /\
    lexists w (join cubes_path n) = true /\
    isfile w (join (join cubes_path n) "__pkginfo__.py") = true /\
    execfile w (join (join cubes_path n) "__pkginfo__.py") = Returned g /\
    assoc "version" g = Some v.

(** A configuration file that loads: a JSON object whose four fields have
    the accepted types. *)
Definition accepted_file {World : Type} `{OS World} (w : World)
  (file_name : string) : Prop :=
  exists (d : list (string * json)) (v : string)
         (hg git : list (string * json)) (tools : list json),
    open_json_load w file_name = Returned (JDict d) /\
    assoc "version" d = Some (JStr v) /\
    assoc "hg_cubes" d = Some (JDict hg) /\
    assoc "git_cubes" d = Some (JDict git) /\
    assoc "pypi_tools" d = Some (JList tools).

(** The version a configuration file declares *)
Definition declared_version {World : Type} `{OS World} (w : World)
  (file_name : string) : json :=
  match open_json_load w file_name with
  | Returned j => match py_getitem j "version" with
                  | Returned v => v
                  | Raised _ => JNull
                  end
  | Raised _ => JNull
  end.

(** The line of the table of choices for the key [k] *)
Definition row_event (versions : list json) (files_names : list string)
  (k : Z) : event :=
  EPrint row_template
    [AInt k; AJson (nth (Z.to_nat k) versions JNull);
     AStr (basename (nth (Z.to_nat k) files_names EmptyString))].

(** The log line that opens every turn of the loop over the cubes *)
Definition turn_event (package_name package_version : json) : event :=
  ELog INFO "    > %s (version %s)."
    [AJson package_name; AJson package_version].

(** The turn of a cube that is not linked: what comes before the link *)
Definition fetch_or_reuse {World : Type} `{OS World}
  (repo_type package_url : string)
  (package_name package_version : json)
  (package_folder package_cube_folder : string) (cloned : bool)
  : M World unit :=
  if negb cloned then
    if String.eqb repo_type "hg" then
      hg_dl (JStr package_url) package_name package_version package_folder
    else if String.eqb repo_type "git" then
      git_dl (JStr package_url) package_name package_version package_folder
    else
      raise (Exception_ "Unknown '{0}' repository type." [AStr repo_type])
  else
    let pkginfo := join package_cube_folder "__pkginfo__.py" in
    found <- ask (fun w => isfile w pkginfo) ;;
    if found then
      version <- cube_info_version pkginfo ;;
      logger INFO "Cube '%s' already cloned with version '%s', skip..."
        [AJson package_name; AJson version]
    else raise (not_a_cube package_cube_folder).

Definition loading_event (config_folder : string) : event :=
  EPrint "Loading configuration files in '{0}' ..." [AStr config_folder].

Definition prompt_event : event := EPrint "Please enter your choice:" [].

Definition invalid_event (user_input : string) : event :=
  EPrint "'{0}' is not a valid choice!" [AStr user_input].

(** ** A small concrete machine, to run the script on *)

Module Toy.

(** A file system without permissions: directories, regular files (with
    the globals a file defines when it is executed) and symbolic links,
    all by normal path; remote repositories (the files a clone brings);
    the outputs of the commands. *)
Record world : Type := mkWorld {
  dirs : list string;
  files : list (string * list (string * json));
  links : list (string * string);   (** link name, target *)
  listing : list (string * list string);   (** the answers of [glob] *)
  configs : list (string * json);          (** the readable JSON files *)
  (** url, then the files of the repository by relative path *)
  repositories : list (string * list (string * list (string * json)));
  (** the commands that do not end silently with status 0 *)
  commands : list (list string * (string * string * Z));
  here : string
}.

Definition mem (p : string) (l : list string) : bool :=
  existsb (String.eqb p) l.

Fixpoint split_slash (acc p : string) : list string :=
  match p with
  | EmptyString => [acc]
  | String c rest =>
      if Ascii.eqb c "/"%char then acc :: split_slash EmptyString rest
      else split_slash (acc ++ String c EmptyString)%string rest
  end.

(** The path without its empty and [.] components *)
Definition normal (p : string) : string :=
  let parts := filter (fun c => negb (String.eqb c ".")
                                && negb (String.eqb c EmptyString))
                 (split_slash EmptyString p) in
  ((if starts_with_slash p then "/" else EmptyString)
   ++ String.concat "/" parts)%string.

Fixpoint strip_prefix (pre p : string) : option string :=
  match pre, p with
  | EmptyString, _ => Some p
  | String a pre', String b p' =>
      if Ascii.eqb a b then strip_prefix pre' p' else None
  | String _ _, EmptyString => None
  end.

(** The path with a leading link replaced by its target *)
Fixpoint resolve (l : list (string * string)) (p : string) : string :=
  match l with
  | [] => p
  | (name, target) :: rest =>
      match strip_prefix name p with
      | Some EmptyString => normal target
      | Some (String "/" tail) => normal (target ++ "/" ++ tail)
      | _ => resolve rest p
      end
  end.

Definition real (w : world) (p : string) : string :=
  resolve (links w) (normal p).

Fixpoint words_eqb (a b : list string) : bool :=
  match a, b with
  | [], [] => true
  | x :: a', y :: b' => String.eqb x y && words_eqb a' b'
  | _, _ => false
  end.

Fixpoint find_command (c : list string)
  (table : list (list string * (string * string * Z))) : string * string * Z :=
  match table with
  | [] => (EmptyString, EmptyString, 0%Z)
  | (c', r) :: rest => if words_eqb c c' then r else find_command c rest
  end.

(** A clone that succeeds creates its destination directory and the files
    of the repository. *)
Definition clone (url destination : string) (w : world) : world :=
  let content := match assoc url (repositories w) with
                 | Some l => l
                 | None => []
                 end in
  mkWorld (normal destination :: dirs w)
    (map (fun f => (normal (destination ++ "/" ++ fst f), snd f)) content
     ++ files w)
    (links w) (listing w) (configs w) (repositories w) (commands w) (here w).

Definition run (c : list string) (cwd : option string) (w : world)
  : world * option (string * string * Z) :=
  let r := find_command c (commands w) in
  match c with
  | [_; "clone"; url; destination] =>
      if (snd r =? 0)%Z then (clone url destination w, Some r) else (w, Some r)
  | _ => (w, Some r)
  end.

Definition exists_ (w : world) (p : string) : bool :=
  has_key (normal p) (links w) || mem (real w p) (dirs w)
  || has_key (real w p) (files w).

Definition link (source link_name : string) (w : world) : option world :=
  if exists_ w link_name then None
  else Some (mkWorld (dirs w) (files w)
               ((normal link_name, source) :: links w)
               (listing w) (configs w) (repositories w) (commands w) (here w)).

#[global] Instance os : OS world := {|
  lexists := exists_;
  isdir w p := mem (real w p) (dirs w);
  isfile w p := has_key (real w p) (files w);
  glob w pattern := match assoc pattern (listing w) with
                    | Some l => l
                    | None => []
                    end;
  open_json_load w p := match assoc p (configs w) with
                        | Some j => Returned j
                        | None => Raised IOError
                        end;
  execfile w p := match assoc (real w p) (files w) with
                  | Some g => Returned g
                  | None => Raised IOError
                  end;
  getcwd w := here w;
  popen := run;
  symlink := link
|}.

Definition empty : world := mkWorld [] [] [] [] [] [] [] "/home/user".

(** Configurations: the one of the scenario of the documentation, one
    whose version is null, and one whose nested contents are not of the
    documented shape. *)
Definition scenario_conf : list (string * json) :=
  [ ("version", JStr "1.0");
    ("hg_cubes", JDict []);
    ("git_cubes",
     JDict [("https://x/repo.git", JList [JStr "mycube"; JNull; JStr "."])]);
    ("pypi_tools", JList [JStr "pytest"]) ].

Definition null_version_conf : list (string * json) :=
  [ ("version", JNull);
    ("hg_cubes", JDict []);
    ("git_cubes", JDict []);
    ("pypi_tools", JList []) ].

Definition malformed_conf : list (string * json) :=
  [ ("version", JStr "1.0");
    ("hg_cubes", JDict [("https://x/hg", JList [JStr "onlyname"])]);
    ("git_cubes", JDict []);
    ("pypi_tools", JList [JInt 3]) ].

Definition scenario_git_cubes : json :=
  JDict [("https://x/repo.git", JList [JStr "mycube"; JNull; JStr "."])].

(** A machine with empty folders that reaches the repository of the
    scenario; the cube is at the root of the repository. *)
Definition fresh : world :=
  mkWorld [] [] [] [] []
    [("https://x/repo.git",
      [("__pkginfo__.py", [("version", JStr "0.1")]);
       ("views.py", [])])]
    [] "/home/user".

(** The same, but the cube is in the folder [cube] of the repository,
    while the configuration says [.]. *)
Definition fresh_elsewhere : world :=
  mkWorld [] [] [] [] []
    [("https://x/repo.git",
      [("README", []);
       ("cube/__pkginfo__.py", [("version", JStr "0.1")])])]
    [] "/home/user".

(** A machine on which the clone of the mercurial cube fails *)
Definition failing_clone : world :=
  mkWorld [] [] [] [] [] []
    [(["hg"; "clone"; "https://x/hg"; "/clone/cube"],
      (EmptyString, "abort: error", 255%Z))]
    "/home/user".

(** A machine on which the cube of the scenario is cloned and linked *)
Definition installed : world :=
  mkWorld ["/clone/mycube"]
    [("/clone/mycube/__pkginfo__.py", [("version", JStr "0.1")])]
    [("/cubes/mycube", "/clone/mycube/.")]
    [] [] [] [] "/home/user".

(** A machine on which the cube is cloned, without a pkg-info file at the
    relative path, and not linked *)
Definition cloned_only : world :=
  mkWorld ["/clone/mycube"] [("/clone/mycube/README", [])] [] [] [] [] []
    "/home/user".

(** A machine on which pip succeeds and writes to both streams *)
Definition noisy : world :=
  mkWorld [] [] [] [] [] []
    [(["pip"; "install"; "pytest"],
      ("Collecting pytest", "WARNING: pip is old", 0%Z))]
    "/home/user".

Definition second_conf : list (string * json) :=
  [ ("version", JStr "2.0");
    ("hg_cubes", JDict []);
    ("git_cubes", JDict []);
    ("pypi_tools", JList []) ].

(** A machine with two configuration files *)
Definition two_confs : world :=
  mkWorld [] [] []
    [("/configs/*.conf", ["/configs/a.conf"; "/configs/b.conf"])]
    [("/configs/a.conf", JDict scenario_conf);
     ("/configs/b.conf", JDict second_conf)]
    [] [] "/home/user".

(** A machine that holds [d] in the file [piws.conf] and reaches the
    repository of the scenario *)
Definition with_conf (d : list (string * json)) : world :=
  mkWorld [] [] [] [("/configs/*.conf", ["/configs/piws.conf"])]
    [("/configs/piws.conf", JDict d)]
    [("https://x/repo.git",
      [("__pkginfo__.py", [("version", JStr "0.1")])])]
    [] "/home/user".

End Toy.

(** Hosts and more machines: a host is given by the value of the variable
    and by its platform; a path is writable when it is a directory of the
    machine. *)
Module Cases.

Definition writable (w : Toy.world) (p : string) : bool :=
  Toy.mem (Toy.real w p) (Toy.dirs w).

Definition linux (value : option string) : Host Toy.world :=
  mkHost (fun _ name => if String.eqb name "CW_CUBES_PATH" then value else None)
         (fun _ => "Linux") writable.

Definition windows (value : option string) : Host Toy.world :=
  mkHost (fun _ name => if String.eqb name "CW_CUBES_PATH" then value else None)
         (fun _ => "Windows") writable.

(** A machine with the two folders of the scenario, its configuration
    and its repository *)
Definition ready : Toy.world :=
  Toy.mkWorld ["/cubes"; "/clone"] [] []
    [("/configs/*.conf", ["/configs/piws.conf"])]
    [("/configs/piws.conf", JDict Toy.scenario_conf)]
    [("https://x/repo.git",
      [("__pkginfo__.py", [("version", JStr "0.1")])])]
    [] "/home/user".

(** A configuration whose version is a number and whose mercurial cubes
    are an array *)
Definition wrong_types_conf : list (string * json) :=
  [ ("version", JInt 3);
    ("hg_cubes", JList []);
    ("git_cubes", JDict []);
    ("pypi_tools", JList []) ].

(** A machine whose second configuration file is of the wrong types *)
Definition mixed : Toy.world :=
  Toy.mkWorld [] [] []
    [("/configs/*.conf", ["/configs/a.conf"; "/configs/b.conf"])]
    [("/configs/a.conf", JDict Toy.scenario_conf);
     ("/configs/b.conf", JDict wrong_types_conf)]
    [] [] "/home/user".

(** A machine on which the cube is cloned, with its pkg-info file, and
    not linked *)
Definition cloned : Toy.world :=
  Toy.mkWorld ["/clone/mycube"]
    [("/clone/mycube/__pkginfo__.py", [("version", JStr "0.1")])]
    [] [] [] [] [] "/home/user".

(** The cube of the scenario with a version pinned *)
Definition pinned_cube : json := JList [JStr "mycube"; JStr "2.0"; JStr "."].

End Cases.

(** ** Validation *)

Lemma has_key_assoc {A : Type} (k : string) (d : list (string * A)) :
  has_key k d = match assoc k d with Some _ => true | None => false end.
Proof.
  induction d as [|[k' v] d IH]; simpl; [reflexivity|].
  destruct (String.eqb k k'); simpl; [reflexivity | exact IH].
Qed.

Section Validation.

Context {World : Type}.

(** One turn of the loop on a dict *)
Lemma check_fields_step (f : string) (tys : list pyobj)
  (items : list (string * list pyobj)) (d : list (string * json))
  (file_name : string) (fails : Z) (s : state World) :
  check_fields ((f, tys) :: items) (JDict d) file_name fails s =
  match assoc f d with
  | None => (Raised (NameError "key"), s, [])
  | Some v =>
      if type_in (type_of v) tys
      then check_fields items (JDict d) file_name fails s
      else prefix_trace [wrong_type_event file_name d (f, tys)]
             (check_fields items (JDict d) file_name (fails + 1) s)
  end.
Proof.
  cbn [check_fields py_contains py_getitem].
  unfold bind, lift, print, emit, prefix_trace, wrong_type_event,
    result_of, state_of, trace_of.
  rewrite has_key_assoc. cbn [fst snd].
  destruct (assoc f d) as [v|]; cbn; [|reflexivity].
  destruct (type_in (type_of v) tys); cbn.
  - destruct (check_fields items (JDict d) file_name fails s) as [[o s'] t].
    destruct o; reflexivity.
  - destruct (check_fields items (JDict d) file_name (fails + 1) s)
      as [[o s'] t].
    reflexivity.
Qed.

(** When every field is present the loop counts the fields of the wrong
    type and prints one line for each, in the order of iteration. *)
Lemma check_fields_present (items : list (string * list pyobj))
  (d : list (string * json)) (file_name : string) :
  Forall (fun it => has_key (fst it) d = true) items ->
  forall (fails : Z) (s : state World),
    check_fields items (JDict d) file_name fails s =
    (Returned (fails + Z.of_nat (length (filter (offending d) items)))%Z, s,
     map (wrong_type_event file_name d) (filter (offending d) items)).
Proof.
  induction 1 as [|[f tys] items Hk _ IH]; intros fails s.
  - simpl. unfold ret. rewrite Z.add_0_r. reflexivity.
  - rewrite check_fields_step. cbn [filter].
    cbn [fst snd] in *. rewrite has_key_assoc in Hk.
    destruct (assoc f d) as [v|] eqn:Hf; [|discriminate].
    assert (Hoff : offending d (f, tys) = negb (type_in (type_of v) tys))
      by (unfold offending; cbn [fst snd]; rewrite Hf; reflexivity).
    rewrite Hoff.
    destruct (type_in (type_of v) tys); cbn [negb].
    + apply IH.
    + rewrite IH. unfold prefix_trace, result_of, state_of, trace_of.
      cbn [fst snd length map app].
      replace (fails + 1 + Z.of_nat (length (filter (offending d) items)))%Z
        with (fails + Z.of_nat (S (length (filter (offending d) items))))%Z
        by lia.
      reflexivity.
Qed.

(** When a field is absent the loop stops at the first absent field with
    [NameError]; it has printed wrong-type lines only. *)
Lemma check_fields_missing (items : list (string * list pyobj))
  (d : list (string * json)) (file_name : string) :
  Exists (fun it => has_key (fst it) d = false) items ->
  forall (fails : Z) (s : state World),
  exists t,
    check_fields items (JDict d) file_name fails s =
      (Raised (NameError "key"), s, t) /\
    Forall (fun e => exists it, e = wrong_type_event file_name d it) t.
Proof.
  induction items as [|[f tys] items IH]; intros Hex fails s.
  - inversion Hex.
  - rewrite check_fields_step.
    destruct (assoc f d) as [v|] eqn:Hf.
    + assert (Hrest : Exists (fun it => has_key (fst it) d = false) items).
      { inversion Hex as [? ? Hh|]; subst; [|assumption].
        cbn [fst] in Hh. rewrite has_key_assoc, Hf in Hh. discriminate. }
      destruct (type_in (type_of v) tys).
      * apply IH; assumption.
      * destruct (IH Hrest (fails + 1)%Z s) as [t [Ht Hall]].
        exists (wrong_type_event file_name d (f, tys) :: t). rewrite Ht.
        split; [reflexivity|]. constructor; [eexists; reflexivity | assumption].
    + exists []. split; [reflexivity | constructor].
Qed.

(** The whole function on a dict that has the four keys: it returns
    without a word when no field offends; otherwise it prints one line per
    field of the wrong type, then the closing line, and exits. *)
Lemma check_configuration_integrity_present
  (items : list (string * list pyobj)) (d : list (string * json))
  (file_name : string) (s : state World) :
  Forall (fun it => has_key (fst it) d = true) items ->
  check_configuration_integrity items (JDict d) file_name s =
  match filter (offending d) items with
  | [] => (Returned tt, s, [])
  | bad => (Raised SystemExit, s,
            map (wrong_type_event file_name d) bad
            ++ [EPrint corrupted_template []])
  end.
Proof.
  intros Hall. unfold check_configuration_integrity, bind.
  rewrite (check_fields_present items d file_name Hall).
  destruct (filter (offending d) items) as [|b bad]; [reflexivity|].
  cbn [length]. rewrite Z.add_0_l.
  replace (Z.of_nat (S (length bad)) =? 0)%Z with false
    by (symmetry; apply Z.eqb_neq; lia).
  reflexivity.
Qed.

End Validation.

Lemma filter_Permutation {A : Type} (f : A -> bool) (l l' : list A) :
  Permutation l l' -> Permutation (filter f l) (filter f l').
Proof.
  induction 1 as [|x l l' _ IH|x y l|l l' l'' _ IH1 _ IH2]; cbn [filter].
  - constructor.
  - destruct (f x); [constructor|]; exact IH.
  - destruct (f x), (f y); try apply Permutation_refl.
    constructor.
  - eapply Permutation_trans; eassumption.
Qed.

Section Loading.

Context {World : Type} `{OS World}.

(** Whatever the order in which Python iterates [expected_types] *)
Variable expected_items : list (string * list pyobj).
Hypothesis expected_items_perm : Permutation expected_items expected_types.

Lemma required_fields_present (d : list (string * json)) :
  (forall f, In f (map fst expected_types) -> has_key f d = true) ->
  Forall (fun it => has_key (fst it) d = true) expected_items.
Proof.
  intros Hall. apply Forall_forall. intros it Hin.
  apply Hall. apply in_map.
  eapply Permutation_in; [exact expected_items_perm | exact Hin].
Qed.

Lemma four_fields_present (d : list (string * json)) (a b c e : json) :
  assoc "version" d = Some a -> assoc "hg_cubes" d = Some b ->
  assoc "git_cubes" d = Some c -> assoc "pypi_tools" d = Some e ->
  Forall (fun it => has_key (fst it) d = true) expected_items.
Proof.
  intros Ha Hb Hc He. apply required_fields_present.
  intros f [<-|[<-|[<-|[<-|[]]]]]; rewrite has_key_assoc; cbn [fst];
    [rewrite Ha | rewrite Hb | rewrite Hc | rewrite He]; reflexivity.
Qed.

Lemma load_configuration_opened (file_name : string) (s : state World)
  (j : json) :
  open_json_load (world s) file_name = Returned j ->
  load_configuration expected_items file_name s =
  match check_configuration_integrity expected_items j file_name s with
  | (Returned _, s1, t1) => (Returned j, s1, t1)
  | (Raised e, s1, t1) => (Raised e, s1, t1)
  end.
Proof.
  intros Hopen. unfold load_configuration, bind at 1, ask. rewrite Hopen.
  cbn [app]. unfold bind at 1.
  destruct (check_configuration_integrity expected_items j file_name s)
    as [[[u|e] s1] t1]; cbn; [|reflexivity].
  rewrite app_nil_r. reflexivity.
Qed.

(** A configuration whose four fields have the types of [expected_types]
    passes, whatever is inside the fields. *)
Lemma accepted_configuration (file_name : string) (s : state World)
  (d : list (string * json)) (v : string) (hg git : list (string * json))
  (tools : list json) :
  assoc "version" d = Some (JStr v) ->
  assoc "hg_cubes" d = Some (JDict hg) ->
  assoc "git_cubes" d = Some (JDict git) ->
  assoc "pypi_tools" d = Some (JList tools) ->
  check_configuration_integrity expected_items (JDict d) file_name s
    = (Returned tt, s, []).
Proof.
  intros Hv Hhg Hgit Htools.
  rewrite check_configuration_integrity_present
    by (eapply four_fields_present; eassumption).
  assert (Hnone : filter (offending d) expected_items = []).
  { apply Permutation_nil.
    replace [] with (filter (offending d) expected_types).
    - apply filter_Permutation. symmetry. exact expected_items_perm.
    - unfold expected_types, offending. cbn [filter fst snd].
      rewrite Hv, Hhg, Hgit, Htools. reflexivity. }
  rewrite Hnone. reflexivity.
Qed.

(** X20.  The wrong-type half of the contract.  When the four keys are present
    and the value of some field has a type that is not accepted, the
    function prints one line per such field, then the closing line, and
    exits. *)
Lemma check_configuration_integrity_wrong_types (file_name : string)
  (s : state World) (d : list (string * json)) :
  (forall f, In f (map fst expected_types) -> has_key f d = true) ->
  filter (offending d) expected_types <> [] ->
  exists lines,
    check_configuration_integrity expected_items (JDict d) file_name s
      = (Raised SystemExit, s, lines ++ [EPrint corrupted_template []]) /\
    Permutation lines
      (map (wrong_type_event file_name d)
         (filter (offending d) expected_types)).
Proof.
  intros Hpresent Hsome.
  rewrite check_configuration_integrity_present
    by (apply required_fields_present; exact Hpresent).
  pose proof (filter_Permutation (offending d) _ _ expected_items_perm)
    as Hperm.
  destruct (filter (offending d) expected_items) as [|b bad].
  - apply Permutation_nil in Hperm. contradiction.
  - eexists. split; [reflexivity|]. apply Permutation_map. exact Hperm.
Qed.

(** C1 (the defect in the code).  When a required key is absent from the
    configuration object, [check_configuration_integrity] does not print
    a line for that key and does not exit: the [print] of the absent-key
    branch names the unbound variable [key], so the function raises
    [NameError], an exception that [except Exception] catches, at the first
    absent key; before it the function has printed wrong-type lines only,
    and the closing line is never printed. *)
Theorem check_configuration_integrity_missing_key
  (field : string) (d : list (string * json)) (file_name : string)
  (s : state World) :
  In field (map fst expected_types) ->
  has_key field d = false ->
  exists t,
    check_configuration_integrity expected_items (JDict d) file_name s
      = (Raised (NameError "key"), s, t) /\
    is_Exception (NameError "key") = true /\
    Forall (fun e => exists it, e = wrong_type_event file_name d it) t.
Proof.
  intros Hreq Hmiss.
  assert (Hex : Exists (fun it => has_key (fst it) d = false) expected_items).
  { apply in_map_iff in Hreq. destruct Hreq as [it [Hfst Hin]].
    apply Exists_exists. exists it. split.
    - eapply Permutation_in; [symmetry; exact expected_items_perm | exact Hin].
    - rewrite Hfst. exact Hmiss. }
  destruct (check_fields_missing expected_items d file_name Hex 0%Z s)
    as [t [Ht Hall]].
  exists t. unfold check_configuration_integrity, bind. rewrite Ht.
  repeat split; assumption.
Qed.

(** C5 (the defect in the code).  A configuration whose [version] is null,
    the three other fields having their accepted types, is rejected: the
    list for "version" holds the object [None], not the type of null, so
    the function prints the wrong-type line for "version", then the
    closing line, and exits; [load_configuration] does not return. *)
Theorem check_configuration_integrity_null_version
  (file_name : string) (s : state World) (d : list (string * json))
  (hg git : list (string * json)) (tools : list json) :
  assoc "version" d = Some JNull ->
  assoc "hg_cubes" d = Some (JDict hg) ->
  assoc "git_cubes" d = Some (JDict git) ->
  assoc "pypi_tools" d = Some (JList tools) ->
  check_configuration_integrity expected_items (JDict d) file_name s
    = (Raised SystemExit, s,
       [ EPrint wrong_type_template
           [AStr file_name; AStr "version"; AObjs [TypeObj Tunicode; NoneObj];
            AType TNoneType];
         EPrint corrupted_template [] ]) /\
  (open_json_load (world s) file_name = Returned (JDict d) ->
   result_of (load_configuration expected_items file_name s)
   = Raised SystemExit).
Proof.
  intros Hv Hhg Hgit Htools.
  assert (Hcheck :
    check_configuration_integrity expected_items (JDict d) file_name s
    = (Raised SystemExit, s,
       [ EPrint wrong_type_template
           [AStr file_name; AStr "version"; AObjs [TypeObj Tunicode; NoneObj];
            AType TNoneType];
         EPrint corrupted_template [] ])).
  { rewrite check_configuration_integrity_present
      by (eapply four_fields_present; eassumption).
    assert (Hone : filter (offending d) expected_items
                   = [("version", [TypeObj Tunicode; NoneObj])]).
    { apply Permutation_length_1_inv.
      replace [("version", [TypeObj Tunicode; NoneObj])]
        with (filter (offending d) expected_types).
      - apply filter_Permutation. symmetry. exact expected_items_perm.
      - unfold expected_types, offending. cbn [filter fst snd].
        rewrite Hv, Hhg, Hgit, Htools. reflexivity. }
    rewrite Hone. unfold wrong_type_event. cbn [map app fst snd].
    rewrite Hv. reflexivity. }
  split; [exact Hcheck|].
  intros Hopen. rewrite (load_configuration_opened _ _ _ Hopen), Hcheck.
  reflexivity.
Qed.

(** C10.  Validation looks at the types of the four fields and at nothing
    inside them: when the fields have the accepted types,
    [check_configuration_integrity] returns without printing and
    [load_configuration] returns the object as it was read, whatever the
    entries of the cubes and the elements of [pypi_tools] are.  The failure
    comes later: a cube entry that is a list of another length than three
    raises [ValueError] at the unpacking of [export_cube], and an element of
    [pypi_tools] that is not a string raises [TypeError] in the loop of the
    tools before any command is run. *)
Theorem load_configuration_top_level_only
  (file_name : string) (s : state World) (d : list (string * json))
  (v : string) (hg git : list (string * json)) (tools : list json) :
  open_json_load (world s) file_name = Returned (JDict d) ->
  assoc "version" d = Some (JStr v) ->
  assoc "hg_cubes" d = Some (JDict hg) ->
  assoc "git_cubes" d = Some (JDict git) ->
  assoc "pypi_tools" d = Some (JList tools) ->
  check_configuration_integrity expected_items (JDict d) file_name s
    = (Returned tt, s, []) /\
  load_configuration expected_items file_name s = (Returned (JDict d), s, []) /\
  (forall cubes_path clone_directory repo_type url entry,
     length entry <> 3%nat ->
     export_cube cubes_path clone_directory repo_type (url, JList entry) s
       = (Raised ValueError, s, [])) /\
  (forall tool rest,
     (forall x, tool <> JStr x) ->
     let r := install_pypi_tools (JList (tool :: rest)) s in
     result_of r = Raised TypeError /\ commands_of (trace_of r) = []).
Proof.
  intros Hopen Hv Hhg Hgit Htools.
  pose proof (accepted_configuration file_name s d v hg git tools
                Hv Hhg Hgit Htools) as Hcheck.
  split; [exact Hcheck|]. split.
  { rewrite (load_configuration_opened _ _ _ Hopen), Hcheck. reflexivity. }
  split.
  - intros cubes_path clone_directory repo_type url entry Hlen.
    unfold export_cube, bind, lift. cbn [fst snd unpack3].
    destruct entry as [|a [|b [|c [|e entry]]]]; try reflexivity.
    exfalso. apply Hlen. reflexivity.
  - intros tool rest Hns. cbv zeta.
    unfold install_pypi_tools, bind at 1, lift at 1. cbn [iterate for_each].
    unfold bind at 1. unfold bind at 1. unfold logger at 1, emit at 1.
    unfold check_call_with_log, bind at 1, logger at 1, emit at 1.
    unfold bind at 1, lift at 1. unfold pip_install. cbn [str_items].
    destruct tool; try (split; reflexivity).
    exfalso. eapply Hns. reflexivity.
Qed.

End Loading.

(** ** Sequencing *)

Section Sequencing.

Context {World A B : Type}.

Lemma bind_raised (m : M World A) (f : A -> M World B) (s s1 : state World)
  (e : pyexc) (t1 : list event) :
  m s = (Raised e, s1, t1) -> bind m f s = (Raised e, s1, t1).
Proof. intros Hm. unfold bind. rewrite Hm. reflexivity. Qed.

Lemma bind_returned (m : M World A) (f : A -> M World B) (s s1 : state World)
  (a : A) (t1 : list event) :
  m s = (Returned a, s1, t1) -> bind m f s = prefix_trace t1 (f a s1).
Proof.
  intros Hm. unfold bind, prefix_trace, result_of, state_of, trace_of.
  rewrite Hm. destruct (f a s1) as [[o s2] t2]. reflexivity.
Qed.

End Sequencing.

Lemma prefix_trace_nil {S A : Type} (r : outcome A * S * list event) :
  prefix_trace [] r = r.
Proof. destruct r as [[o s] t]. reflexivity. Qed.

Lemma commands_of_app (t1 t2 : list event) :
  commands_of (t1 ++ t2) = commands_of t1 ++ commands_of t2.
Proof. unfold commands_of. apply flat_map_app. Qed.

Lemma symlinks_of_app (t1 t2 : list event) :
  symlinks_of (t1 ++ t2) = symlinks_of t1 ++ symlinks_of t2.
Proof. unfold symlinks_of. apply flat_map_app. Qed.

Lemma symlinks_of_cons (e : event) (t : list event) :
  symlinks_of (e :: t) = symlinks_of [e] ++ symlinks_of t.
Proof. apply (symlinks_of_app [e] t). Qed.

Lemma commands_of_cons (e : event) (t : list event) :
  commands_of (e :: t) = commands_of [e] ++ commands_of t.
Proof. apply (commands_of_app [e] t). Qed.

Lemma commands_of_call_trace (words : list string) (cwd : option string)
  (here stdout stderr : string) (returncode : Z) :
  commands_of (call_trace words cwd here stdout stderr returncode)
  = [(words, cwd)].
Proof.
  unfold call_trace. destruct (nonempty stdout), (nonempty stderr); reflexivity.
Qed.

(** ** The command runner *)

Section Runner.

Context {World : Type} `{OS World}.

(** The run of [check_call_with_log] when the child process ran *)
Lemma check_call_with_log_ran (command : list json) (words : list string)
  (cwd : option string) (s : state World) (w' : World)
  (stdout stderr : string) (returncode : Z) :
  str_items command = Returned words ->
  popen words cwd (world s) = (w', Some (stdout, stderr, returncode)) ->
  check_call_with_log command cwd s =
  (if (returncode =? 0)%Z then Returned tt
   else Raised (CalledProcessError returncode command),
   mkState w' (stdin s),
   call_trace words cwd (getcwd (world s)) stdout stderr returncode).
Proof.
  intros Hwords Hpopen.
  unfold check_call_with_log, call_trace, bind, logger, emit, lift, ask, Popen,
    ret, raise.
  rewrite Hwords. cbn [world stdin]. rewrite Hpopen. cbn [fst snd world stdin].
  destruct (nonempty stdout), (nonempty stderr), (returncode =? 0)%Z;
    reflexivity.
Qed.

(** A command with an item that is not a string is never run. *)
Lemma check_call_with_log_not_words (command : list json)
  (cwd : option string) (s : state World) (e : pyexc) :
  str_items command = Raised e ->
  check_call_with_log command cwd s
  = (Raised e, s, [ELog DEBUG "--- COMMAND ---" []]).
Proof.
  intros Hwords. unfold check_call_with_log, bind, logger, emit, lift.
  rewrite Hwords. reflexivity.
Qed.

(** C9.  When the child ran, the trace of [check_call_with_log] is the
    four debug lines of the command, the process, the captured stdout at
    debug level when it is not empty, the captured stderr at error level
    when it is not empty, and the status line.  The return code plays no
    part: a command that exits with status zero and wrote to stderr
    produces the error-level line. *)
Theorem check_call_with_log_logs (command : list json) (words : list string)
  (cwd : option string) (s : state World) (w' : World)
  (stdout stderr : string) (returncode : Z) :
  str_items command = Returned words ->
  popen words cwd (world s) = (w', Some (stdout, stderr, returncode)) ->
  let t := trace_of (check_call_with_log command cwd s) in
  t = call_trace words cwd (getcwd (world s)) stdout stderr returncode /\
  errors_of t = (if nonempty stderr then [ELog ERROR stderr []] else []) /\
  (nonempty stderr = true -> In (ELog ERROR stderr []) t) /\
  (nonempty stdout = true -> In (ELog DEBUG stdout []) t).
Proof.
  intros Hwords Hpopen t. subst t.
  rewrite (check_call_with_log_ran _ _ _ _ _ _ _ _ Hwords Hpopen).
  unfold trace_of, call_trace. cbn [snd].
  split; [reflexivity|]. split.
  - destruct (nonempty stdout), (nonempty stderr); reflexivity.
  - split.
    + intros Herr. rewrite Herr. destruct (nonempty stdout); cbn; tauto.
    + intros Hout. rewrite Hout. cbn. tauto.
Qed.

End Runner.

(** ** The fetchers *)

Section Fetchers.

Context {World : Type} `{OS World}.

(** A command made of strings is handed to one process, whatever becomes
    of the process. *)
Lemma check_call_with_log_commands (command : list json) (words : list string)
  (cwd : option string) (s : state World) :
  str_items command = Returned words ->
  commands_of (trace_of (check_call_with_log command cwd s)) = [(words, cwd)].
Proof.
  intros Hwords.
  destruct (popen words cwd (world s)) as [w' [[[out err] rc]|]] eqn:Hpopen.
  - rewrite (check_call_with_log_ran _ _ _ _ _ _ _ _ Hwords Hpopen).
    apply commands_of_call_trace.
  - unfold check_call_with_log, bind, logger, emit, lift, ask, Popen.
    rewrite Hwords. cbn [world stdin]. rewrite Hpopen. reflexivity.
Qed.

(** A command whose process cannot be started raises [OSError]. *)
Lemma check_call_with_log_not_started (command : list json)
  (words : list string) (cwd : option string) (s : state World) (w' : World) :
  str_items command = Returned words ->
  popen words cwd (world s) = (w', None) ->
  check_call_with_log command cwd s =
  (Raised OSError, mkState w' (stdin s),
   [ ELog DEBUG "--- COMMAND ---" [];
     ELog DEBUG (String.concat " " words) [];
     ELog DEBUG ("CWD =" ++ match cwd with
                            | Some d => d
                            | None => getcwd (world s)
                            end)%string [];
     ELog DEBUG "--- OUTPUT ---" [];
     EPopen words cwd ]).
Proof.
  intros Hwords Hpopen.
  unfold check_call_with_log, bind, logger, emit, lift, ask, Popen.
  rewrite Hwords. cbn [world stdin]. rewrite Hpopen. reflexivity.
Qed.

(** A fetcher: the clone command, then a second command when the version
    is not [None]. *)
Lemma fetch_commands (clone second : list json) (clone_words second_words : list string)
  (second_cwd : option string) (version : json) (s : state World) :
  str_items clone = Returned clone_words ->
  (is_None version = false -> str_items second = Returned second_words) ->
  commands_of (trace_of
    ((check_call_with_log clone None ;;
      if negb (is_None version) then check_call_with_log second second_cwd
      else ret tt) s)) =
  (clone_words, None) ::
  (if negb (is_None version) && exited_zero (snd (popen clone_words None (world s)))
   then [(second_words, second_cwd)] else []).
Proof.
  intros Hclone Hsecond.
  destruct (popen clone_words None (world s)) as [w' [[[out err] rc]|]] eqn:Hpopen.
  - pose proof (check_call_with_log_ran _ _ _ _ _ _ _ _ Hclone Hpopen) as Hrun.
    cbn [snd exited_zero]. destruct (rc =? 0)%Z.
    + rewrite (bind_returned _ _ _ _ _ _ Hrun).
      unfold prefix_trace, trace_of at 1. cbn [snd].
      rewrite commands_of_app, commands_of_call_trace.
      destruct (is_None version) eqn:Hversion; cbn [negb andb].
      * reflexivity.
      * rewrite (check_call_with_log_commands _ second_words)
          by (apply Hsecond; reflexivity).
        reflexivity.
    + rewrite (bind_raised _ _ _ _ _ _ Hrun). unfold trace_of. cbn [snd].
      rewrite commands_of_call_trace, andb_false_r. reflexivity.
  - pose proof (check_call_with_log_not_started _ _ _ _ _ Hclone Hpopen) as Hrun.
    rewrite (bind_raised _ _ _ _ _ _ Hrun). cbn [snd exited_zero].
    rewrite andb_false_r. reflexivity.
Qed.

(** C8 (amended).  Given a url, a version that is a string or [None] and a
    folder, each of [hg_dl] and [git_dl] runs the clone command towards
    the folder first and once; it then runs the update (for hg) or the
    checkout inside the clone (for git) exactly when the version is not
    [None] and the clone ran and ended with status zero.  With a version
    that is [None], or a clone that fails, the clone is the only
    command. *)
Theorem fetchers_commands (url folder : string) (name version : json)
  (s : state World) :
  (version = JNull \/ exists v, version = JStr v) ->
  commands_of (trace_of (hg_dl (JStr url) name version folder s)) =
    (["hg"; "clone"; url; folder], None) ::
    match version with
    | JStr v =>
        if exited_zero (snd (popen ["hg"; "clone"; url; folder] None (world s)))
        then [(["hg"; "update"; "--cwd"; folder; v], None)] else []
    | _ => []
    end /\
  commands_of (trace_of (git_dl (JStr url) name version folder s)) =
    (["git"; "clone"; url; folder], None) ::
    match version with
    | JStr v =>
        if exited_zero (snd (popen ["git"; "clone"; url; folder] None (world s)))
        then [(["git"; "checkout"; v], Some folder)] else []
    | _ => []
    end.
Proof.
  intros Hversion. split.
  - unfold hg_dl.
    rewrite (fetch_commands _ _ ["hg"; "clone"; url; folder]
               (match version with
                | JStr v => ["hg"; "update"; "--cwd"; folder; v]
                | _ => []
                end)).
    + destruct Hversion as [-> | [v ->]]; reflexivity.
    + reflexivity.
    + destruct Hversion as [-> | [v ->]]; [discriminate | reflexivity].
  - unfold git_dl.
    rewrite (fetch_commands _ _ ["git"; "clone"; url; folder]
               (match version with
                | JStr v => ["git"; "checkout"; v]
                | _ => []
                end)).
    + destruct Hversion as [-> | [v ->]]; reflexivity.
    + reflexivity.
    + destruct Hversion as [-> | [v ->]]; [discriminate | reflexivity].
Qed.

End Fetchers.

(** ** The loop that exports the cubes *)

Section Exporting.

Context {World : Type} `{OS World}.
Variable cubes_path : string.
Variable clone_directory : string.

(** The run of a turn on a cube that is already linked *)
Lemma export_cube_linked (repo_type url : string) (package_item : json)
  (n r : string) (version : json) (s : state World) :
  unpack3 package_item = Returned (JStr n, version, JStr r) ->
  lexists (world s) (join cubes_path n) = true ->
  export_cube cubes_path clone_directory repo_type (url, package_item) s =
  let cube_folder := join cubes_path n in
  let pkginfo := join cube_folder "__pkginfo__.py" in
  if isfile (world s) pkginfo then
    match execfile (world s) pkginfo with
    | Returned g =>
        match assoc "version" g with
        | Some v =>
            (Returned tt, s,
             [ turn_event (JStr n) version;
               ELog INFO "Cube '%s' already exported with version '%s', skip..."
                 [AJson (JStr n); AJson v] ])
        | None => (Raised KeyError, s, [turn_event (JStr n) version])
        end
    | Raised e => (Raised e, s, [turn_event (JStr n) version])
    end
  else (Raised (not_a_cube cube_folder), s, [turn_event (JStr n) version]).
Proof.
  intros Hunpack Hlinked. cbv zeta.
  unfold export_cube, cube_info_version, bind, lift, ask, logger, emit, raise,
    ret, turn_event.
  cbn [fst snd]. rewrite Hunpack. cbn [fst snd path_join app].
  rewrite Hlinked. cbn [negb app].
  destruct (isfile (world s) (join (join cubes_path n) "__pkginfo__.py"));
    [|reflexivity].
  destruct (execfile (world s) (join (join cubes_path n) "__pkginfo__.py"))
    as [g|e]; [|reflexivity].
  destruct (assoc "version" g); reflexivity.
Qed.

(** C3.  A cube whose link already exists in the cubes path, as an entry
    of any kind, and whose pkg-info file is found through it, is left
    alone: the turn runs no command (so neither [hg_dl] nor [git_dl], whose
    first act is a command), calls [os.symlink] not at all, and leaves the
    machine as it was; when the pkg-info file declares a version the turn
    logs it and returns. *)
Theorem export_cube_already_linked (repo_type url : string)
  (package_item : json) (n r : string) (version : json) (s : state World) :
  unpack3 package_item = Returned (JStr n, version, JStr r) ->
  lexists (world s) (join cubes_path n) = true ->
  isfile (world s) (join (join cubes_path n) "__pkginfo__.py") = true ->
  let run :=
    export_cube cubes_path clone_directory repo_type (url, package_item) s in
  commands_of (trace_of run) = [] /\
  symlinks_of (trace_of run) = [] /\
  state_of run = s /\
  (forall g v,
     execfile (world s) (join (join cubes_path n) "__pkginfo__.py")
     = Returned g ->
     assoc "version" g = Some v ->
     run = (Returned tt, s,
            [ turn_event (JStr n) version;
              ELog INFO "Cube '%s' already exported with version '%s', skip..."
                [AJson (JStr n); AJson v] ])).
Proof.
  intros Hunpack Hlinked Hfile run. subst run.
  rewrite (export_cube_linked _ _ _ _ _ _ _ Hunpack Hlinked). cbv zeta.
  rewrite Hfile.
  destruct (execfile (world s) (join (join cubes_path n) "__pkginfo__.py"))
    as [g|e].
  - destruct (assoc "version" g) as [v|] eqn:Hv.
    + repeat split; try reflexivity.
      intros g' v' Hg' Hv'. injection Hg' as <-. rewrite Hv in Hv'.
      injection Hv' as <-. reflexivity.
    + repeat split; try reflexivity.
      intros g' v' Hg' Hv'. injection Hg' as <-. rewrite Hv in Hv'.
      discriminate.
  - repeat split; try reflexivity. intros g v Hg. discriminate.
Qed.

(** C4.  A cube that is not linked, whose clone folder is a directory and
    whose relative path in the clone holds no [__pkginfo__.py] file, stops
    the run with the exception "folder do not contain a cube": the turn
    has logged its opening line only, [os.symlink] is not reached and the
    machine is as it was. *)
Theorem export_cube_invalid_clone (repo_type url : string)
  (package_item : json) (n r : string) (version : json) (s : state World) :
  unpack3 package_item = Returned (JStr n, version, JStr r) ->
  lexists (world s) (join cubes_path n) = false ->
  isdir (world s) (join clone_directory n) = true ->
  isfile (world s) (join (join (join clone_directory n) r) "__pkginfo__.py")
  = false ->
  let run :=
    export_cube cubes_path clone_directory repo_type (url, package_item) s in
  run = (Raised (not_a_cube (join (join clone_directory n) r)), s,
         [turn_event (JStr n) version]) /\
  symlinks_of (trace_of run) = [] /\
  commands_of (trace_of run) = [].
Proof.
  intros Hunpack Hlinked Hdir Hfile run. subst run.
  unfold export_cube, bind, lift, ask, logger, emit, raise, turn_event.
  cbn [fst snd]. rewrite Hunpack. cbn [fst snd path_join app].
  rewrite Hlinked. cbn [negb app]. rewrite Hdir. cbn [negb app].
  rewrite Hfile. repeat split.
Qed.

(** The loop over the entries of one dict, all already exported *)
Lemma for_each_already_exported (repo_type : string)
  (items : list (string * json)) (s : state World) :
  Forall (already_exported (world s) cubes_path) items ->
  exists t,
    for_each items (export_cube cubes_path clone_directory repo_type) s
      = (Returned tt, s, t) /\
    commands_of t = [] /\ symlinks_of t = [].
Proof.
  induction 1 as [|[url package_item] items Hx _ IH].
  - exists []. repeat split.
  - destruct Hx as (n & version & r & g & v & Hunpack & Hl & Hf & Hg & Hv).
    cbn [snd] in Hunpack. destruct IH as (t & Ht & Hc & Hs).
    eexists. cbn [for_each]. split.
    + erewrite bind_returned.
      2:{ rewrite (export_cube_linked _ _ _ _ _ _ _ Hunpack Hl). cbv zeta.
          rewrite Hf, Hg, Hv. reflexivity. }
      rewrite Ht. unfold prefix_trace, result_of, state_of, trace_of.
      cbn [fst snd]. reflexivity.
    + rewrite commands_of_app, symlinks_of_app, Hc, Hs. split; reflexivity.
Qed.

(** C2 (amended).  When every cube of the configuration is already linked
    in the cubes path and the pkg-info file found through each link
    declares a version, the loop that exports the cubes returns normally;
    it runs no command (no clone, no update, no checkout), creates no
    link and leaves the machine as it was. *)
Theorem export_cubes_idempotent (hg_cubes git_cubes : list (string * json))
  (s : state World) :
  Forall (already_exported (world s) cubes_path) (hg_cubes ++ git_cubes) ->
  let run := export_cubes cubes_path clone_directory
               (JDict hg_cubes) (JDict git_cubes) s in
  result_of run = Returned tt /\
  state_of run = s /\
  commands_of (trace_of run) = [] /\
  symlinks_of (trace_of run) = [].
Proof.
  intros Hall run. subst run. apply Forall_app in Hall.
  destruct Hall as [Hhg Hgit].
  destruct (for_each_already_exported "hg" hg_cubes s Hhg)
    as (t1 & Ht1 & Hc1 & Hs1).
  destruct (for_each_already_exported "git" git_cubes s Hgit)
    as (t2 & Ht2 & Hc2 & Hs2).
  unfold export_cubes. cbn [for_each fst snd dict_items].
  assert (Hrun :
    (bind (bind (lift (dict_items (JDict hg_cubes)))
            (fun items => for_each items
                            (export_cube cubes_path clone_directory "hg")))
       (fun _ => bind (bind (lift (dict_items (JDict git_cubes)))
                         (fun items => for_each items
                            (export_cube cubes_path clone_directory "git")))
                   (fun _ => ret tt))) s
    = (Returned tt, s, t1 ++ t2 ++ [])).
  { unfold bind, lift, ret. cbn [dict_items app]. rewrite Ht1, Ht2.
    reflexivity. }
  cbn [dict_items] in Hrun. rewrite Hrun.
  unfold result_of, state_of, trace_of. cbn [fst snd].
  rewrite !commands_of_app, !symlinks_of_app, Hc1, Hc2, Hs1, Hs2.
  repeat split.
Qed.

End Exporting.

(** ** A command that fails stops the run *)

Section Aborting.

Context {World : Type} `{OS World}.

(** A fetcher that raises stops the turn of its cube: the exception goes
    through, the link is not made. *)
Lemma export_cube_fetch_raised
  (cubes_path clone_directory repo_type url : string)
  (package_item : json) (n r : string) (version : json)
  (s s1 : state World) (e : pyexc) (t1 : list event) :
  unpack3 package_item = Returned (JStr n, version, JStr r) ->
  lexists (world s) (join cubes_path n) = false ->
  isdir (world s) (join clone_directory n) = false ->
  (repo_type = "hg" /\
   hg_dl (JStr url) (JStr n) version (join clone_directory n) s
   = (Raised e, s1, t1))
  \/
  (repo_type = "git" /\
   git_dl (JStr url) (JStr n) version (join clone_directory n) s
   = (Raised e, s1, t1)) ->
  export_cube cubes_path clone_directory repo_type (url, package_item) s
  = (Raised e, s1, turn_event (JStr n) version :: t1).
Proof.
  intros Hunpack Hlinked Hdir Hfetch.
  unfold export_cube, bind, lift, ask, logger, emit, turn_event.
  cbn [fst snd]. rewrite Hunpack. cbn [fst snd path_join app].
  rewrite Hlinked. cbn [negb app]. rewrite Hdir. cbn [negb app].
  destruct Hfetch as [[-> Hfetch] | [-> Hfetch]]; cbn [String.eqb Ascii.eqb
    Bool.eqb andb]; rewrite Hfetch; reflexivity.
Qed.

(** C7.  When the child ran, [check_call_with_log] returns [None] if the
    return code is zero and raises [CalledProcessError] with the return
    code and the command otherwise, and in no other case.  Nothing catches
    the error, so whatever follows the call is skipped: [hg_dl] and
    [git_dl] stop at a clone that fails, without update or checkout, and
    at an update or checkout that fails; the loop of the tools stops at
    the first pip command that fails; the loop of the cubes stops at the
    cube whose clone fails, without the link and without the cubes that
    follow. *)
Theorem check_call_with_log_status (command : list json) (words : list string)
  (cwd : option string) (s : state World) (w' : World)
  (stdout stderr : string) (returncode : Z) :
  str_items command = Returned words ->
  popen words cwd (world s) = (w', Some (stdout, stderr, returncode)) ->
  let r := check_call_with_log command cwd s in
  let error := CalledProcessError returncode command in
  (returncode = 0%Z <-> result_of r = Returned tt) /\
  (returncode <> 0%Z <-> result_of r = Raised error) /\
  (returncode <> 0%Z ->
     (forall (B : Type) (k : unit -> M World B),
        bind (check_call_with_log command cwd) k s
        = (Raised error, state_of r, trace_of r)) /\
     (forall url name version folder,
        command = hg_clone url folder -> cwd = None ->
        hg_dl url name version folder s
        = (Raised error, state_of r, trace_of r)) /\
     (forall url name version folder,
        command = git_clone url folder -> cwd = None ->
        git_dl url name version folder s
        = (Raised error, state_of r, trace_of r)) /\
     (forall url name version folder s0 t0,
        command = hg_update folder version -> cwd = None ->
        is_None version = false ->
        check_call_with_log (hg_clone url folder) None s0
        = (Returned tt, s, t0) ->
        hg_dl url name version folder s0
        = (Raised error, state_of r, t0 ++ trace_of r)) /\
     (forall url name version folder s0 t0,
        command = git_checkout version -> cwd = Some folder ->
        is_None version = false ->
        check_call_with_log (git_clone url folder) None s0
        = (Returned tt, s, t0) ->
        git_dl url name version folder s0
        = (Raised error, state_of r, t0 ++ trace_of r)) /\
     (forall tool rest,
        command = pip_install tool -> cwd = None ->
        install_pypi_tools (JList (tool :: rest)) s
        = (Raised error, state_of r,
           ELog INFO "    > %s." [AJson tool] :: trace_of r)) /\
     (forall cubes_path clone_directory repo_type url package_item rest
             n rel version,
        unpack3 package_item = Returned (JStr n, version, JStr rel) ->
        lexists (world s) (join cubes_path n) = false ->
        isdir (world s) (join clone_directory n) = false ->
        cwd = None ->
        (repo_type = "hg" /\
         command = hg_clone (JStr url) (join clone_directory n)) \/
        (repo_type = "git" /\
         command = git_clone (JStr url) (join clone_directory n)) ->
        let run := for_each ((url, package_item) :: rest)
                     (export_cube cubes_path clone_directory repo_type) s in
        run = (Raised error, state_of r,
               turn_event (JStr n) version :: trace_of r) /\
        symlinks_of (trace_of run) = [])).
Proof.
  intros Hwords Hpopen r error.
  pose proof (check_call_with_log_ran _ _ _ _ _ _ _ _ Hwords Hpopen) as Hrun.
  fold r in Hrun.
  split; [|split].
  - rewrite Hrun. unfold result_of. cbn [fst].
    destruct (Z.eqb_spec returncode 0); split; intros Hx;
      congruence || reflexivity || discriminate.
  - rewrite Hrun. unfold result_of, error. cbn [fst].
    destruct (Z.eqb_spec returncode 0); split; intros Hx;
      congruence || reflexivity || discriminate.
  - intros Hrc.
    assert (Hraised : check_call_with_log command cwd s
                      = (Raised error, state_of r, trace_of r)).
    { fold r. rewrite Hrun. unfold state_of, trace_of. cbn [fst snd].
      destruct (Z.eqb_spec returncode 0); [contradiction | reflexivity]. }
    assert (Hhg_clone : forall url name version folder,
      command = hg_clone url folder -> cwd = None ->
      hg_dl url name version folder s = (Raised error, state_of r, trace_of r)).
    { intros url name version folder Hcmd Hcwd. unfold hg_dl.
      apply bind_raised. rewrite <- Hcmd, <- Hcwd. exact Hraised. }
    assert (Hgit_clone : forall url name version folder,
      command = git_clone url folder -> cwd = None ->
      git_dl url name version folder s
      = (Raised error, state_of r, trace_of r)).
    { intros url name version folder Hcmd Hcwd. unfold git_dl.
      apply bind_raised. rewrite <- Hcmd, <- Hcwd. exact Hraised. }
    split; [|split; [|split; [|split; [|split; [|split]]]]].
    + intros B k. apply bind_raised. exact Hraised.
    + exact Hhg_clone.
    + exact Hgit_clone.
    + intros url name version folder s0 t0 Hcmd Hcwd Hversion Hclone.
      unfold hg_dl. rewrite (bind_returned _ _ _ _ _ _ Hclone), Hversion.
      cbn [negb]. rewrite <- Hcmd, <- Hcwd, Hraised. reflexivity.
    + intros url name version folder s0 t0 Hcmd Hcwd Hversion Hclone.
      unfold git_dl. rewrite (bind_returned _ _ _ _ _ _ Hclone), Hversion.
      cbn [negb]. rewrite <- Hcmd, <- Hcwd, Hraised. reflexivity.
    + intros tool rest Hcmd Hcwd.
      unfold install_pypi_tools, bind at 1, lift at 1. cbn [iterate for_each].
      unfold bind at 1. unfold bind at 1. unfold logger at 1, emit at 1.
      rewrite <- Hcmd, <- Hcwd, Hraised. reflexivity.
    + intros cubes_path clone_directory repo_type url package_item rest n rel
        version Hunpack Hlinked Hdir Hcwd Hrepo run.
      assert (Hturn :
        export_cube cubes_path clone_directory repo_type (url, package_item) s
        = (Raised error, state_of r,
           turn_event (JStr n) version :: trace_of r)).
      { eapply export_cube_fetch_raised; try eassumption.
        destruct Hrepo as [[-> Hcmd] | [-> Hcmd]]; [left | right];
          (split; [reflexivity|]).
        - apply Hhg_clone; assumption.
        - apply Hgit_clone; assumption. }
      assert (Hloop :
        run = (Raised error, state_of r,
               turn_event (JStr n) version :: trace_of r)).
      { unfold run. cbn [for_each]. apply bind_raised. exact Hturn. }
      split; [exact Hloop|].
      rewrite Hloop. unfold trace_of at 1. cbn [snd].
      fold r. rewrite Hrun. unfold trace_of, call_trace. cbn [snd].
      destruct (nonempty stdout), (nonempty stderr); reflexivity.
Qed.

End Aborting.

(** ** The choice of a configuration *)

Lemma dict_get_enumerate_from {A : Type} (xs : list A) (start k : Z) :
  dict_get (enumerate_from start xs) k =
  if ((start <=? k) && (k <? start + Z.of_nat (length xs)))%Z
  then nth_error xs (Z.to_nat (k - start)) else None.
Proof.
  revert start. induction xs as [|x xs IH]; intros start.
  - cbn [enumerate_from dict_get length].
    destruct (Z.leb_spec start k), (Z.ltb_spec k (start + Z.of_nat 0)); cbn;
      try reflexivity; lia.
  - cbn [enumerate_from dict_get]. destruct (Z.eqb_spec k start) as [->|Hne].
    + replace (start - start)%Z with 0%Z by lia. cbn [Z.to_nat nth_error].
      destruct (Z.leb_spec start start); [|lia].
      destruct (Z.ltb_spec start (start + Z.of_nat (length (x :: xs))));
        [reflexivity|]. cbn [length] in *. lia.
    + rewrite IH. cbn [length]. rewrite Nat2Z.inj_succ.
      destruct (Z.leb_spec (start + 1) k), (Z.leb_spec start k),
        (Z.ltb_spec k (start + 1 + Z.of_nat (length xs))),
        (Z.ltb_spec k (start + Z.succ (Z.of_nat (length xs))));
        cbn [andb]; try reflexivity; try lia.
      replace (Z.to_nat (k - start)) with (S (Z.to_nat (k - (start + 1))))
        by lia.
      reflexivity.
Qed.

Lemma dict_get_In {A : Type} (d : list (Z * A)) (k : Z) (v : A) :
  dict_get d k = Some v -> In (k, v) d.
Proof.
  induction d as [|[k' v'] d IH]; cbn [dict_get]; [discriminate|].
  destruct (Z.eqb_spec k k') as [->|Hne].
  - intros [= ->]. left. reflexivity.
  - intros Hget. right. apply IH. exact Hget.
Qed.

Lemma enumerate_from_In {A : Type} (xs : list A) (start k : Z) (v : A) :
  In (k, v) (enumerate_from start xs) ->
  (start <= k < start + Z.of_nat (length xs))%Z /\
  nth_error xs (Z.to_nat (k - start)) = Some v.
Proof.
  revert start. induction xs as [|x xs IH]; intros start; cbn [enumerate_from].
  - intros [].
  - intros [[= <- <-]|Hin].
    + cbn [length]. split; [lia|].
      replace (start - start)%Z with 0%Z by lia. reflexivity.
    + apply IH in Hin. destruct Hin as [Hr Hn]. cbn [length]. split; [lia|].
      replace (Z.to_nat (k - start)) with (S (Z.to_nat (k - (start + 1))))
        by lia.
      exact Hn.
Qed.

Lemma list_index_in_range {A : Type} (xs : list A) (k : Z) (x : A) :
  (0 <= k)%Z -> nth_error xs (Z.to_nat k) = Some x ->
  list_index xs k = Returned x.
Proof.
  intros Hk Hn. unfold list_index.
  destruct (Z.ltb_spec k 0); [lia|].
  destruct (Z.ltb_spec k 0); [lia|]. rewrite Hn. reflexivity.
Qed.

Section Choosing.

Context {World : Type} `{OS World}.
Variable expected_items : list (string * list pyobj).
Hypothesis expected_items_perm : Permutation expected_items expected_types.

Lemma load_configuration_accepted (file_name : string) (s : state World) :
  accepted_file (world s) file_name ->
  exists d,
    load_configuration expected_items file_name s
    = (Returned (JDict d), s, []) /\
    py_getitem (JDict d) "version"
    = Returned (declared_version (world s) file_name).
Proof.
  intros (d & v & hg & git & tools & Hopen & Hv & Hhg & Hgit & Htools).
  exists d. split.
  - rewrite (load_configuration_opened _ _ _ _ Hopen).
    rewrite (accepted_configuration expected_items expected_items_perm
               file_name s d v hg git tools Hv Hhg Hgit Htools).
    reflexivity.
  - unfold declared_version. rewrite Hopen. cbn [py_getitem]. rewrite Hv.
    reflexivity.
Qed.

Lemma load_versions_accepted (config_files : list string) (s : state World) :
  Forall (accepted_file (world s)) config_files ->
  forall (available_versions : list json) (files_names : list string),
    load_versions expected_items config_files available_versions files_names s =
    (Returned
       (available_versions ++ map (declared_version (world s)) config_files,
        files_names ++ config_files), s, []).
Proof.
  induction 1 as [|f files Hf _ IH]; intros vs fs.
  - cbn [load_versions map]. rewrite !app_nil_r. reflexivity.
  - destruct (load_configuration_accepted f s Hf) as (d & Hload & Hversion).
    cbn [load_versions].
    rewrite (bind_returned _ _ _ _ _ _ Hload).
    unfold bind at 1, lift at 1. rewrite Hversion.
    rewrite IH. unfold prefix_trace, result_of, state_of, trace_of.
    cbn [fst snd app map]. rewrite <- !app_assoc. reflexivity.
Qed.

Lemma display_choices_rows (versions : list json) (files_names : list string)
  (s : state World) (choices : list (Z * json)) :
  Forall (fun kv => (0 <= fst kv < Z.of_nat (length files_names))%Z /\
                    nth_error versions (Z.to_nat (fst kv)) = Some (snd kv))
         choices ->
  display_choices choices files_names s =
  (Returned tt, s,
   map (fun kv => row_event versions files_names (fst kv)) choices).
Proof.
  unfold display_choices.
  set (body := fun kv : Z * json =>
                 bind (lift (list_index files_names (fst kv)))
                   (fun config_file =>
                      print row_template
                        [AInt (fst kv); AJson (snd kv);
                         AStr (basename config_file)])).
  induction 1 as [|[k v] choices [Hk Hv] _ IH]; [reflexivity|].
  cbn [fst snd] in Hk, Hv.
  assert (Hlt : (Z.to_nat k < length files_names)%nat) by lia.
  destruct (nth_error files_names (Z.to_nat k)) as [f|] eqn:Hf;
    [|apply nth_error_None in Hf; lia].
  assert (Hbody : body (k, v) s
                  = (Returned tt, s, [row_event versions files_names k])).
  { unfold body, bind, lift, print, emit, row_event. cbn [fst snd].
    rewrite (list_index_in_range _ _ _ (proj1 Hk) Hf).
    rewrite (nth_error_nth _ _ _ Hf), (nth_error_nth _ _ _ Hv). reflexivity. }
  cbn [for_each map fst].
  rewrite (bind_returned _ _ _ _ _ _ Hbody), IH. reflexivity.
Qed.

Lemma try_choice_invalid (versions : list json) (user_input : string) :
  invalid_input (length versions) user_input ->
  try_choice (enumerate versions) user_input = None.
Proof.
  unfold invalid_input, try_choice, enumerate.
  destruct (py_int user_input) as [k|]; [|reflexivity].
  intros Hk. rewrite dict_get_enumerate_from.
  destruct (Z.leb_spec 0 k), (Z.ltb_spec k (0 + Z.of_nat (length versions)));
    cbn [andb]; try reflexivity; lia.
Qed.

Lemma try_choice_valid (versions : list json) (user_input : string) (k : Z) :
  py_int user_input = Some k ->
  (0 <= k < Z.of_nat (length versions))%Z ->
  exists v,
    nth_error versions (Z.to_nat k) = Some v /\
    try_choice (enumerate versions) user_input = Some (k, v).
Proof.
  intros Hint Hk. unfold try_choice, enumerate. rewrite Hint.
  rewrite dict_get_enumerate_from. rewrite Z.sub_0_r.
  destruct (Z.leb_spec 0 k); [|lia].
  destruct (Z.ltb_spec k (0 + Z.of_nat (length versions))); [|lia].
  cbn [andb].
  destruct (nth_error versions (Z.to_nat k)) as [v|] eqn:Hv.
  - exists v. split; reflexivity.
  - apply nth_error_None in Hv. lia.
Qed.

(** Lines that are not choices are answered by a new prompt; the first
    line that is a choice ends the loop. *)
Lemma waiting_for_choice_answer (version_choices : list (Z * json))
  (files_names : list string) (bad : list string) (good : string)
  (rest : list string) (w : World) (k : Z) (choice : json) (f : string) :
  Forall (fun l => try_choice version_choices l = None) bad ->
  try_choice version_choices good = Some (k, choice) ->
  list_index files_names k = Returned f ->
  waiting_for_choice version_choices files_names (bad ++ good :: rest) w =
  (Returned f, mkState w rest,
   flat_map (fun l => [prompt_event; invalid_event l]) bad
   ++ [prompt_event; EPrint "Setup version '{0}'." [AJson choice]]).
Proof.
  intros Hbad Hgood Hindex. induction Hbad as [|l bad Hl _ IH].
  - cbn [app waiting_for_choice flat_map].
    unfold bind, print, emit, lift. rewrite Hgood, Hindex. reflexivity.
  - cbn [app waiting_for_choice flat_map].
    unfold bind, print, emit. rewrite Hl. cbn [world]. rewrite IH.
    reflexivity.
Qed.

(** When the input ends before a choice is made, [raw_input] raises
    [EOFError]: the loop never ends for another reason than a choice. *)
Lemma waiting_for_choice_end_of_input (version_choices : list (Z * json))
  (files_names : list string) (bad : list string) (w : World) :
  Forall (fun l => try_choice version_choices l = None) bad ->
  waiting_for_choice version_choices files_names bad w =
  (Raised EOFError, mkState w [],
   flat_map (fun l => [prompt_event; invalid_event l]) bad ++ [prompt_event]).
Proof.
  induction 1 as [|l bad Hl _ IH].
  - reflexivity.
  - cbn [waiting_for_choice flat_map].
    unfold bind, print, emit. rewrite Hl. cbn [world]. rewrite IH.
    reflexivity.
Qed.

(** C6.  When [glob] finds configuration files and they load, every line
    of input that is not a key of the table (not an integer, or an integer
    out of range) is answered by the message "is not a valid choice" and a
    new prompt, and the first line that is an integer [K] within range
    makes [choose_version_to_install] return the [K]-th file of the
    listing; the table has shown, under [K], the version and the base name
    of that very file. *)
Theorem choose_version_to_install_choice (config_folder : string)
  (s : state World) (bad : list string) (good : string) (rest : list string)
  (K : Z) :
  let files := glob (world s) (join config_folder "*.conf") in
  let versions := map (declared_version (world s)) files in
  files <> [] ->
  Forall (accepted_file (world s)) files ->
  stdin s = bad ++ good :: rest ->
  Forall (invalid_input (length files)) bad ->
  py_int good = Some K ->
  (0 <= K < Z.of_nat (length files))%Z ->
  exists chosen,
    nth_error files (Z.to_nat K) = Some chosen /\
    choose_version_to_install expected_items config_folder s =
      (Returned chosen, mkState (world s) rest,
       [ EPrint "Loading configuration files in '{0}' ..." [AStr config_folder];
         EPrint "Please choose the CubicWeb setup version:" [];
         EPrint "CHOICE  -----  VERSION -----  CONFIG FILE" [] ]
       ++ map (fun kv => row_event versions files (fst kv)) (enumerate versions)
       ++ flat_map (fun l => [prompt_event; invalid_event l]) bad
       ++ [ prompt_event;
            EPrint "Setup version '{0}'."
              [AJson (declared_version (world s) chosen)] ]) /\
    In (EPrint row_template
          [AInt K; AJson (declared_version (world s) chosen);
           AStr (basename chosen)])
       (trace_of (choose_version_to_install expected_items config_folder s)).
Proof.
  intros files versions Hsome Hacc Hstdin Hbad Hint HK.
  assert (Hglob : glob (world s) (join config_folder "*.conf") = files)
    by reflexivity.
  clearbody files.
  assert (Hlen : length versions = length files)
    by (unfold versions; apply length_map).
  destruct (try_choice_valid versions good K Hint) as (v & Hv & Hgood);
    [rewrite Hlen; exact HK|].
  destruct (nth_error files (Z.to_nat K)) as [chosen|] eqn:Hchosen;
    [|apply nth_error_None in Hchosen; lia].
  assert (Hvc : v = declared_version (world s) chosen).
  { unfold versions in Hv. rewrite nth_error_map, Hchosen in Hv.
    injection Hv as <-. reflexivity. }
  subst v.
  exists chosen. split; [reflexivity|].
  assert (Hrun :
    choose_version_to_install expected_items config_folder s =
      (Returned chosen, mkState (world s) rest,
       [ EPrint "Loading configuration files in '{0}' ..." [AStr config_folder];
         EPrint "Please choose the CubicWeb setup version:" [];
         EPrint "CHOICE  -----  VERSION -----  CONFIG FILE" [] ]
       ++ map (fun kv => row_event versions files (fst kv)) (enumerate versions)
       ++ flat_map (fun l => [prompt_event; invalid_event l]) bad
       ++ [ prompt_event;
            EPrint "Setup version '{0}'."
              [AJson (declared_version (world s) chosen)] ])).
  { unfold choose_version_to_install.
    unfold bind at 1, print at 1, emit at 1.
    unfold bind at 1, ask at 1. rewrite Hglob.
    destruct files as [|f0 files0]; [contradiction|].
    cbv iota. set (files := f0 :: files0) in *.
    rewrite (bind_returned _ _ _ _ _ _
               (load_versions_accepted files s Hacc [] [])).
    cbn [app fst snd]. fold versions.
    unfold bind at 1, print at 1, emit at 1.
    unfold bind at 1, print at 1, emit at 1.
    assert (Hrows :
      Forall (fun kv => (0 <= fst kv < Z.of_nat (length files))%Z /\
                        nth_error versions (Z.to_nat (fst kv)) = Some (snd kv))
             (enumerate versions)).
    { apply Forall_forall. intros [k v] Hin. apply enumerate_from_In in Hin.
      cbn [fst snd]. rewrite Z.sub_0_r in Hin. destruct Hin as [Hr Hn].
      split; [lia | exact Hn]. }
    rewrite (bind_returned _ _ _ _ _ _
               (display_choices_rows versions files s (enumerate versions)
                  Hrows)).
    - rewrite Hstdin.
      rewrite (waiting_for_choice_answer (enumerate versions) files bad good
                 rest (world s) K (declared_version (world s) chosen) chosen).
      + unfold prefix_trace, result_of, state_of, trace_of. cbn [fst snd app].
        reflexivity.
      + eapply Forall_impl; [|exact Hbad]. intros l Hl.
        apply try_choice_invalid. rewrite Hlen. exact Hl.
      + exact Hgood.
      + apply list_index_in_range; [lia | exact Hchosen]. }
  split; [exact Hrun|].
  rewrite Hrun. unfold trace_of. cbn [snd].
  apply in_or_app. right. apply in_or_app. left.
  apply in_map_iff. exists (K, declared_version (world s) chosen). split.
  - unfold row_event. cbn [fst].
    rewrite (nth_error_nth _ _ _ Hv), (nth_error_nth _ _ _ Hchosen).
    reflexivity.
  - unfold try_choice in Hgood. rewrite Hint in Hgood.
    destruct (dict_get (enumerate versions) K) as [c|] eqn:Hget;
      [|discriminate].
    injection Hgood as <-. apply dict_get_In. exact Hget.
Qed.

End Choosing.

(** ** The theorems at concrete inputs *)

(** An empty configuration object: [NameError] at the first field, whatever
    it is, and nothing printed. *)
Lemma check_configuration_integrity_missing_key_witness :
  exists t,
    check_configuration_integrity expected_types (JDict []) "/configs/piws.conf"
      (mkState (Toy.with_conf []) [])
    = (Raised (NameError "key"), mkState (Toy.with_conf []) [], t) /\
    is_Exception (NameError "key") = true /\
    Forall
      (fun e => exists it, e = wrong_type_event "/configs/piws.conf" [] it) t.
Proof.
  apply (check_configuration_integrity_missing_key expected_types
           (Permutation_refl _) "version" [] "/configs/piws.conf").
  - simpl. left. reflexivity.
  - reflexivity.
Defined.

(** The same run, computed in the order of the dict literal. *)
Example check_configuration_integrity_empty_object :
  check_configuration_integrity expected_types (JDict []) "/configs/piws.conf"
    (mkState (Toy.with_conf []) [])
  = (Raised (NameError "key"), mkState (Toy.with_conf []) [], []).
Proof. reflexivity. Qed.

Lemma check_configuration_integrity_null_version_witness :
  check_configuration_integrity expected_types (JDict Toy.null_version_conf)
    "/configs/piws.conf" (mkState (Toy.with_conf Toy.null_version_conf) [])
  = (Raised SystemExit, mkState (Toy.with_conf Toy.null_version_conf) [],
     [ EPrint wrong_type_template
         [AStr "/configs/piws.conf"; AStr "version";
          AObjs [TypeObj Tunicode; NoneObj]; AType TNoneType];
       EPrint corrupted_template [] ]) /\
  (open_json_load (world (mkState (Toy.with_conf Toy.null_version_conf) []))
     "/configs/piws.conf" = Returned (JDict Toy.null_version_conf) ->
   result_of (load_configuration expected_types "/configs/piws.conf"
                (mkState (Toy.with_conf Toy.null_version_conf) []))
   = Raised SystemExit).
Proof.
  apply (check_configuration_integrity_null_version expected_types
           (Permutation_refl _) "/configs/piws.conf"
           (mkState (Toy.with_conf Toy.null_version_conf) [])
           Toy.null_version_conf [] [] []); reflexivity.
Defined.

Lemma load_configuration_top_level_only_witness :
  load_configuration expected_types "/configs/piws.conf"
    (mkState (Toy.with_conf Toy.malformed_conf) [])
  = (Returned (JDict Toy.malformed_conf),
     mkState (Toy.with_conf Toy.malformed_conf) [], []).
Proof.
  apply (load_configuration_top_level_only expected_types (Permutation_refl _)
           "/configs/piws.conf" (mkState (Toy.with_conf Toy.malformed_conf) [])
           Toy.malformed_conf "1.0"
           [("https://x/hg", JList [JStr "onlyname"])] [] [JInt 3]);
    reflexivity.
Defined.

(** pip exits with status zero and has written to stderr: the line is
    logged at error level. *)
Lemma check_call_with_log_logs_witness :
  In (ELog ERROR "WARNING: pip is old" [])
     (trace_of (check_call_with_log (pip_install (JStr "pytest")) None
                  (mkState Toy.noisy []))) /\
  In (ELog DEBUG "Collecting pytest" [])
     (trace_of (check_call_with_log (pip_install (JStr "pytest")) None
                  (mkState Toy.noisy []))) /\
  result_of (check_call_with_log (pip_install (JStr "pytest")) None
               (mkState Toy.noisy [])) = Returned tt.
Proof.
  pose proof (check_call_with_log_logs (pip_install (JStr "pytest"))
                ["pip"; "install"; "pytest"] None (mkState Toy.noisy [])
                Toy.noisy "Collecting pytest" "WARNING: pip is old" 0%Z
                eq_refl eq_refl) as (_ & _ & Herr & Hout).
  split; [exact (Herr eq_refl)|]. split; [exact (Hout eq_refl) | reflexivity].
Defined.

(** The clone of mercurial ends with status 255: [hg_dl] raises the error
    of the command runner. *)
Lemma check_call_with_log_status_witness :
  result_of (check_call_with_log (hg_clone (JStr "https://x/hg") "/clone/cube")
               None (mkState Toy.failing_clone []))
  = Raised (CalledProcessError 255
              (hg_clone (JStr "https://x/hg") "/clone/cube")) /\
  result_of (hg_dl (JStr "https://x/hg") (JStr "cube") (JStr "1.0")
               "/clone/cube" (mkState Toy.failing_clone []))
  = Raised (CalledProcessError 255
              (hg_clone (JStr "https://x/hg") "/clone/cube")).
Proof.
  pose proof (check_call_with_log_status
                (hg_clone (JStr "https://x/hg") "/clone/cube")
                ["hg"; "clone"; "https://x/hg"; "/clone/cube"] None
                (mkState Toy.failing_clone []) Toy.failing_clone
                EmptyString "abort: error" 255%Z eq_refl eq_refl)
    as (_ & Hraise & Hprop).
  assert (Hrc : 255%Z <> 0%Z) by discriminate.
  split; [exact (proj1 Hraise Hrc)|].
  destruct (Hprop Hrc) as (_ & Hhg & _).
  rewrite (Hhg (JStr "https://x/hg") (JStr "cube") (JStr "1.0") "/clone/cube"
             eq_refl eq_refl).
  reflexivity.
Defined.

(** On the machine where the clone of mercurial fails and the one of git
    succeeds: one command for hg, two for git. *)
Lemma fetchers_commands_witness :
  commands_of (trace_of (hg_dl (JStr "https://x/hg") (JStr "cube") (JStr "1.0")
                           "/clone/cube" (mkState Toy.failing_clone [])))
  = [(["hg"; "clone"; "https://x/hg"; "/clone/cube"], None)] /\
  commands_of (trace_of (git_dl (JStr "https://x/hg") (JStr "cube") (JStr "1.0")
                           "/clone/cube" (mkState Toy.failing_clone [])))
  = [(["git"; "clone"; "https://x/hg"; "/clone/cube"], None);
     (["git"; "checkout"; "1.0"], Some "/clone/cube")].
Proof.
  assert (Hversion : JStr "1.0" = JNull \/ exists v, JStr "1.0" = JStr v)
    by (right; exists "1.0"; reflexivity).
  exact (fetchers_commands "https://x/hg" "/clone/cube" (JStr "cube")
           (JStr "1.0") (mkState Toy.failing_clone []) Hversion).
Defined.

(** The version is not [None] and yet no update is run: the clone failed. *)
Lemma hg_dl_failed_clone_no_update :
  let t := trace_of (hg_dl (JStr "https://x/hg") (JStr "cube") (JStr "1.0")
                       "/clone/cube" (mkState Toy.failing_clone [])) in
  is_None (JStr "1.0") = false /\
  commands_of t = [(["hg"; "clone"; "https://x/hg"; "/clone/cube"], None)] /\
  ~ In (["hg"; "update"; "--cwd"; "/clone/cube"; "1.0"], None) (commands_of t).
Proof.
  cbv zeta. split; [reflexivity|]. split; [reflexivity|].
  intros [Hin|[]]. discriminate Hin.
Qed.

Lemma export_cube_already_linked_witness :
  export_cube "/cubes" "/clone" "git"
    ("https://x/repo.git", JList [JStr "mycube"; JNull; JStr "."])
    (mkState Toy.installed [])
  = (Returned tt, mkState Toy.installed [],
     [ turn_event (JStr "mycube") JNull;
       ELog INFO "Cube '%s' already exported with version '%s', skip..."
         [AJson (JStr "mycube"); AJson (JStr "0.1")] ]).
Proof.
  assert (Hlinked : lexists (world (mkState Toy.installed []))
                      (join "/cubes" "mycube") = true) by reflexivity.
  assert (Hfile : isfile (world (mkState Toy.installed []))
                    (join (join "/cubes" "mycube") "__pkginfo__.py") = true)
    by reflexivity.
  destruct (export_cube_already_linked "/cubes" "/clone" "git"
              "https://x/repo.git" (JList [JStr "mycube"; JNull; JStr "."])
              "mycube" "." JNull (mkState Toy.installed [])
              eq_refl Hlinked Hfile) as (_ & _ & _ & Hrun).
  apply (Hrun [("version", JStr "0.1")] (JStr "0.1")); reflexivity.
Defined.

Lemma export_cube_invalid_clone_witness :
  export_cube "/cubes" "/clone" "git"
    ("https://x/repo.git", JList [JStr "mycube"; JNull; JStr "."])
    (mkState Toy.cloned_only [])
  = (Raised (not_a_cube "/clone/mycube/."), mkState Toy.cloned_only [],
     [turn_event (JStr "mycube") JNull]).
Proof.
  assert (Hlinked : lexists (world (mkState Toy.cloned_only []))
                      (join "/cubes" "mycube") = false) by reflexivity.
  assert (Hdir : isdir (world (mkState Toy.cloned_only []))
                   (join "/clone" "mycube") = true) by reflexivity.
  assert (Hfile : isfile (world (mkState Toy.cloned_only []))
                    (join (join (join "/clone" "mycube") ".") "__pkginfo__.py")
                  = false) by reflexivity.
  destruct (export_cube_invalid_clone "/cubes" "/clone" "git"
              "https://x/repo.git" (JList [JStr "mycube"; JNull; JStr "."])
              "mycube" "." JNull (mkState Toy.cloned_only [])
              eq_refl Hlinked Hdir Hfile) as (Hrun & _ & _).
  exact Hrun.
Defined.

Lemma export_cubes_idempotent_witness :
  result_of (export_cubes "/cubes" "/clone" (JDict []) Toy.scenario_git_cubes
               (mkState Toy.installed [])) = Returned tt /\
  state_of (export_cubes "/cubes" "/clone" (JDict []) Toy.scenario_git_cubes
              (mkState Toy.installed [])) = mkState Toy.installed [] /\
  commands_of (trace_of (export_cubes "/cubes" "/clone" (JDict [])
                           Toy.scenario_git_cubes (mkState Toy.installed []))) = [] /\
  symlinks_of (trace_of (export_cubes "/cubes" "/clone" (JDict [])
                           Toy.scenario_git_cubes (mkState Toy.installed []))) = [].
Proof.
  apply (export_cubes_idempotent "/cubes" "/clone" []
           [("https://x/repo.git", JList [JStr "mycube"; JNull; JStr "."])]
           (mkState Toy.installed [])).
  constructor; [|constructor].
  exists "mycube", JNull, ".", [("version", JStr "0.1")], (JStr "0.1").
  repeat split; reflexivity.
Defined.

(** The installer run twice on the configuration of the scenario, from
    empty folders, when the cube is not at the relative path that the
    configuration gives.  The first run clones the repository and links
    the cube.  On the second run the cube is linked, but no
    [__pkginfo__.py] is found through the link: the loop raises an
    exception instead of returning. *)
Lemma export_cubes_second_run_raises :
  let first := export_cubes "/cubes" "/clone" (JDict []) Toy.scenario_git_cubes
                 (mkState Toy.fresh_elsewhere []) in
  let second := export_cubes "/cubes" "/clone" (JDict []) Toy.scenario_git_cubes
                  (state_of first) in
  result_of first = Returned tt /\
  symlinks_of (trace_of first) = [("/clone/mycube/.", "/cubes/mycube")] /\
  lexists (world (state_of first)) (join "/cubes" "mycube") = true /\
  result_of second = Raised (not_a_cube "/cubes/mycube") /\
  result_of second <> Returned tt.
Proof.
  cbv zeta. repeat split; try reflexivity. discriminate.
Qed.

(** The same two runs when the cube is where the configuration says: the
    second run finds the cube linked, reads its version, and does nothing
    else. *)
Example export_cubes_second_run_skips :
  let first := export_cubes "/cubes" "/clone" (JDict []) Toy.scenario_git_cubes
                 (mkState Toy.fresh []) in
  let second := export_cubes "/cubes" "/clone" (JDict []) Toy.scenario_git_cubes
                  (state_of first) in
  result_of first = Returned tt /\
  commands_of (trace_of first)
  = [(["git"; "clone"; "https://x/repo.git"; "/clone/mycube"], None)] /\
  symlinks_of (trace_of first) = [("/clone/mycube/.", "/cubes/mycube")] /\
  second
  = (Returned tt, state_of first,
     [ turn_event (JStr "mycube") JNull;
       ELog INFO "Cube '%s' already exported with version '%s', skip..."
         [AJson (JStr "mycube"); AJson (JStr "0.1")] ]).
Proof. cbv zeta. repeat split. Qed.

Lemma choose_version_to_install_choice_witness :
  result_of (choose_version_to_install expected_types "/configs"
               (mkState Toy.two_confs ["x"; "7"; "1"; "later"]))
  = Returned "/configs/b.conf" /\
  In (EPrint row_template [AInt 1; AJson (JStr "2.0"); AStr "b.conf"])
     (trace_of (choose_version_to_install expected_types "/configs"
                  (mkState Toy.two_confs ["x"; "7"; "1"; "later"]))).
Proof.
  destruct (choose_version_to_install_choice expected_types (Permutation_refl _)
              "/configs" (mkState Toy.two_confs ["x"; "7"; "1"; "later"])
              ["x"; "7"] "1" ["later"] 1%Z)
    as (chosen & Hnth & Hrun & Hrow).
  - discriminate.
  - constructor; [|constructor; [|constructor]].
    + exists Toy.scenario_conf, "1.0", [],
        [("https://x/repo.git", JList [JStr "mycube"; JNull; JStr "."])],
        [JStr "pytest"].
      repeat split; reflexivity.
    + exists Toy.second_conf, "2.0", [], [], []. repeat split; reflexivity.
  - reflexivity.
  - constructor; [exact I|]. constructor; [|constructor].
    right. simpl. lia.
  - reflexivity.
  - simpl. lia.
  - injection Hnth as <-. split.
    + rewrite Hrun. reflexivity.
    + exact Hrow.
Defined.

(** The scenario of the documentation: one git cube without version, one
    tool, empty folders, the user picks the only configuration.  The
    installer installs pytest, clones the repository in the clone
    directory and links the cube. *)
Example main_scenario :
  let r := main expected_types "/cubes" "/clone" "/configs"
             (mkState (Toy.with_conf Toy.scenario_conf) ["0"]) in
  result_of r = Returned tt /\
  commands_of (trace_of r)
  = [ (["pip"; "install"; "pytest"], None);
      (["git"; "clone"; "https://x/repo.git"; "/clone/mycube"], None) ] /\
  symlinks_of (trace_of r) = [("/clone/mycube/.", "/cubes/mycube")].
Proof. cbv zeta. repeat split. Qed.

(** ** What a run never does *)

Section Only.

Context {World : Type} (P : event -> bool).

Lemma only_ret {A : Type} (a : A) : only P (@ret World A a).
Proof. intros s. constructor. Qed.

Lemma only_raise {A : Type} (e : pyexc) : only P (@raise World A e).
Proof. intros s. constructor. Qed.

Lemma only_lift {A : Type} (o : outcome A) : only P (@lift World A o).
Proof. intros s. constructor. Qed.

Lemma only_ask {A : Type} (q : World -> A) : only P (ask q).
Proof. intros s. constructor. Qed.

Lemma only_emit (e : event) : P e = true -> only P (@emit World e).
Proof. intros He s. constructor; [exact He | constructor]. Qed.

Lemma only_bind {A B : Type} (m : M World A) (f : A -> M World B) :
  only P m -> (forall a, only P (f a)) -> only P (bind m f).
Proof.
  intros Hm Hf s. specialize (Hm s). unfold bind.
  destruct (m s) as [[[a|e] s1] t1]; unfold trace_of in *; cbn [snd] in *.
  - specialize (Hf a s1). destruct (f a s1) as [[o s2] t2].
    cbn [snd] in *. apply Forall_app. split; assumption.
  - exact Hm.
Qed.

Lemma only_bind_lift {A B : Type} (o : outcome A) (f : A -> M World B) :
  (forall a, o = Returned a -> only P (f a)) -> only P (bind (lift o) f).
Proof.
  intros Hf s. unfold bind, lift. destruct o as [a|e].
  - specialize (Hf a eq_refl s). destruct (f a s) as [[o2 s2] t2].
    exact Hf.
  - constructor.
Qed.

Lemma only_for_each {X : Type} (xs : list X) (body : X -> M World unit) :
  (forall x, only P (body x)) -> only P (for_each xs body).
Proof.
  intros Hbody. induction xs as [|x xs IH]; cbn [for_each].
  - apply only_ret.
  - apply only_bind; [apply Hbody | intros _; exact IH].
Qed.

End Only.

Lemma commands_of_only_known (t : list event) :
  Forall (fun e => runs_known e = true) t ->
  Forall (fun c => known_command c = true) (commands_of t).
Proof.
  induction 1 as [|e t He _ IH]; [constructor|].
  unfold commands_of. cbn [flat_map]. destruct e; cbn [app]; try exact IH.
  constructor; [exact He | exact IH].
Qed.

Lemma commands_of_only_none (t : list event) :
  Forall (fun e => no_process e = true) t -> commands_of t = [].
Proof.
  induction 1 as [|e t He _ IH]; [reflexivity|].
  unfold commands_of. cbn [flat_map]. destruct e; cbn [app]; try exact IH.
  discriminate He.
Qed.

Lemma symlinks_of_only_none (t : list event) :
  Forall (fun e => no_link e = true) t -> symlinks_of t = [].
Proof.
  induction 1 as [|e t He _ IH]; [reflexivity|].
  unfold symlinks_of. cbn [flat_map]. destruct e; cbn [app]; try exact IH.
  discriminate He.
Qed.

(** A predicate on events that holds of what is printed and logged holds
    of the whole run of the functions that only print, log and read. *)
Section Quiet.

Context {World : Type} `{OS World} (P : event -> bool).
Hypothesis P_print : forall template args, P (EPrint template args) = true.
Hypothesis P_log : forall lvl template args, P (ELog lvl template args) = true.

Lemma only_print (template : string) (args : list arg) :
  only P (@print World template args).
Proof. apply only_emit. apply P_print. Qed.

Lemma only_logger (lvl : level) (template : string) (args : list arg) :
  only P (@logger World lvl template args).
Proof. apply only_emit. apply P_log. Qed.

Lemma only_check_fields (items : list (string * list pyobj)) (json_data : json)
  (file_name : string) (fails : Z) :
  only P (@check_fields World items json_data file_name fails).
Proof.
  revert fails. induction items as [|[f tys] items IH]; intros fails;
    cbn [check_fields].
  - apply only_ret.
  - apply only_bind; [apply only_lift|]. intros present.
    destruct (negb present).
    + apply only_bind; [apply only_lift|]. intros key.
      apply only_bind; [apply only_print | intros _; apply IH].
    + apply only_bind; [apply only_lift|]. intros value.
      destruct (negb (type_in (type_of value) tys)).
      * apply only_bind; [apply only_print | intros _; apply IH].
      * apply IH.
Qed.

Lemma only_check_configuration_integrity (items : list (string * list pyobj))
  (json_data : json) (file_name : string) :
  only P (@check_configuration_integrity World items json_data file_name).
Proof.
  unfold check_configuration_integrity.
  apply only_bind; [apply only_check_fields|]. intros fails.
  destruct (negb (fails =? 0)%Z).
  - apply only_bind; [apply only_print | intros _; apply only_raise].
  - apply only_ret.
Qed.

Lemma only_load_configuration (items : list (string * list pyobj))
  (file_name : string) :
  only P (load_configuration items file_name).
Proof.
  unfold load_configuration.
  apply only_bind; [apply only_ask|]. intros [json_data|e].
  - apply only_bind; [apply only_check_configuration_integrity|].
    intros _. apply only_ret.
  - destruct e; try apply only_raise.
    apply only_bind; [apply only_logger | intros _; apply only_raise].
Qed.

Lemma only_load_versions (items : list (string * list pyobj))
  (config_files : list string) :
  forall available_versions files_names,
    only P (load_versions items config_files available_versions files_names).
Proof.
  induction config_files as [|f files IH]; intros vs fs; cbn [load_versions].
  - apply only_ret.
  - apply only_bind; [apply only_load_configuration|]. intros json_data.
    apply only_bind; [apply only_lift|]. intros version. apply IH.
Qed.

Lemma only_display_choices (version_choices : list (Z * json))
  (files_names : list string) :
  only P (@display_choices World version_choices files_names).
Proof.
  unfold display_choices. apply only_for_each. intros kv.
  apply only_bind; [apply only_lift | intros f; apply only_print].
Qed.

Lemma only_waiting_for_choice (version_choices : list (Z * json))
  (files_names : list string) (lines : list string) (w : World) :
  Forall (fun e => P e = true)
    (trace_of (waiting_for_choice version_choices files_names lines w)).
Proof.
  revert w. induction lines as [|l lines IH]; intros w;
    cbn [waiting_for_choice].
  - apply (only_bind P); [apply only_print | intros _; apply only_raise].
  - apply (only_bind P); [apply only_print|]. intros _.
    destruct (try_choice version_choices l) as [[k choice]|].
    + apply only_bind; [apply only_print | intros _; apply only_lift].
    + apply only_bind; [apply only_print|]. intros _ s. apply IH.
Qed.

Lemma only_choose_version_to_install (items : list (string * list pyobj))
  (config_folder : string) :
  only P (choose_version_to_install items config_folder).
Proof.
  unfold choose_version_to_install.
  apply only_bind; [apply only_print|]. intros _.
  apply only_bind; [apply only_ask|]. intros [|f files].
  - apply only_bind; [apply only_print | intros _; apply only_raise].
  - apply only_bind; [apply only_load_versions|]. intros loaded. cbv zeta.
    apply only_bind; [apply only_print|]. intros _.
    apply only_bind; [apply only_print|]. intros _.
    apply only_bind; [apply only_display_choices|]. intros _ s.
    apply only_waiting_for_choice.
Qed.

Lemma only_startup (host : Host World) (clone_directory : option string) :
  only P (startup host clone_directory).
Proof.
  unfold startup. apply only_bind; [apply only_ask|]. intros [value|].
  - apply only_bind; [apply only_ask|]. intros platform.
    destruct (String.eqb platform "Linux"); [|apply only_raise].
    cbv zeta. destruct (negb (length (py_split ":" value) =? 1)%nat);
      [apply only_raise|].
    apply only_bind; [apply only_lift|]. intros cubes_path.
    apply only_bind; [apply only_ask|]. intros writable.
    destruct (negb writable); [apply only_raise|].
    destruct clone_directory as [directory|]; [|apply only_raise].
    apply only_bind; [apply only_ask|]. intros is_dir.
    destruct (negb is_dir); [apply only_raise | apply only_ret].
  - apply only_raise.
Qed.

(** One call of the command runner, when [P] holds of its process *)
Lemma only_check_call_with_log (command : list json) (cwd : option string) :
  (forall words, str_items command = Returned words ->
                 P (EPopen words cwd) = true) ->
  only P (check_call_with_log command cwd).
Proof.
  intros Hwords. unfold check_call_with_log.
  apply only_bind; [apply only_logger|]. intros _.
  apply only_bind_lift. intros words Hitems.
  apply only_bind; [apply only_logger|]. intros _.
  apply only_bind; [apply only_ask|]. intros here.
  apply only_bind; [apply only_logger|]. intros _.
  apply only_bind; [apply only_logger|]. intros _.
  apply only_bind.
  - intros s. unfold Popen, trace_of.
    destruct (popen words cwd (world s)) as [w' [p|]]; cbn [snd];
      (constructor; [apply Hwords; exact Hitems | constructor]).
  - intros p. cbv zeta.
    apply only_bind.
    { destruct (nonempty (fst (fst p))); [apply only_logger | apply only_ret]. }
    intros _. apply only_bind.
    { destruct (nonempty (snd (fst p))); [apply only_logger | apply only_ret]. }
    intros _. apply only_bind; [apply only_logger|]. intros _.
    destruct (negb (snd p =? 0)%Z); [apply only_raise | apply only_ret].
Qed.

Lemma only_cube_info_version (pkginfo : string) :
  only P (cube_info_version pkginfo).
Proof.
  unfold cube_info_version. apply only_bind; [apply only_ask|]. intros loaded.
  apply only_bind; [apply only_lift|]. intros cube_info.
  destruct (assoc "version" cube_info); [apply only_ret | apply only_raise].
Qed.

End Quiet.

Section KnownCommands.

Context {World : Type} `{OS World}.

Let P := runs_known.

Lemma only_known_hg_dl (url : string) (name version : json) (folder : string) :
  only P (hg_dl (JStr url) name version folder).
Proof.
  unfold hg_dl. apply only_bind.
  - apply only_check_call_with_log; [reflexivity|].
    intros words [= <-]. reflexivity.
  - intros _. destruct (negb (is_None version)); [|apply only_ret].
    apply only_check_call_with_log; [reflexivity|].
    intros words Hwords. destruct version; try discriminate Hwords.
    injection Hwords as <-. reflexivity.
Qed.

Lemma only_known_git_dl (url : string) (name version : json) (folder : string) :
  only P (git_dl (JStr url) name version folder).
Proof.
  unfold git_dl. apply only_bind.
  - apply only_check_call_with_log; [reflexivity|].
    intros words [= <-]. reflexivity.
  - intros _. destruct (negb (is_None version)); [|apply only_ret].
    apply only_check_call_with_log; [reflexivity|].
    intros words Hwords. destruct version; try discriminate Hwords.
    injection Hwords as <-. reflexivity.
Qed.

Lemma only_known_Symlink (source link_name : string) :
  only P (Symlink source link_name).
Proof.
  intros s. unfold Symlink, trace_of.
  destruct (symlink source link_name (world s)); cbn [snd];
    (constructor; [reflexivity | constructor]).
Qed.

Lemma only_known_export_cube (cubes_path clone_directory repo_type : string)
  (item : string * json) :
  only P (export_cube cubes_path clone_directory repo_type item).
Proof.
  unfold export_cube. cbv zeta.
  apply only_bind; [apply only_lift|]. intros unpacked.
  apply only_bind; [apply only_lift|]. intros cube_folder.
  apply only_bind; [apply only_lift|]. intros package_folder.
  apply only_bind; [apply only_lift|]. intros package_cube_folder.
  apply only_bind; [apply only_logger; reflexivity|]. intros _.
  apply only_bind; [apply only_ask|]. intros linked.
  destruct (negb linked).
  - apply only_bind; [apply only_ask|]. intros cloned.
    apply only_bind.
    + destruct (negb cloned).
      * destruct (String.eqb repo_type "hg"); [apply only_known_hg_dl|].
        destruct (String.eqb repo_type "git");
          [apply only_known_git_dl | apply only_raise].
      * apply only_bind; [apply only_ask|]. intros found.
        destruct found; [|apply only_raise].
        apply only_bind; [apply only_cube_info_version; reflexivity|].
        intros version. apply only_logger; reflexivity.
    + intros _. apply only_bind; [apply only_logger; reflexivity|].
      intros _. apply only_known_Symlink.
  - apply only_bind; [apply only_ask|]. intros found.
    destruct found; [|apply only_raise].
    apply only_bind; [apply only_cube_info_version; reflexivity|].
    intros version. apply only_logger; reflexivity.
Qed.

Lemma only_known_export_cubes (cubes_path clone_directory : string)
  (hg_cubes git_cubes : json) :
  only P (export_cubes cubes_path clone_directory hg_cubes git_cubes).
Proof.
  unfold export_cubes. apply only_for_each. intros rc.
  apply only_bind; [apply only_lift|]. intros items.
  apply only_for_each. intros item. apply only_known_export_cube.
Qed.

Lemma only_known_install_pypi_tools (pypi_tools : json) :
  only P (install_pypi_tools pypi_tools).
Proof.
  unfold install_pypi_tools. apply only_bind; [apply only_lift|].
  intros tools. apply only_for_each. intros tool_name.
  apply only_bind; [apply only_logger; reflexivity|]. intros _.
  apply only_check_call_with_log; [reflexivity|].
  intros words Hwords. destruct tool_name; try discriminate Hwords.
  injection Hwords as <-. reflexivity.
Qed.

Lemma only_known_main (items : list (string * list pyobj))
  (cubes_path clone_directory config_folder : string) :
  only P (main items cubes_path clone_directory config_folder).
Proof.
  unfold main.
  apply only_bind; [apply only_choose_version_to_install; reflexivity|].
  intros json_file.
  apply only_bind; [apply only_load_configuration; reflexivity|].
  intros json_data.
  apply only_bind; [apply only_lift|]. intros version.
  apply only_bind; [apply only_lift|]. intros hg_cubes.
  apply only_bind; [apply only_lift|]. intros git_cubes.
  apply only_bind; [apply only_lift|]. intros pypi_tools.
  apply only_bind; [apply only_logger; reflexivity|]. intros _.
  apply only_bind; [apply only_known_install_pypi_tools|]. intros _.
  apply only_bind; [apply only_logger; reflexivity|]. intros _.
  apply only_known_export_cubes.
Qed.

(** X1.  Whatever the environment, the options, the configuration files,
    the machine and the input, every process the script starts is one of
    [pip install tool], [hg clone url folder],
    [hg update --cwd folder version], [git clone url folder], all run in
    the current directory, and [git checkout version] run in a given
    directory: the script runs no other program and no other subcommand. *)
Theorem script_runs_known_commands (host : Host World)
  (expected_items : list (string * list pyobj))
  (clone_directory : option string) (config_folder : string)
  (s : state World) :
  Forall (fun c => known_command c = true)
    (commands_of
       (trace_of (script host expected_items clone_directory config_folder s))).
Proof.
  apply commands_of_only_known. revert s.
  change (only P (script host expected_items clone_directory config_folder)).
  unfold script. apply only_bind; [apply only_startup; reflexivity|].
  intros checked. apply only_known_main.
Qed.

End KnownCommands.

(** ** What selection and loading leave untouched *)

Section ReadsOnly.

Context {World : Type}.

Lemma reads_only_ret {A : Type} (a : A) : reads_only (@ret World A a).
Proof. intros s. reflexivity. Qed.

Lemma reads_only_raise {A : Type} (e : pyexc) : reads_only (@raise World A e).
Proof. intros s. reflexivity. Qed.

Lemma reads_only_lift {A : Type} (o : outcome A) : reads_only (@lift World A o).
Proof. intros s. reflexivity. Qed.

Lemma reads_only_ask {A : Type} (q : World -> A) : reads_only (ask q).
Proof. intros s. reflexivity. Qed.

Lemma reads_only_emit (e : event) : reads_only (@emit World e).
Proof. intros s. reflexivity. Qed.

Lemma reads_only_bind {A B : Type} (m : M World A) (f : A -> M World B) :
  reads_only m -> (forall a, reads_only (f a)) -> reads_only (bind m f).
Proof.
  intros Hm Hf s. specialize (Hm s). unfold bind, state_of in *.
  destruct (m s) as [[[a|e] s1] t1]; cbn [fst snd] in *; subst s1.
  - specialize (Hf a s). unfold state_of in Hf.
    destruct (f a s) as [[o s2] t2]. exact Hf.
  - reflexivity.
Qed.

Lemma reads_only_for_each {X : Type} (xs : list X) (body : X -> M World unit) :
  (forall x, reads_only (body x)) -> reads_only (for_each xs body).
Proof.
  intros Hbody. induction xs as [|x xs IH]; cbn [for_each].
  - apply reads_only_ret.
  - apply reads_only_bind; [apply Hbody | intros _; exact IH].
Qed.

Lemma reads_only_check_fields (items : list (string * list pyobj))
  (json_data : json) (file_name : string) (fails : Z) :
  reads_only (@check_fields World items json_data file_name fails).
Proof.
  revert fails. induction items as [|[f tys] items IH]; intros fails;
    cbn [check_fields].
  - apply reads_only_ret.
  - apply reads_only_bind; [apply reads_only_lift|]. intros present.
    destruct (negb present).
    + apply reads_only_bind; [apply reads_only_lift|]. intros key.
      apply reads_only_bind; [apply reads_only_emit | intros _; apply IH].
    + apply reads_only_bind; [apply reads_only_lift|]. intros value.
      destruct (negb (type_in (type_of value) tys)).
      * apply reads_only_bind; [apply reads_only_emit | intros _; apply IH].
      * apply IH.
Qed.

Lemma reads_only_check_configuration_integrity
  (items : list (string * list pyobj)) (json_data : json) (file_name : string) :
  reads_only (@check_configuration_integrity World items json_data file_name).
Proof.
  unfold check_configuration_integrity.
  apply reads_only_bind; [apply reads_only_check_fields|]. intros fails.
  destruct (negb (fails =? 0)%Z).
  - apply reads_only_bind; [apply reads_only_emit|].
    intros _. apply reads_only_raise.
  - apply reads_only_ret.
Qed.

End ReadsOnly.

Section Selection.

Context {World : Type} `{OS World}.

Lemma reads_only_load_configuration (items : list (string * list pyobj))
  (file_name : string) :
  reads_only (load_configuration items file_name).
Proof.
  unfold load_configuration.
  apply reads_only_bind; [apply reads_only_ask|]. intros [json_data|e].
  - apply reads_only_bind; [apply reads_only_check_configuration_integrity|].
    intros _. apply reads_only_ret.
  - destruct e; try apply reads_only_raise.
    apply reads_only_bind; [apply reads_only_emit|].
    intros _. apply reads_only_raise.
Qed.

Lemma reads_only_load_versions (items : list (string * list pyobj))
  (config_files : list string) :
  forall available_versions files_names,
    reads_only
      (load_versions items config_files available_versions files_names).
Proof.
  induction config_files as [|f files IH]; intros vs fs; cbn [load_versions].
  - apply reads_only_ret.
  - apply reads_only_bind; [apply reads_only_load_configuration|].
    intros json_data.
    apply reads_only_bind; [apply reads_only_lift|]. intros version. apply IH.
Qed.

Lemma reads_only_display_choices (version_choices : list (Z * json))
  (files_names : list string) :
  reads_only (@display_choices World version_choices files_names).
Proof.
  unfold display_choices. apply reads_only_for_each. intros kv.
  apply reads_only_bind; [apply reads_only_lift|].
  intros f. apply reads_only_emit.
Qed.

Lemma waiting_for_choice_consumes_front (version_choices : list (Z * json))
  (files_names : list string) (lines : list string) (w : World) :
  consumes_front (mkState w lines)
    (state_of (waiting_for_choice version_choices files_names lines w)).
Proof.
  revert w. induction lines as [|l lines IH]; intros w;
    cbn [waiting_for_choice].
  - split; [reflexivity|]. exists []. reflexivity.
  - unfold bind, print, emit.
    destruct (try_choice version_choices l) as [[k choice]|].
    + unfold lift, state_of. cbn [fst snd]. split; [reflexivity|].
      exists [l]. reflexivity.
    + cbn [world]. destruct (IH w) as [Hw [consumed Hc]].
      unfold state_of in *.
      destruct (waiting_for_choice version_choices files_names lines w)
        as [[o s2] t2].
      cbn [fst snd world stdin] in *. split; [exact Hw|].
      exists (l :: consumed). rewrite Hc. reflexivity.
Qed.

(** X2.  Choosing and loading a configuration touch nothing.
    [load_configuration] leaves the machine and the input as they are.
    [choose_version_to_install] starts no process, makes no link, leaves
    the machine as it is and only takes lines from the front of the input,
    whatever the files and the answers of the user. *)
Theorem selection_reads_only (expected_items : list (string * list pyobj))
  (config_folder file_name : string) (s : state World) :
  let chosen := choose_version_to_install expected_items config_folder s in
  let loaded := load_configuration expected_items file_name s in
  commands_of (trace_of chosen) = [] /\
  symlinks_of (trace_of chosen) = [] /\
  consumes_front s (state_of chosen) /\
  commands_of (trace_of loaded) = [] /\
  symlinks_of (trace_of loaded) = [] /\
  state_of loaded = s.
Proof.
  cbv zeta. split; [|split; [|split; [|split; [|split]]]].
  - apply commands_of_only_none.
    apply (only_choose_version_to_install no_process); reflexivity.
  - apply symlinks_of_only_none.
    apply (only_choose_version_to_install no_link); reflexivity.
  - unfold choose_version_to_install.
    unfold bind at 1, print at 1, emit at 1.
    unfold bind at 1, ask at 1.
    destruct (glob (world s) (join config_folder "*.conf")) as [|f files].
    + unfold bind, print, emit, sys_exit, raise, state_of. cbn [fst snd].
      split; [reflexivity|]. exists []. reflexivity.
    + pose proof (reads_only_load_versions expected_items (f :: files) [] [] s)
        as Hload. unfold state_of in Hload. unfold bind at 1.
      destruct (load_versions expected_items (f :: files) [] [] s)
        as [[[loaded|e] s1] t1]; cbn [fst snd] in Hload; subst s1.
      * cbv zeta. unfold bind at 1, print at 1, emit at 1.
        unfold bind at 1, print at 1, emit at 1.
        pose proof (reads_only_display_choices (enumerate (fst loaded))
                      (snd loaded) s) as Hshow.
        unfold state_of in Hshow. unfold bind at 1.
        destruct (display_choices (enumerate (fst loaded)) (snd loaded) s)
          as [[[u|e] s1] t2]; cbn [fst snd] in Hshow; subst s1.
        -- pose proof (waiting_for_choice_consumes_front
                         (enumerate (fst loaded)) (snd loaded) (stdin s)
                         (world s)) as Hwait.
           unfold state_of in *.
           destruct (waiting_for_choice (enumerate (fst loaded)) (snd loaded)
                       (stdin s) (world s)) as [[o s2] t3].
           cbn [fst snd] in *. destruct s as [w lines]. exact Hwait.
        -- unfold state_of. cbn [fst snd]. split; [reflexivity|].
           exists []. reflexivity.
      * unfold state_of. cbn [fst snd]. split; [reflexivity|].
        exists []. reflexivity.
  - apply commands_of_only_none.
    apply (only_load_configuration no_process); reflexivity.
  - apply symlinks_of_only_none.
    apply (only_load_configuration no_link); reflexivity.
  - apply reads_only_load_configuration.
Qed.

End Selection.

(** ** What validation guarantees *)

Lemma filter_nil_Forall {A : Type} (f : A -> bool) (l : list A) :
  filter f l = [] -> Forall (fun x => f x = false) l.
Proof.
  induction l as [|x l IH]; cbn [filter]; [constructor|].
  destruct (f x) eqn:Hx; [discriminate|].
  intros Hl. constructor; [exact Hx | apply IH; exact Hl].
Qed.

Lemma present_or_missing (d : list (string * json))
  (items : list (string * list pyobj)) :
  Forall (fun it => has_key (fst it) d = true) items \/
  Exists (fun it => has_key (fst it) d = false) items.
Proof.
  induction items as [|it items [IH|IH]].
  - left. constructor.
  - destruct (has_key (fst it) d) eqn:Hit.
    + left. constructor; assumption.
    + right. apply Exists_cons_hd. exact Hit.
  - right. apply Exists_cons_tl. exact IH.
Qed.

Lemma accepted_unicode (x : json) :
  type_in (type_of x) [TypeObj Tunicode; NoneObj] = true -> exists v, x = JStr v.
Proof.
  destruct x; unfold type_of;
    try (destruct ((- sys_maxint - 1 <=? n) && (n <=? sys_maxint))%Z);
    cbn [type_in existsb pyobj_eqb pytype_eqb orb];
    try discriminate.
  intros _. eexists. reflexivity.
Qed.

Lemma accepted_dict (x : json) :
  type_in (type_of x) [TypeObj Tdict] = true -> exists d, x = JDict d.
Proof.
  destruct x; unfold type_of;
    try (destruct ((- sys_maxint - 1 <=? n) && (n <=? sys_maxint))%Z);
    cbn [type_in existsb pyobj_eqb pytype_eqb orb];
    try discriminate.
  intros _. eexists. reflexivity.
Qed.

Lemma accepted_list (x : json) :
  type_in (type_of x) [TypeObj Tlist] = true -> exists l, x = JList l.
Proof.
  destruct x; unfold type_of;
    try (destruct ((- sys_maxint - 1 <=? n) && (n <=? sys_maxint))%Z);
    cbn [type_in existsb pyobj_eqb pytype_eqb orb];
    try discriminate.
  intros _. eexists. reflexivity.
Qed.

Lemma not_offending (d : list (string * json)) (f : string) (tys : list pyobj) :
  offending d (f, tys) = false ->
  exists x, assoc f d = Some x /\ type_in (type_of x) tys = true.
Proof.
  unfold offending. cbn [fst snd]. destruct (assoc f d) as [x|]; [|discriminate].
  intros Hx. exists x. split; [reflexivity|].
  destruct (type_in (type_of x) tys); [reflexivity | discriminate].
Qed.

Section Guarantees.

Context {World : Type} `{OS World}.
Variable expected_items : list (string * list pyobj).
Hypothesis expected_items_perm : Permutation expected_items expected_types.

Lemma expected_items_cons :
  exists f tys rest, expected_items = (f, tys) :: rest.
Proof.
  destruct expected_items as [|[f tys] rest].
  - apply Permutation_nil in expected_items_perm. discriminate.
  - eauto.
Qed.

(** On a value that is not an object the first field already raises: the
    membership test or the subscript fails with [TypeError], or the test
    answers no (a string, a list) and the missing-key line fails on [key]. *)
Lemma check_fields_not_object (f : string) (tys : list pyobj)
  (rest : list (string * list pyobj)) (json_data : json)
  (file_name : string) (fails : Z) (s : state World) :
  (forall d, json_data <> JDict d) ->
  exists e,
    check_fields ((f, tys) :: rest) json_data file_name fails s
    = (Raised e, s, []) /\
    (e = TypeError \/ e = NameError "key").
Proof.
  intros Hobject. cbn [check_fields]. unfold bind, lift, global_key.
  destruct json_data; cbn [py_contains py_getitem];
    try (exists TypeError; split; [reflexivity | left; reflexivity]).
  - destruct (is_substring f s0); cbn [negb].
    + exists TypeError. split; [reflexivity | left; reflexivity].
    + exists (NameError "key"). split; [reflexivity | right; reflexivity].
  - destruct (existsb _ items); cbn [negb].
    + exists TypeError. split; [reflexivity | left; reflexivity].
    + exists (NameError "key"). split; [reflexivity | right; reflexivity].
  - exfalso. eapply Hobject. reflexivity.
Qed.

(** X3.  A JSON value that is not an object (an array, a string, a
    number, a boolean, null) is not reported as a corrupted configuration:
    [check_configuration_integrity] prints nothing and raises [TypeError]
    or [NameError] at the first field, whatever the order of the fields;
    it neither returns nor exits. *)
Theorem check_configuration_integrity_not_object (json_data : json)
  (file_name : string) (s : state World) :
  (forall d, json_data <> JDict d) ->
  exists e,
    check_configuration_integrity expected_items json_data file_name s
    = (Raised e, s, []) /\
    (e = TypeError \/ e = NameError "key").
Proof.
  intros Hobject. destruct expected_items_cons as (f & tys & rest & ->).
  destruct (check_fields_not_object f tys rest json_data file_name 0%Z s
              Hobject) as (e & Hrun & He).
  exists e. split; [|exact He].
  unfold check_configuration_integrity, bind. rewrite Hrun. reflexivity.
Qed.

Lemma check_configuration_integrity_returned (json_data : json)
  (file_name : string) (s : state World) :
  result_of (check_configuration_integrity expected_items json_data file_name s)
  = Returned tt ->
  exists d v hg git tools,
    json_data = JDict d /\
    assoc "version" d = Some (JStr v) /\
    assoc "hg_cubes" d = Some (JDict hg) /\
    assoc "git_cubes" d = Some (JDict git) /\
    assoc "pypi_tools" d = Some (JList tools).
Proof.
  intros Hret.
  assert (Hd : exists d, json_data = JDict d).
  { destruct expected_items_cons as (f & tys & rest & Hitems).
    unfold check_configuration_integrity, bind in Hret. rewrite Hitems in Hret.
    destruct json_data; try (eexists; reflexivity); exfalso;
      (edestruct (check_fields_not_object f tys rest) as (e & Hrun & _);
       [ | rewrite Hrun in Hret; discriminate Hret ]);
      intros d; discriminate. }
  destruct Hd as [d ->]. exists d.
  destruct (present_or_missing d expected_items) as [Hall|Hex].
  - rewrite (check_configuration_integrity_present _ _ _ _ Hall) in Hret.
    destruct (filter (offending d) expected_items) eqn:Hfilter;
      [|discriminate Hret].
    pose proof (filter_Permutation (offending d) _ _ expected_items_perm)
      as Hperm.
    rewrite Hfilter in Hperm. apply Permutation_nil in Hperm.
    apply filter_nil_Forall in Hperm. unfold expected_types in Hperm.
    inversion Hperm as [|? ? Hversion H1]; subst.
    inversion H1 as [|? ? Hhg H2]; subst.
    inversion H2 as [|? ? Hgit H3]; subst.
    inversion H3 as [|? ? Htools _]; subst.
    apply not_offending in Hversion, Hhg, Hgit, Htools.
    destruct Hversion as (x1 & Ha1 & Ht1). destruct Hhg as (x2 & Ha2 & Ht2).
    destruct Hgit as (x3 & Ha3 & Ht3). destruct Htools as (x4 & Ha4 & Ht4).
    apply accepted_unicode in Ht1. apply accepted_dict in Ht2, Ht3.
    apply accepted_list in Ht4.
    destruct Ht1 as [v ->]. destruct Ht2 as [hg ->]. destruct Ht3 as [git ->].
    destruct Ht4 as [tools ->].
    exists v, hg, git, tools. repeat split; assumption.
  - destruct (check_fields_missing expected_items d file_name Hex 0%Z s)
      as (t & Hrun & _).
    unfold check_configuration_integrity, bind in Hret. rewrite Hrun in Hret.
    discriminate Hret.
Qed.

(** X4.  Whatever [load_configuration] returns was read from the file and
    is a JSON object whose [version] is a string, whose [hg_cubes] and
    [git_cubes] are objects and whose [pypi_tools] is an array; the call
    has printed and logged nothing and has left the machine and the input
    as they were.  So the four subscripts of the module level, the two
    [cubes.items()] and the loop over [pypi_tools] cannot fail on a loaded
    configuration. *)
Theorem load_configuration_returns_validated (file_name : string)
  (s s' : state World) (json_data : json) (t : list event) :
  load_configuration expected_items file_name s = (Returned json_data, s', t) ->
  open_json_load (world s) file_name = Returned json_data /\
  s' = s /\ t = [] /\
  exists d v hg git tools,
    json_data = JDict d /\
    py_getitem json_data "version" = Returned (JStr v) /\
    py_getitem json_data "hg_cubes" = Returned (JDict hg) /\
    py_getitem json_data "git_cubes" = Returned (JDict git) /\
    py_getitem json_data "pypi_tools" = Returned (JList tools) /\
    dict_items (JDict hg) = Returned hg /\
    dict_items (JDict git) = Returned git /\
    iterate (JList tools) = Returned tools.
Proof.
  intros Hload.
  destruct (open_json_load (world s) file_name) as [j|e] eqn:Hopen.
  - rewrite (load_configuration_opened _ _ _ _ Hopen) in Hload.
    destruct (check_configuration_integrity expected_items j file_name s)
      as [[[u|e] s1] t1] eqn:Hcheck; [|discriminate Hload].
    injection Hload as <- <- <-.
    assert (Hret : result_of (check_configuration_integrity expected_items j
                                file_name s) = Returned tt)
      by (rewrite Hcheck; destruct u; reflexivity).
    destruct (check_configuration_integrity_returned j file_name s Hret)
      as (d & v & hg & git & tools & -> & Hv & Hhg & Hgit & Htools).
    rewrite (accepted_configuration expected_items expected_items_perm
               file_name s d v hg git tools Hv Hhg Hgit Htools) in Hcheck.
    injection Hcheck as _ <- <-.
    repeat split; try reflexivity.
    exists d, v, hg, git, tools. cbn [py_getitem].
    rewrite Hv, Hhg, Hgit, Htools. repeat split; reflexivity.
  - exfalso. unfold load_configuration, bind, ask in Hload.
    rewrite Hopen in Hload.
    destruct e; cbn in Hload; discriminate Hload.
Qed.

End Guarantees.

(** ** The choice of a configuration: the other ways out *)

Section ChoosingEdges.

Context {World : Type} `{OS World}.
Variable expected_items : list (string * list pyobj).
Hypothesis expected_items_perm : Permutation expected_items expected_types.

(** The first loop stops at the first file that does not load. *)
Lemma load_versions_refused (pre : list string) (bad : string)
  (post : list string) (s : state World) (e : pyexc) :
  Forall (accepted_file (world s)) pre ->
  result_of (load_configuration expected_items bad s) = Raised e ->
  forall available_versions files_names,
    load_versions expected_items (pre ++ bad :: post)
      available_versions files_names s
    = (Raised e, s, trace_of (load_configuration expected_items bad s)).
Proof.
  intros Hpre Hbad. induction Hpre as [|f pre Hf _ IH]; intros vs fs.
  - cbn [app load_versions]. apply bind_raised.
    pose proof (reads_only_load_configuration expected_items bad s) as Hs.
    unfold result_of, state_of, trace_of in *.
    destruct (load_configuration expected_items bad s) as [[o s1] t1].
    cbn [fst snd] in *. subst. reflexivity.
  - destruct (load_configuration_accepted expected_items expected_items_perm
                f s Hf) as (d & Hload & Hversion).
    cbn [app load_versions].
    rewrite (bind_returned _ _ _ _ _ _ Hload).
    unfold bind at 1, lift at 1. rewrite Hversion. rewrite IH.
    reflexivity.
Qed.

(** With files that load, the function prints the table and waits. *)
Lemma choose_version_to_install_table (config_folder : string)
  (s : state World) :
  let files := glob (world s) (join config_folder "*.conf") in
  let versions := map (declared_version (world s)) files in
  files <> [] ->
  Forall (accepted_file (world s)) files ->
  choose_version_to_install expected_items config_folder s =
  prefix_trace
    ([ loading_event config_folder;
       EPrint "Please choose the CubicWeb setup version:" [];
       EPrint "CHOICE  -----  VERSION -----  CONFIG FILE" [] ]
     ++ map (fun kv => row_event versions files (fst kv)) (enumerate versions))
    (waiting_for_choice (enumerate versions) files (stdin s) (world s)).
Proof.
  intros files versions Hsome Hacc.
  assert (Hglob : glob (world s) (join config_folder "*.conf") = files)
    by reflexivity.
  clearbody files.
  assert (Hlen : length versions = length files)
    by (unfold versions; apply length_map).
  unfold choose_version_to_install.
  unfold bind at 1, print at 1, emit at 1.
  unfold bind at 1, ask at 1. rewrite Hglob.
  destruct files as [|f0 files0]; [contradiction|].
  cbv iota. set (files := f0 :: files0) in *.
  rewrite (bind_returned _ _ _ _ _ _
             (load_versions_accepted expected_items expected_items_perm
                files s Hacc [] [])).
  cbn [app fst snd]. fold versions.
  unfold bind at 1, print at 1, emit at 1.
  unfold bind at 1, print at 1, emit at 1.
  assert (Hrows :
    Forall (fun kv => (0 <= fst kv < Z.of_nat (length files))%Z /\
                      nth_error versions (Z.to_nat (fst kv)) = Some (snd kv))
           (enumerate versions)).
  { apply Forall_forall. intros [k v] Hin. apply enumerate_from_In in Hin.
    cbn [fst snd]. rewrite Z.sub_0_r in Hin. destruct Hin as [Hr Hn].
    split; [lia | exact Hn]. }
  rewrite (bind_returned _ _ _ _ _ _
             (display_choices_rows versions files s (enumerate versions)
                Hrows)).
  unfold prefix_trace, result_of, state_of, trace_of, loading_event.
  destruct (waiting_for_choice (enumerate versions) files (stdin s) (world s))
    as [[o s2] t2].
  cbn [fst snd app]. reflexivity.
Qed.

(** X5.  [choose_version_to_install] asks nothing unless every listed file
    loads.  When [glob] finds no file it prints "No configuration file was
    found!" and exits.  When a listed file does not load, the files before
    it loading, the function ends as [load_configuration] ended on that
    file, with what it printed, before the table and the prompt.  In both
    cases the input is untouched. *)
Theorem choose_version_to_install_refuses (config_folder : string)
  (s : state World) :
  (glob (world s) (join config_folder "*.conf") = [] ->
   choose_version_to_install expected_items config_folder s
   = (Raised SystemExit, s,
      [ loading_event config_folder;
        EPrint "No configuration file was found!" [] ])) /\
  (forall pre bad post e,
     glob (world s) (join config_folder "*.conf") = pre ++ bad :: post ->
     Forall (accepted_file (world s)) pre ->
     result_of (load_configuration expected_items bad s) = Raised e ->
     choose_version_to_install expected_items config_folder s
     = (Raised e, s,
        loading_event config_folder
        :: trace_of (load_configuration expected_items bad s))).
Proof.
  split.
  - intros Hglob. unfold choose_version_to_install, bind, print, emit, ask.
    rewrite Hglob. reflexivity.
  - intros pre bad post e Hglob Hpre Hbad.
    unfold choose_version_to_install.
    unfold bind at 1, print at 1, emit at 1.
    unfold bind at 1, ask at 1. rewrite Hglob.
    destruct (pre ++ bad :: post) as [|f0 files0] eqn:Hfiles.
    + destruct pre; discriminate Hfiles.
    + rewrite <- Hfiles.
      rewrite (bind_raised _ _ _ _ _ _
                 (load_versions_refused pre bad post s e Hpre Hbad [] [])).
      reflexivity.
Qed.

(** X6.  When the input ends before a line is a choice, the files loading,
    [choose_version_to_install] does not return: [raw_input] raises
    [EOFError], which nothing catches, after a prompt for each line and one
    more; all the lines are consumed. *)
Theorem choose_version_to_install_end_of_input (config_folder : string)
  (s : state World) :
  let files := glob (world s) (join config_folder "*.conf") in
  files <> [] ->
  Forall (accepted_file (world s)) files ->
  Forall (invalid_input (length files)) (stdin s) ->
  let run := choose_version_to_install expected_items config_folder s in
  result_of run = Raised EOFError /\
  state_of run = mkState (world s) [] /\
  length (filter (fun e => match e with
                           | EPrint "Please enter your choice:" [] => true
                           | _ => false
                           end) (trace_of run))
  = S (length (stdin s)).
Proof.
  intros files Hsome Hacc Hbad run. subst run.
  rewrite (choose_version_to_install_table config_folder s Hsome Hacc).
  fold files. set (versions := map (declared_version (world s)) files).
  assert (Hlen : length versions = length files)
    by (unfold versions; apply length_map).
  rewrite (waiting_for_choice_end_of_input (enumerate versions) files
             (stdin s) (world s)).
  - unfold prefix_trace, result_of, state_of, trace_of. cbn [fst snd].
    split; [reflexivity|]. split; [reflexivity|].
    set (is_prompt := fun e => match e with
                               | EPrint "Please enter your choice:" [] => true
                               | _ => false
                               end).
    assert (Hrows : forall l,
      filter is_prompt
        (map (fun kv : Z * json => row_event versions files (fst kv)) l) = []).
    { induction l as [|kv l IH]; [reflexivity|]. cbn [map filter]. exact IH. }
    assert (Hprompts : forall lines,
      length (filter is_prompt
                (flat_map (fun l => [prompt_event; invalid_event l]) lines))
      = length lines).
    { induction lines as [|l lines IH]; [reflexivity|].
      cbn [flat_map app filter]. change (is_prompt prompt_event) with true.
      change (is_prompt (invalid_event l)) with false.
      cbn [length]. f_equal. exact IH. }
    rewrite !filter_app, Hrows, !length_app, Hprompts.
    cbn. lia.
  - eapply Forall_impl; [|exact Hbad]. intros l Hl.
    apply try_choice_invalid. rewrite Hlen. exact Hl.
Qed.

End ChoosingEdges.

(** ** The three ways of a cube, and the entries that are not cubes *)

Section Turns.

Context {World : Type} `{OS World}.
Variable cubes_path : string.
Variable clone_directory : string.

Lemma only_no_link_hg_dl (url name version : json) (folder : string) :
  only no_link (hg_dl url name version folder).
Proof.
  unfold hg_dl. apply only_bind.
  - apply only_check_call_with_log; reflexivity.
  - intros _. destruct (negb (is_None version)); [|apply only_ret].
    apply only_check_call_with_log; reflexivity.
Qed.

Lemma only_no_link_git_dl (url name version : json) (folder : string) :
  only no_link (git_dl url name version folder).
Proof.
  unfold git_dl. apply only_bind.
  - apply only_check_call_with_log; reflexivity.
  - intros _. destruct (negb (is_None version)); [|apply only_ret].
    apply only_check_call_with_log; reflexivity.
Qed.

Lemma export_cube_not_linked (repo_type url : string) (package_item : json)
  (n r : string) (version : json) (s : state World) :
  unpack3 package_item = Returned (JStr n, version, JStr r) ->
  lexists (world s) (join cubes_path n) = false ->
  export_cube cubes_path clone_directory repo_type (url, package_item) s =
  let package_folder := join clone_directory n in
  let package_cube_folder := join package_folder r in
  let cube_folder := join cubes_path n in
  prefix_trace [turn_event (JStr n) version]
    ((fetch_or_reuse repo_type url (JStr n) version package_folder
        package_cube_folder (isdir (world s) package_folder) ;;
      logger DEBUG "symlink: %s -> %s."
        [AStr package_cube_folder; AStr cube_folder] ;;
      Symlink package_cube_folder cube_folder) s).
Proof.
  intros Hunpack Hlinked. cbv zeta.
  unfold export_cube. cbn [fst snd]. rewrite Hunpack.
  rewrite (bind_returned (lift (Returned (JStr n, version, JStr r))) _ s s
             _ [] eq_refl), prefix_trace_nil.
  cbn [fst snd path_join].
  rewrite (bind_returned (lift (Returned (join cubes_path n))) _ s s
             _ [] eq_refl), prefix_trace_nil.
  rewrite (bind_returned (lift (Returned (join clone_directory n))) _ s s
             _ [] eq_refl), prefix_trace_nil.
  rewrite (bind_returned
             (lift (Returned (join (join clone_directory n) r))) _ s s
             _ [] eq_refl), prefix_trace_nil.
  rewrite (bind_returned (logger INFO _ _) _ s s tt _ eq_refl).
  fold (turn_event (JStr n) version). f_equal.
  rewrite (bind_returned (ask _) _ s s _ [] eq_refl), prefix_trace_nil.
  rewrite Hlinked. cbn [negb].
  rewrite (bind_returned (ask _) _ s s _ [] eq_refl), prefix_trace_nil.
  reflexivity.
Qed.

Lemma only_no_link_fetch_or_reuse (repo_type url : string)
  (name version : json) (package_folder package_cube_folder : string)
  (cloned : bool) :
  only no_link (fetch_or_reuse repo_type url name version package_folder
                  package_cube_folder cloned).
Proof.
  unfold fetch_or_reuse. destruct (negb cloned).
  - destruct (String.eqb repo_type "hg"); [apply only_no_link_hg_dl|].
    destruct (String.eqb repo_type "git");
      [apply only_no_link_git_dl | apply only_raise].
  - cbv zeta. apply only_bind; [apply only_ask|]. intros found.
    destruct found; [|apply only_raise].
    apply only_bind; [apply only_cube_info_version; reflexivity|].
    intros v. apply only_logger; reflexivity.
Qed.

Lemma unpack3_raised (package_item : json) (e : pyexc) :
  unpack3 package_item = Raised e -> e = ValueError \/ e = TypeError.
Proof.
  destruct package_item as [| b | z | l | str | items | entries];
    cbn [unpack3]; try (intros [= <-]; right; reflexivity).
  - destruct str as [|a [|b [|c [|d rest]]]]; intros [= <-]; left; reflexivity.
  - destruct items as [|a [|b [|c [|d rest]]]]; intros [= <-]; left;
      reflexivity.
  - destruct entries as [|[a x] [|[b y] [|[c z] [|d rest]]]]; intros [= <-];
      left; reflexivity.
Qed.

(** An entry that does not unpack into a name and a path that are strings
    stops the turn before its first log line. *)
Lemma export_cube_malformed (repo_type url : string) (package_item : json)
  (s : state World) :
  (forall n version r,
     unpack3 package_item <> Returned (JStr n, version, JStr r)) ->
  exists e,
    export_cube cubes_path clone_directory repo_type (url, package_item) s
    = (Raised e, s, []) /\
    (e = ValueError \/ e = TypeError \/ e = AttributeError).
Proof.
  intros Hshape. unfold export_cube. cbn [fst snd].
  destruct (unpack3 package_item) as [[[name version] rel]|e] eqn:Hunpack.
  - rewrite (bind_returned (lift (Returned (name, version, rel))) _ s s
               _ [] eq_refl), prefix_trace_nil.
    cbn [fst snd].
    destruct name as [| b | z | l | n | items | entries];
      try (exists AttributeError; split; [reflexivity | tauto]).
    destruct rel as [| b | z | l | r | items | entries];
      try (exists AttributeError; split; [reflexivity | tauto]).
    exfalso. eapply Hshape. reflexivity.
  - exists e. split; [reflexivity|].
    destruct (unpack3_raised _ _ Hunpack) as [-> | ->]; tauto.
Qed.

(** X7.  A cube that is neither linked nor cloned is fetched and then
    linked: when [hg_dl] or [git_dl] (by the type of the repository)
    returns, the turn logs the link and calls [os.symlink] once, from the
    relative path inside the clone to the name of the cube in the cubes
    path; it returns when the link is made and raises [OSError] otherwise.
    Nothing is asked about a [__pkginfo__.py] file on this way. *)
Theorem export_cube_fetched_then_linked (repo_type url : string)
  (package_item : json) (n r : string) (version : json)
  (s s1 : state World) (t1 : list event) :
  unpack3 package_item = Returned (JStr n, version, JStr r) ->
  lexists (world s) (join cubes_path n) = false ->
  isdir (world s) (join clone_directory n) = false ->
  (repo_type = "hg" /\
   hg_dl (JStr url) (JStr n) version (join clone_directory n) s
   = (Returned tt, s1, t1))
  \/
  (repo_type = "git" /\
   git_dl (JStr url) (JStr n) version (join clone_directory n) s
   = (Returned tt, s1, t1)) ->
  let source := join (join clone_directory n) r in
  let link_name := join cubes_path n in
  let run :=
    export_cube cubes_path clone_directory repo_type (url, package_item) s in
  run = (match symlink source link_name (world s1) with
         | Some w => Returned tt
         | None => Raised OSError
         end,
         match symlink source link_name (world s1) with
         | Some w => mkState w (stdin s1)
         | None => s1
         end,
         turn_event (JStr n) version :: t1
         ++ [ ELog DEBUG "symlink: %s -> %s." [AStr source; AStr link_name];
              ESymlink source link_name ]) /\
  symlinks_of (trace_of run) = [(source, link_name)].
Proof.
  intros Hunpack Hlinked Hdir Hfetch source link_name run.
  assert (Hbody :
    fetch_or_reuse repo_type url (JStr n) version (join clone_directory n)
      source (isdir (world s) (join clone_directory n)) s
    = (Returned tt, s1, t1)).
  { rewrite Hdir. unfold fetch_or_reuse. cbn [negb].
    destruct Hfetch as [[-> Hfetch] | [-> Hfetch]]; exact Hfetch. }
  assert (Hnone : symlinks_of t1 = []).
  { apply symlinks_of_only_none.
    pose proof (only_no_link_fetch_or_reuse repo_type url (JStr n) version
                  (join clone_directory n) source
                  (isdir (world s) (join clone_directory n)) s) as Honly.
    rewrite Hbody in Honly. exact Honly. }
  assert (Hrun : run = (match symlink source link_name (world s1) with
         | Some w => Returned tt
         | None => Raised OSError
         end,
         match symlink source link_name (world s1) with
         | Some w => mkState w (stdin s1)
         | None => s1
         end,
         turn_event (JStr n) version :: t1
         ++ [ ELog DEBUG "symlink: %s -> %s." [AStr source; AStr link_name];
              ESymlink source link_name ])).
  { unfold run. rewrite (export_cube_not_linked _ _ _ _ _ _ _ Hunpack Hlinked).
    cbv zeta. fold source link_name.
    rewrite (bind_returned _ _ _ _ _ _ Hbody).
    unfold bind, logger, emit, Symlink, prefix_trace, result_of, state_of,
      trace_of.
    destruct (symlink source link_name (world s1)); reflexivity. }
  split; [exact Hrun|]. rewrite Hrun. unfold trace_of. cbn [snd].
  change (turn_event (JStr n) version :: t1 ++ ?l)
    with ([turn_event (JStr n) version] ++ t1 ++ l).
  rewrite !symlinks_of_app, Hnone. reflexivity.
Qed.

(** X8.  A cube that is not linked but whose clone folder exists, with a
    [__pkginfo__.py] that declares a version at the relative path, is
    linked as it is: the turn starts no process, so the version of the
    configuration is not applied to the clone by [hg update] or
    [git checkout], whatever it is; it logs the version of the clone and
    calls [os.symlink] once. *)
Theorem export_cube_reuses_clone (repo_type url : string)
  (package_item : json) (n r : string) (version : json) (s : state World)
  (g : list (string * json)) (v : json) :
  unpack3 package_item = Returned (JStr n, version, JStr r) ->
  lexists (world s) (join cubes_path n) = false ->
  isdir (world s) (join clone_directory n) = true ->
  let source := join (join clone_directory n) r in
  let link_name := join cubes_path n in
  isfile (world s) (join source "__pkginfo__.py") = true ->
  execfile (world s) (join source "__pkginfo__.py") = Returned g ->
  assoc "version" g = Some v ->
  let run :=
    export_cube cubes_path clone_directory repo_type (url, package_item) s in
  trace_of run
  = [ turn_event (JStr n) version;
      ELog INFO "Cube '%s' already cloned with version '%s', skip..."
        [AJson (JStr n); AJson v];
      ELog DEBUG "symlink: %s -> %s." [AStr source; AStr link_name];
      ESymlink source link_name ] /\
  commands_of (trace_of run) = [] /\
  result_of run = match symlink source link_name (world s) with
                  | Some w => Returned tt
                  | None => Raised OSError
                  end.
Proof.
  intros Hunpack Hlinked Hdir source link_name Hfile Hexec Hv run.
  assert (Hrun :
    run = (match symlink source link_name (world s) with
           | Some w => Returned tt
           | None => Raised OSError
           end,
           match symlink source link_name (world s) with
           | Some w => mkState w (stdin s)
           | None => s
           end,
           [ turn_event (JStr n) version;
             ELog INFO "Cube '%s' already cloned with version '%s', skip..."
               [AJson (JStr n); AJson v];
             ELog DEBUG "symlink: %s -> %s." [AStr source; AStr link_name];
             ESymlink source link_name ])).
  { unfold run. rewrite (export_cube_not_linked _ _ _ _ _ _ _ Hunpack Hlinked).
    cbv zeta. fold source link_name. rewrite Hdir.
    unfold fetch_or_reuse, cube_info_version. cbn [negb]. cbv zeta.
    unfold bind, ask, lift, logger, emit, ret, Symlink, prefix_trace,
      result_of, state_of, trace_of.
    rewrite Hfile, Hexec, Hv. cbn [world stdin].
    destruct (symlink source link_name (world s)); reflexivity. }
  rewrite Hrun. repeat split.
Qed.

(** X9.  An entry of [hg_cubes] or [git_cubes] that is not a sequence of
    three items whose first and third are strings is not a cube: its turn
    raises [ValueError], [TypeError] or [AttributeError] before its first
    log line, having started no process, made no link and left the
    machine as it was. *)
Theorem export_cube_rejects_malformed (repo_type url : string)
  (package_item : json) (s : state World) :
  (forall n version r,
     unpack3 package_item <> Returned (JStr n, version, JStr r)) ->
  exists e,
    export_cube cubes_path clone_directory repo_type (url, package_item) s
    = (Raised e, s, []) /\
    (e = ValueError \/ e = TypeError \/ e = AttributeError).
Proof. apply export_cube_malformed. Qed.

(** X10.  A turn of the loop calls [os.symlink] at most once, and only at
    a path where nothing existed, link included, when the turn started:
    the link it asks for is the one of the cube, from the relative path in
    the clone to the name of the cube in the cubes path.  No run replaces
    or removes an entry of the cubes path. *)
Theorem export_cube_links_once (repo_type : string) (item : string * json)
  (s : state World) :
  let links :=
    symlinks_of
      (trace_of (export_cube cubes_path clone_directory repo_type item s)) in
  links = [] \/
  exists n version r,
    unpack3 (snd item) = Returned (JStr n, version, JStr r) /\
    lexists (world s) (join cubes_path n) = false /\
    links = [(join (join clone_directory n) r, join cubes_path n)].
Proof.
  destruct item as [url package_item]. cbv zeta. cbn [snd].
  destruct (unpack3 package_item) as [[[name version] rel]|e] eqn:Hunpack.
  2:{ left.
      destruct (export_cube_malformed repo_type url package_item s)
        as (e' & Hrun & _).
      - intros n version r Heq. rewrite Hunpack in Heq. discriminate Heq.
      - rewrite Hrun. reflexivity. }
  assert (Hshape : (exists n r, name = JStr n /\ rel = JStr r) \/
                   (forall n v r, (name, version, rel) <> (JStr n, v, JStr r))).
  { destruct name; try (right; intros ? ? ? [=]; fail).
    destruct rel; try (right; intros ? ? ? [=]; fail).
    left. eauto. }
  destruct Hshape as [(n & r & -> & ->) | Hbad].
  2:{ left.
      destruct (export_cube_malformed repo_type url package_item s)
        as (e' & Hrun & _).
      - intros n v r Heq. rewrite Hunpack in Heq. apply (Hbad n v r).
        congruence.
      - rewrite Hrun. reflexivity. }
  destruct (lexists (world s) (join cubes_path n)) eqn:Hlinked.
  - left. rewrite (export_cube_linked _ _ _ _ _ _ _ _ _ Hunpack Hlinked).
    cbv zeta.
    destruct (isfile (world s) (join (join cubes_path n) "__pkginfo__.py"));
      [|reflexivity].
    destruct (execfile (world s) (join (join cubes_path n) "__pkginfo__.py"))
      as [g|e]; [|reflexivity].
    destruct (assoc "version" g); reflexivity.
  - assert (Hcases :
      symlinks_of
        (trace_of (export_cube cubes_path clone_directory repo_type
                     (url, package_item) s)) = [] \/
      symlinks_of
        (trace_of (export_cube cubes_path clone_directory repo_type
                     (url, package_item) s))
      = [(join (join clone_directory n) r, join cubes_path n)]).
    { rewrite (export_cube_not_linked _ _ _ _ _ _ _ Hunpack Hlinked).
      cbv zeta.
      pose proof (only_no_link_fetch_or_reuse repo_type url (JStr n) version
                    (join clone_directory n) (join (join clone_directory n) r)
                    (isdir (world s) (join clone_directory n)) s) as Honly.
      apply symlinks_of_only_none in Honly.
      unfold bind at 1. unfold bind at 2. unfold prefix_trace, trace_of.
      destruct (fetch_or_reuse repo_type url (JStr n) version
                  (join clone_directory n) (join (join clone_directory n) r)
                  (isdir (world s) (join clone_directory n)) s)
        as [[[u|e] s1] t1]; unfold trace_of in Honly; cbn [fst snd] in *.
      - right. unfold bind, logger, emit, Symlink.
        destruct (symlink (join (join clone_directory n) r)
                    (join cubes_path n) (world s1)); cbn [fst snd app];
          rewrite symlinks_of_cons, !symlinks_of_app, Honly; reflexivity.
      - left. cbn [app]. rewrite symlinks_of_cons, Honly. reflexivity. }
    destruct Hcases as [Hnone | Hone]; [left; exact Hnone | right].
    exists n, version, r. repeat split; assumption.
Qed.

End Turns.

(** ** Versions that are neither strings nor null; the loop of the tools *)

Section MoreFetching.

Context {World : Type} `{OS World}.

(** X11.  A version that is neither [None] nor a string (a number, a list,
    a boolean) is not refused before the clone: the clone runs, and when it
    ends with status zero the update or checkout is logged as starting and
    raises [TypeError] at the joining of its words, before any process.
    The repository stays cloned at its default revision. *)
Theorem fetchers_other_version (url folder : string) (name version : json)
  (s : state World) :
  is_None version = false ->
  (forall v, version <> JStr v) ->
  (forall w' stdout stderr,
     popen ["hg"; "clone"; url; folder] None (world s)
     = (w', Some (stdout, stderr, 0%Z)) ->
     hg_dl (JStr url) name version folder s
     = (Raised TypeError, mkState w' (stdin s),
        call_trace ["hg"; "clone"; url; folder] None (getcwd (world s))
          stdout stderr 0
        ++ [ELog DEBUG "--- COMMAND ---" []])) /\
  (forall w' stdout stderr,
     popen ["git"; "clone"; url; folder] None (world s)
     = (w', Some (stdout, stderr, 0%Z)) ->
     git_dl (JStr url) name version folder s
     = (Raised TypeError, mkState w' (stdin s),
        call_trace ["git"; "clone"; url; folder] None (getcwd (world s))
          stdout stderr 0
        ++ [ELog DEBUG "--- COMMAND ---" []])).
Proof.
  intros Hnone Hstr.
  assert (Hhg : str_items (hg_update folder version) = Raised TypeError).
  { unfold hg_update. cbn [str_items].
    destruct version; try reflexivity. exfalso. eapply Hstr. reflexivity. }
  assert (Hgit : str_items (git_checkout version) = Raised TypeError).
  { unfold git_checkout. cbn [str_items].
    destruct version; try reflexivity. exfalso. eapply Hstr. reflexivity. }
  split; intros w' stdout stderr Hpopen.
  - unfold hg_dl.
    rewrite (bind_returned _ _ _ _ _ _
               (check_call_with_log_ran (hg_clone (JStr url) folder)
                  ["hg"; "clone"; url; folder] None s w' stdout stderr 0
                  eq_refl Hpopen)).
    rewrite Hnone. cbn [negb].
    rewrite (check_call_with_log_not_words _ _ _ _ Hhg). reflexivity.
  - unfold git_dl.
    rewrite (bind_returned _ _ _ _ _ _
               (check_call_with_log_ran (git_clone (JStr url) folder)
                  ["git"; "clone"; url; folder] None s w' stdout stderr 0
                  eq_refl Hpopen)).
    rewrite Hnone. cbn [negb].
    rewrite (check_call_with_log_not_words _ _ _ _ Hgit). reflexivity.
Qed.



End MoreFetching.

(** ** The order of the commands *)

Lemma phased_nil (phases : list (event -> bool)) : phased phases [].
Proof.
  induction phases as [|P rest IH]; cbn [phased]; [reflexivity|].
  exists [], []. repeat split; [constructor | exact IH].
Qed.

Lemma phased_skip (P : event -> bool) (rest : list (event -> bool))
  (t : list event) :
  phased rest t -> phased (P :: rest) t.
Proof.
  intros Ht. exists [], t. repeat split; [constructor | exact Ht].
Qed.

Lemma phased_prepend (P : event -> bool) (rest : list (event -> bool))
  (t0 t : list event) :
  Forall (fun e => P e = true) t0 -> phased (P :: rest) t ->
  phased (P :: rest) (t0 ++ t).
Proof.
  intros H0 (t1 & t2 & -> & H1 & H2). exists (t0 ++ t1), t2.
  repeat split; [apply app_assoc | apply Forall_app; split; assumption
                | exact H2].
Qed.

Lemma phased_single (P : event -> bool) (rest : list (event -> bool))
  (t : list event) :
  Forall (fun e => P e = true) t -> phased (P :: rest) t.
Proof.
  intros Ht. exists t, []. repeat split;
    [symmetry; apply app_nil_r | exact Ht | apply phased_nil].
Qed.

Lemma commands_of_program (name : string) (t : list event) :
  Forall (fun e => runs_program name e = true) t ->
  Forall (fun c => program c = name) (commands_of t).
Proof.
  induction 1 as [|e t He _ IH]; [constructor|].
  rewrite commands_of_cons. apply Forall_app. split; [|exact IH].
  destruct e; try constructor; [|constructor].
  cbn [runs_program] in He. apply String.eqb_eq. exact He.
Qed.

Section Phases.

Context {World : Type} `{OS World}.

Lemma in_phases_bind {A B : Type} (P : event -> bool)
  (rest : list (event -> bool)) (m : M World A) (f : A -> M World B) :
  only P m -> (forall a, in_phases (P :: rest) (f a)) ->
  in_phases (P :: rest) (bind m f).
Proof.
  intros Hm Hf s. specialize (Hm s). unfold bind, trace_of in *.
  destruct (m s) as [[[a|e] s1] t1]; cbn [snd] in *.
  - specialize (Hf a s1). unfold trace_of in Hf.
    destruct (f a s1) as [[o s2] t2]. cbn [snd] in *.
    apply phased_prepend; assumption.
  - apply phased_single. exact Hm.
Qed.

Lemma in_phases_only {A : Type} (P : event -> bool)
  (rest : list (event -> bool)) (m : M World A) :
  only P m -> in_phases (P :: rest) m.
Proof. intros Hm s. apply phased_single. apply Hm. Qed.

Lemma in_phases_skip {A : Type} (P : event -> bool)
  (rest : list (event -> bool)) (m : M World A) :
  in_phases rest m -> in_phases (P :: rest) m.
Proof. intros Hm s. apply phased_skip. apply Hm. Qed.

Lemma only_program_Symlink (name source link_name : string) :
  only (runs_program name) (Symlink source link_name).
Proof.
  intros s. unfold Symlink, trace_of.
  destruct (symlink source link_name (world s)); cbn [snd];
    (constructor; [reflexivity | constructor]).
Qed.

Lemma only_program_hg_dl (url : string) (name version : json)
  (folder : string) :
  only (runs_program "hg") (hg_dl (JStr url) name version folder).
Proof.
  unfold hg_dl. apply only_bind.
  - apply only_check_call_with_log; [reflexivity|].
    intros words [= <-]. reflexivity.
  - intros _. destruct (negb (is_None version)); [|apply only_ret].
    apply only_check_call_with_log; [reflexivity|].
    intros words Hwords. destruct version; try discriminate Hwords.
    injection Hwords as <-. reflexivity.
Qed.

Lemma only_program_git_dl (url : string) (name version : json)
  (folder : string) :
  only (runs_program "git") (git_dl (JStr url) name version folder).
Proof.
  unfold git_dl. apply only_bind.
  - apply only_check_call_with_log; [reflexivity|].
    intros words [= <-]. reflexivity.
  - intros _. destruct (negb (is_None version)); [|apply only_ret].
    apply only_check_call_with_log; [reflexivity|].
    intros words Hwords. destruct version; try discriminate Hwords.
    injection Hwords as <-. reflexivity.
Qed.

(** The turn of a cube runs the program of its type of repository. *)
Lemma only_program_export_cube (cubes_path clone_directory repo_type : string)
  (item : string * json) :
  only (runs_program repo_type)
    (export_cube cubes_path clone_directory repo_type item).
Proof.
  unfold export_cube. cbv zeta.
  apply only_bind; [apply only_lift|]. intros unpacked.
  apply only_bind; [apply only_lift|]. intros cube_folder.
  apply only_bind; [apply only_lift|]. intros package_folder.
  apply only_bind; [apply only_lift|]. intros package_cube_folder.
  apply only_bind; [apply only_logger; reflexivity|]. intros _.
  apply only_bind; [apply only_ask|]. intros linked.
  destruct (negb linked).
  - apply only_bind; [apply only_ask|]. intros cloned.
    apply only_bind.
    + destruct (negb cloned).
      * destruct (String.eqb_spec repo_type "hg") as [->|_];
          [apply only_program_hg_dl|].
        destruct (String.eqb_spec repo_type "git") as [->|_];
          [apply only_program_git_dl | apply only_raise].
      * apply only_bind; [apply only_ask|]. intros found.
        destruct found; [|apply only_raise].
        apply only_bind; [apply only_cube_info_version; reflexivity|].
        intros version. apply only_logger; reflexivity.
    + intros _. apply only_bind; [apply only_logger; reflexivity|].
      intros _. apply only_program_Symlink.
  - apply only_bind; [apply only_ask|]. intros found.
    destruct found; [|apply only_raise].
    apply only_bind; [apply only_cube_info_version; reflexivity|].
    intros version. apply only_logger; reflexivity.
Qed.

Lemma only_program_cubes (cubes_path clone_directory repo_type : string)
  (cubes : json) :
  only (runs_program repo_type)
    (items <- lift (dict_items cubes) ;;
     for_each items (export_cube cubes_path clone_directory repo_type)).
Proof.
  apply only_bind; [apply only_lift|]. intros items.
  apply only_for_each. intros item. apply only_program_export_cube.
Qed.

Lemma only_program_install_pypi_tools (pypi_tools : json) :
  only (runs_program "pip") (install_pypi_tools pypi_tools).
Proof.
  unfold install_pypi_tools. apply only_bind; [apply only_lift|].
  intros tools. apply only_for_each. intros tool_name.
  apply only_bind; [apply only_logger; reflexivity|]. intros _.
  apply only_check_call_with_log; [reflexivity|].
  intros words Hwords. destruct tool_name; try discriminate Hwords.
  injection Hwords as <-. reflexivity.
Qed.

Lemma in_phases_script (host : Host World)
  (expected_items : list (string * list pyobj))
  (clone_directory : option string) (config_folder : string) :
  in_phases [runs_program "pip"; runs_program "hg"; runs_program "git"]
    (script host expected_items clone_directory config_folder).
Proof.
  unfold script.
  apply in_phases_bind; [apply only_startup; reflexivity|]. intros checked.
  unfold main.
  apply in_phases_bind;
    [apply only_choose_version_to_install; reflexivity|]. intros json_file.
  apply in_phases_bind; [apply only_load_configuration; reflexivity|].
  intros json_data.
  apply in_phases_bind; [apply only_lift|]. intros version.
  apply in_phases_bind; [apply only_lift|]. intros hg_cubes.
  apply in_phases_bind; [apply only_lift|]. intros git_cubes.
  apply in_phases_bind; [apply only_lift|]. intros pypi_tools.
  apply in_phases_bind; [apply only_logger; reflexivity|]. intros _.
  apply in_phases_bind; [apply only_program_install_pypi_tools|]. intros _.
  apply in_phases_bind; [apply only_logger; reflexivity|]. intros _.
  apply in_phases_skip. unfold export_cubes. cbn [for_each fst snd].
  apply in_phases_bind; [apply only_program_cubes|]. intros _.
  apply in_phases_skip. apply in_phases_only.
  apply only_bind; [apply only_program_cubes | intros _; apply only_ret].
Qed.

(** X13.  In every run of the script the processes come in three groups:
    first the pip commands, then the hg commands, then the git commands.
    No tool is installed after a cube has been fetched, and no mercurial
    cube is fetched after a git cube. *)
Theorem script_commands_in_order (host : Host World)
  (expected_items : list (string * list pyobj))
  (clone_directory : option string) (config_folder : string)
  (s : state World) :
  exists pips hgs gits,
    commands_of
      (trace_of (script host expected_items clone_directory config_folder s))
    = pips ++ hgs ++ gits /\
    Forall (fun c => program c = "pip") pips /\
    Forall (fun c => program c = "hg") hgs /\
    Forall (fun c => program c = "git") gits.
Proof.
  destruct (in_phases_script host expected_items clone_directory
              config_folder s)
    as (t1 & r1 & -> & H1 & t2 & r2 & -> & H2 & t3 & r3 & -> & H3 & ->).
  exists (commands_of t1), (commands_of t2), (commands_of t3).
  rewrite !commands_of_app, app_nil_r.
  repeat split; apply commands_of_program; assumption.
Qed.

End Phases.

(** ** The checks at the start *)

Lemma split_on_without (sep : ascii) (s : string) :
  occurs sep s = false -> forall acc, split_on sep acc s = [(acc ++ s)%string].
Proof.
  induction s as [|c s IH]; cbn [occurs split_on]; intros Hocc acc.
  - f_equal. induction acc as [|a acc IHa]; [reflexivity|].
    cbn [String.append]. f_equal. exact IHa.
  - apply orb_false_iff in Hocc. destruct Hocc as [Hc Hs]. rewrite Hc.
    rewrite (IH Hs). f_equal.
    induction acc as [|a acc IHa]; [reflexivity|].
    cbn [String.append]. f_equal. exact IHa.
Qed.

Lemma split_on_some (sep : ascii) (s : string) :
  forall acc, (1 <= length (split_on sep acc s))%nat.
Proof.
  induction s as [|c s IH]; intros acc; cbn [split_on].
  - cbn [length]. lia.
  - destruct (Ascii.eqb c sep); [cbn [length]; lia | apply IH].
Qed.

Lemma split_on_with (sep : ascii) (s : string) :
  occurs sep s = true -> forall acc, (2 <= length (split_on sep acc s))%nat.
Proof.
  induction s as [|c s IH]; cbn [occurs split_on]; intros Hocc acc;
    [discriminate|].
  destruct (Ascii.eqb c sep).
  - cbn [length]. pose proof (split_on_some sep s EmptyString). lia.
  - apply IH. exact Hocc.
Qed.

Section Starting.

Context {World : Type} `{OS World}.
Variable host : Host World.

(** X14.  The checks at the start succeed in one case only: the variable
    'CW_CUBES_PATH' is set, the platform is "Linux", the value of the
    variable holds no colon, the value is a path the process may write to,
    and option [-d] names a directory.  Then [cubes_path] is the value of
    the variable, as it is, and the clone directory is the option; the
    checks print nothing and change nothing.  A value with a colon is
    refused whatever its pieces are. *)
Theorem startup_succeeds_iff (clone_directory : option string)
  (s s' : state World) (cubes_path directory : string) (t : list event) :
  startup host clone_directory s = (Returned (cubes_path, directory), s', t)
  <->
  environ_get host (world s) "CW_CUBES_PATH" = Some cubes_path /\
  platform_system host (world s) = "Linux" /\
  occurs ":" cubes_path = false /\
  access_W_OK host (world s) cubes_path = true /\
  clone_directory = Some directory /\
  isdir (world s) directory = true /\
  s' = s /\ t = [].
Proof.
  unfold startup, bind, ask, lift, raise, ret. cbn [world].
  destruct (environ_get host (world s) "CW_CUBES_PATH") as [value|];
    [|split; [discriminate | intros (Hx & _); discriminate Hx]].
  destruct (String.eqb_spec (platform_system host (world s)) "Linux")
    as [Hlinux|Hother];
    [|split; [discriminate | intros (_ & Hx & _); contradiction]].
  cbv zeta. unfold py_split.
  destruct (occurs ":" value) eqn:Hocc.
  - pose proof (split_on_with ":" value Hocc EmptyString) as Hlen.
    destruct (Nat.eqb_spec (length (split_on ":" EmptyString value)) 1);
      [lia|]. cbn [negb]. split; [discriminate|].
    intros ([= <-] & _ & Hx & _). rewrite Hocc in Hx. discriminate Hx.
  - rewrite (split_on_without ":" value Hocc EmptyString).
    cbn [length Nat.eqb negb String.append list_index Z.ltb Z.compare
         Z.of_nat Z.to_nat nth_error app].
    destruct (access_W_OK host (world s) value) eqn:Haccess; cbn [negb].
    + destruct clone_directory as [d|].
      * cbn [world app]. destruct (isdir (world s) d) eqn:Hdir; cbn [negb].
        -- split.
           ++ intros [= <- <- <- <-]. repeat split; assumption.
           ++ intros ([= <-] & _ & _ & _ & [= <-] & _ & -> & ->).
              reflexivity.
        -- split; [discriminate|].
           intros (_ & _ & _ & _ & [= <-] & Hx & _).
           rewrite Hdir in Hx. discriminate Hx.
      * split; [discriminate | intros (_ & _ & _ & _ & Hx & _)].
        discriminate Hx.
    + split; [discriminate|].
      intros ([= <-] & _ & _ & Hx & _). rewrite Haccess in Hx.
      discriminate Hx.
Qed.

(** X15.  With the default level "info" the terminal shows of a call of
    [check_call_with_log] whose child ran nothing but the captured stderr,
    as an error record, when it is not empty: the command line, the
    working directory, the captured stdout and the status are debug
    records.  With level "debug" every record of the call is shown. *)
Theorem check_call_with_log_displayed (command : list json)
  (words : list string) (cwd : option string) (s : state World) (w' : World)
  (stdout stderr : string) (returncode : Z) :
  str_items command = Returned words ->
  popen words cwd (world s) = (w', Some (stdout, stderr, returncode)) ->
  let t := trace_of (check_call_with_log command cwd s) in
  displayed "info" t
  = (if nonempty stderr then [ELog ERROR stderr []] else []) /\
  displayed "debug" t
  = [ ELog DEBUG "--- COMMAND ---" [];
      ELog DEBUG (String.concat " " words) [];
      ELog DEBUG
        ("CWD =" ++ match cwd with
                    | Some d => d
                    | None => getcwd (world s)
                    end)%string [];
      ELog DEBUG "--- OUTPUT ---" [] ]
    ++ (if nonempty stdout then [ELog DEBUG stdout []] else [])
    ++ (if nonempty stderr then [ELog ERROR stderr []] else [])
    ++ [ ELog DEBUG "--- COMMAND STATUS = %s ---" [AInt returncode] ].
Proof.
  intros Hwords Hpopen t. subst t.
  rewrite (check_call_with_log_ran _ _ _ _ _ _ _ _ Hwords Hpopen).
  unfold trace_of, call_trace, displayed. cbn [snd].
  split; destruct (nonempty stdout), (nonempty stderr); reflexivity.
Qed.

End Starting.

(** ** Where the link of a cube goes *)








(** ** More ways out of the command runner and of the loader *)

Section MoreEdges.

Context {World : Type} `{OS World}.

(** X17.  [check_call_with_log] starts at most one process.  When a word
    of the command is not a string it starts none: it raises [TypeError]
    after its first debug record and leaves the machine as it was.  When
    the words are strings it starts exactly one, and when that process
    cannot be started it raises [OSError] without a status record. *)
Theorem check_call_with_log_one_process (command : list json)
  (cwd : option string) (s : state World) :
  let run := check_call_with_log command cwd s in
  match str_items command with
  | Raised e =>
      run = (Raised TypeError, s, [ELog DEBUG "--- COMMAND ---" []])
  | Returned words =>
      commands_of (trace_of run) = [(words, cwd)] /\
      (snd (popen words cwd (world s)) = None ->
       run = (Raised OSError,
              mkState (fst (popen words cwd (world s))) (stdin s),
              [ ELog DEBUG "--- COMMAND ---" [];
                ELog DEBUG (String.concat " " words) [];
                ELog DEBUG ("CWD =" ++ match cwd with
                                       | Some d => d
                                       | None => getcwd (world s)
                                       end)%string [];
                ELog DEBUG "--- OUTPUT ---" [];
                EPopen words cwd ]))
  end.
Proof.
  cbv zeta. destruct (str_items command) as [words|e] eqn:Hwords.
  - split; [apply check_call_with_log_commands; exact Hwords|].
    intros Hnone.
    destruct (popen words cwd (world s)) as [w' p] eqn:Hpopen.
    cbn [fst snd] in *. subst p.
    apply (check_call_with_log_not_started _ _ _ _ _ Hwords Hpopen).
  - assert (He : e = TypeError).
    { clear -Hwords. revert e Hwords.
      induction command as [|x command IH]; intros e Hwords;
        cbn [str_items] in Hwords; [discriminate|].
      destruct x; try (injection Hwords as <-; reflexivity).
      destruct (str_items command) as [l|e'];
        [discriminate | injection Hwords as <-; apply IH; reflexivity]. }
    subst e. apply check_call_with_log_not_words. exact Hwords.
Qed.

(** X18.  [load_configuration] catches [IOError] only.  A file that cannot
    be opened is logged at info level and ends the process by [sys.exit],
    without a word of validation.  Any other exception of the opening and
    of the parsing, such as the [ValueError] of a file that is not JSON,
    goes up as it is: nothing is logged or printed. *)
Theorem load_configuration_unreadable
  (expected_items : list (string * list pyobj)) (file_name : string)
  (s : state World) (e : pyexc) :
  open_json_load (world s) file_name = Raised e ->
  (e = IOError ->
   load_configuration expected_items file_name s
   = (Raised SystemExit, s,
      [ELog INFO "Unable to load Json file %s" [AStr file_name]])) /\
  (e <> IOError ->
   load_configuration expected_items file_name s = (Raised e, s, [])).
Proof.
  intros Hopen. unfold load_configuration, bind, ask, logger, emit, sys_exit,
    raise.
  rewrite Hopen. split.
  - intros ->. reflexivity.
  - intros Hne. destruct e; try reflexivity. contradiction.
Qed.

Lemma load_versions_returned (expected_items : list (string * list pyobj))
  (config_files : list string) :
  forall available_versions files_names (s s' : state World) vs fs t,
    load_versions expected_items config_files available_versions files_names s
    = (Returned (vs, fs), s', t) ->
    fs = files_names ++ config_files.
Proof.
  induction config_files as [|f files IH];
    intros vs0 fs0 s s' vs fs t Hrun; cbn [load_versions] in Hrun.
  - injection Hrun as _ <- _ _. symmetry. apply app_nil_r.
  - unfold bind at 1 in Hrun.
    destruct (load_configuration expected_items f s) as [[[j|e] s1] t1];
      [|discriminate Hrun].
    unfold bind at 1, lift at 1 in Hrun.
    destruct (py_getitem j "version") as [v|e]; [|discriminate Hrun].
    destruct (load_versions expected_items files (vs0 ++ [v]) (fs0 ++ [f]) s1)
      as [[[[vs' fs'] | e] s2] t2] eqn:Hrest; [|discriminate Hrun].
    injection Hrun as _ <- _ _.
    rewrite (IH _ _ _ _ _ _ _ Hrest), <- app_assoc. reflexivity.
Qed.

Lemma list_index_In {A : Type} (xs : list A) (k : Z) (x : A) :
  list_index xs k = Returned x -> In x xs.
Proof.
  unfold list_index.
  destruct ((if (k <? 0)%Z then Z.of_nat (length xs) + k else k) <? 0)%Z;
    [discriminate|].
  destruct (nth_error xs _) as [y|] eqn:Hn; [|discriminate].
  intros [= <-]. eapply nth_error_In. exact Hn.
Qed.

Lemma waiting_for_choice_returned (version_choices : list (Z * json))
  (files_names : list string) (lines : list string) (w : World)
  (f : string) :
  result_of (waiting_for_choice version_choices files_names lines w)
  = Returned f ->
  In f files_names.
Proof.
  revert w. induction lines as [|l lines IH]; intros w;
    cbn [waiting_for_choice].
  - discriminate.
  - unfold bind at 1, print at 1, emit at 1.
    destruct (try_choice version_choices l) as [[k choice]|].
    + unfold bind, print, emit, lift, result_of.
      destruct (list_index files_names k) as [x|e] eqn:Hindex;
        cbn [fst]; [|discriminate].
      intros [= <-]. eapply list_index_In. exact Hindex.
    + unfold bind, print, emit. cbn [world]. specialize (IH w).
      unfold result_of in *.
      destruct (waiting_for_choice version_choices files_names lines w)
        as [[o s2] t2].
      cbn [fst] in *. exact IH.
Qed.

(** X19.  Whatever the files, their contents and the answers of the user,
    a path that [choose_version_to_install] returns is one of the paths
    that [glob] listed in the folder of the configurations. *)
Theorem choose_version_to_install_returns_listed
  (expected_items : list (string * list pyobj)) (config_folder : string)
  (s : state World) (file_name : string) :
  result_of (choose_version_to_install expected_items config_folder s)
  = Returned file_name ->
  In file_name (glob (world s) (join config_folder "*.conf")).
Proof.
  unfold choose_version_to_install.
  unfold bind at 1, print at 1, emit at 1.
  unfold bind at 1, ask at 1.
  destruct (glob (world s) (join config_folder "*.conf")) as [|f0 files].
  - unfold bind, print, emit, sys_exit, raise, result_of. cbn [fst].
    discriminate.
  - unfold bind at 1.
    destruct (load_versions expected_items (f0 :: files) [] [] s)
      as [[[[vs fs] | e] s1] t1] eqn:Hload;
      [|unfold result_of; cbn [fst]; discriminate].
    apply load_versions_returned in Hload. cbn [app] in Hload. subst fs.
    cbv zeta. cbn [fst snd].
    unfold bind at 1, print at 1, emit at 1.
    unfold bind at 1, print at 1, emit at 1.
    unfold bind at 1.
    destruct (display_choices (enumerate vs) (f0 :: files) s1)
      as [[[u|e] s2] t2]; [|unfold result_of; cbn [fst]; discriminate].
    pose proof (waiting_for_choice_returned (enumerate vs) (f0 :: files)
                  (stdin s2) (world s2) file_name) as Hwait.
    unfold result_of in *.
    destruct (waiting_for_choice (enumerate vs) (f0 :: files) (stdin s2)
                (world s2)) as [[o s3] t3].
    cbn [fst] in *. exact Hwait.
Qed.

End MoreEdges.

(** ** The further theorems at concrete inputs *)

Lemma check_configuration_integrity_wrong_types_witness :
  exists lines,
    check_configuration_integrity expected_types (JDict Cases.wrong_types_conf)
      "/configs/b.conf" (mkState Cases.mixed [])
    = (Raised SystemExit, mkState Cases.mixed [],
       lines ++ [EPrint corrupted_template []]) /\
    Permutation lines
      (map (wrong_type_event "/configs/b.conf" Cases.wrong_types_conf)
         (filter (offending Cases.wrong_types_conf) expected_types)).
Proof.
  apply (check_configuration_integrity_wrong_types expected_types
           (Permutation_refl _) "/configs/b.conf" (mkState Cases.mixed [])
           Cases.wrong_types_conf).
  - intros f [<-|[<-|[<-|[<-|[]]]]]; reflexivity.
  - discriminate.
Defined.

Lemma check_configuration_integrity_not_object_witness :
  exists e,
    check_configuration_integrity expected_types (JList [JStr "version"])
      "/configs/piws.conf" (mkState Toy.empty [])
    = (Raised e, mkState Toy.empty [], []) /\
    (e = TypeError \/ e = NameError "key").
Proof.
  apply (check_configuration_integrity_not_object expected_types
           (Permutation_refl _)).
  intros d. discriminate.
Defined.

Lemma load_configuration_returns_validated_witness :
  open_json_load (world (mkState (Toy.with_conf Toy.scenario_conf) []))
    "/configs/piws.conf" = Returned (JDict Toy.scenario_conf) /\
  py_getitem (JDict Toy.scenario_conf) "pypi_tools"
  = Returned (JList [JStr "pytest"]).
Proof.
  assert (Hload :
    load_configuration expected_types "/configs/piws.conf"
      (mkState (Toy.with_conf Toy.scenario_conf) [])
    = (Returned (JDict Toy.scenario_conf),
       mkState (Toy.with_conf Toy.scenario_conf) [], [])) by reflexivity.
  destruct (load_configuration_returns_validated expected_types
              (Permutation_refl _) "/configs/piws.conf" _ _ _ _ Hload)
    as (Hopen & _ & _ & _).
  split; [exact Hopen | reflexivity].
Defined.

Lemma choose_version_to_install_refuses_witness :
  choose_version_to_install expected_types "/configs"
    (mkState Cases.mixed ["0"])
  = (Raised SystemExit, mkState Cases.mixed ["0"],
     loading_event "/configs"
     :: trace_of (load_configuration expected_types "/configs/b.conf"
                    (mkState Cases.mixed ["0"]))).
Proof.
  destruct (choose_version_to_install_refuses expected_types
              (Permutation_refl _) "/configs" (mkState Cases.mixed ["0"]))
    as [_ Hrefused].
  apply (Hrefused ["/configs/a.conf"] "/configs/b.conf" [] SystemExit).
  - reflexivity.
  - constructor; [|constructor].
    exists Toy.scenario_conf, "1.0", [],
      [("https://x/repo.git", JList [JStr "mycube"; JNull; JStr "."])],
      [JStr "pytest"].
    repeat split; reflexivity.
  - reflexivity.
Defined.

Lemma choose_version_to_install_end_of_input_witness :
  result_of (choose_version_to_install expected_types "/configs"
               (mkState Toy.two_confs ["x"; "9"]))
  = Raised EOFError.
Proof.
  destruct (choose_version_to_install_end_of_input expected_types
              (Permutation_refl _) "/configs"
              (mkState Toy.two_confs ["x"; "9"]))
    as (Hresult & _ & _).
  - discriminate.
  - constructor; [|constructor; [|constructor]].
    + exists Toy.scenario_conf, "1.0", [],
        [("https://x/repo.git", JList [JStr "mycube"; JNull; JStr "."])],
        [JStr "pytest"].
      repeat split; reflexivity.
    + exists Toy.second_conf, "2.0", [], [], []. repeat split; reflexivity.
  - constructor; [exact I|]. constructor; [|constructor].
    right. simpl. lia.
  - exact Hresult.
Defined.

Lemma export_cube_fetched_then_linked_witness :
  symlinks_of
    (trace_of (export_cube "/cubes" "/clone" "git"
                 ("https://x/repo.git", Cases.pinned_cube)
                 (mkState Toy.fresh [])))
  = [("/clone/mycube/.", "/cubes/mycube")].
Proof.
  assert (Hlinked : lexists (world (mkState Toy.fresh []))
                      (join "/cubes" "mycube") = false) by reflexivity.
  assert (Hdir : isdir (world (mkState Toy.fresh []))
                   (join "/clone" "mycube") = false) by reflexivity.
  assert (Hfetch :
    git_dl (JStr "https://x/repo.git") (JStr "mycube") (JStr "2.0")
      (join "/clone" "mycube") (mkState Toy.fresh [])
    = (Returned tt,
       state_of (git_dl (JStr "https://x/repo.git") (JStr "mycube")
                   (JStr "2.0") (join "/clone" "mycube")
                   (mkState Toy.fresh [])),
       trace_of (git_dl (JStr "https://x/repo.git") (JStr "mycube")
                   (JStr "2.0") (join "/clone" "mycube")
                   (mkState Toy.fresh [])))) by reflexivity.
  destruct (export_cube_fetched_then_linked "/cubes" "/clone" "git"
              "https://x/repo.git" Cases.pinned_cube "mycube" "." (JStr "2.0")
              (mkState Toy.fresh []) _ _ eq_refl Hlinked Hdir
              (or_intror (conj eq_refl Hfetch)))
    as [_ Hlinks].
  exact Hlinks.
Defined.

Lemma export_cube_reuses_clone_witness :
  commands_of
    (trace_of (export_cube "/cubes" "/clone" "git"
                 ("https://x/repo.git", Cases.pinned_cube)
                 (mkState Cases.cloned []))) = [] /\
  result_of (export_cube "/cubes" "/clone" "git"
               ("https://x/repo.git", Cases.pinned_cube)
               (mkState Cases.cloned [])) = Returned tt.
Proof.
  assert (Hlinked : lexists (world (mkState Cases.cloned []))
                      (join "/cubes" "mycube") = false) by reflexivity.
  assert (Hdir : isdir (world (mkState Cases.cloned []))
                   (join "/clone" "mycube") = true) by reflexivity.
  assert (Hfile : isfile (world (mkState Cases.cloned []))
                    (join (join (join "/clone" "mycube") ".") "__pkginfo__.py")
                  = true) by reflexivity.
  assert (Hexec : execfile (world (mkState Cases.cloned []))
                    (join (join (join "/clone" "mycube") ".") "__pkginfo__.py")
                  = Returned [("version", JStr "0.1")]) by reflexivity.
  destruct (export_cube_reuses_clone "/cubes" "/clone" "git"
              "https://x/repo.git" Cases.pinned_cube "mycube" "." (JStr "2.0")
              (mkState Cases.cloned []) [("version", JStr "0.1")] (JStr "0.1")
              eq_refl Hlinked Hdir Hfile Hexec eq_refl)
    as (_ & Hcommands & Hresult).
  split; [exact Hcommands | exact Hresult].
Defined.

Lemma export_cube_rejects_malformed_witness :
  exists e,
    export_cube "/cubes" "/clone" "hg"
      ("https://x/hg", JList [JNull; JNull; JStr "."]) (mkState Toy.fresh [])
    = (Raised e, mkState Toy.fresh [], []) /\
    (e = ValueError \/ e = TypeError \/ e = AttributeError).
Proof.
  apply (export_cube_rejects_malformed "/cubes" "/clone" "hg" "https://x/hg"
           (JList [JNull; JNull; JStr "."]) (mkState Toy.fresh [])).
  intros n version r. discriminate.
Defined.

Lemma fetchers_other_version_witness :
  result_of (git_dl (JStr "https://x/repo.git") (JStr "mycube") (JInt 3)
               "/clone/mycube" (mkState Toy.fresh []))
  = Raised TypeError /\
  isdir (world (state_of (git_dl (JStr "https://x/repo.git") (JStr "mycube")
                            (JInt 3) "/clone/mycube" (mkState Toy.fresh []))))
    "/clone/mycube" = true.
Proof.
  assert (Hstr : forall v, JInt 3 <> JStr v) by (intros v; discriminate).
  destruct (fetchers_other_version "https://x/repo.git" "/clone/mycube"
              (JStr "mycube") (JInt 3) (mkState Toy.fresh []) eq_refl Hstr)
    as [_ Hgit].
  rewrite (Hgit (Toy.clone "https://x/repo.git" "/clone/mycube" Toy.fresh)
             EmptyString EmptyString eq_refl).
  split; reflexivity.
Defined.

Lemma check_call_with_log_displayed_witness :
  displayed "info"
    (trace_of (check_call_with_log (pip_install (JStr "pytest")) None
                 (mkState Toy.noisy [])))
  = [ELog ERROR "WARNING: pip is old" []].
Proof.
  assert (Hpopen :
    popen ["pip"; "install"; "pytest"] None (world (mkState Toy.noisy []))
    = (Toy.noisy, Some ("Collecting pytest", "WARNING: pip is old", 0%Z)))
    by reflexivity.
  destruct (check_call_with_log_displayed (pip_install (JStr "pytest"))
              ["pip"; "install"; "pytest"] None (mkState Toy.noisy [])
              Toy.noisy "Collecting pytest" "WARNING: pip is old" 0%Z
              eq_refl Hpopen) as [Hinfo _].
  exact Hinfo.
Defined.

Lemma load_configuration_unreadable_witness :
  load_configuration expected_types "/configs/none.conf" (mkState Toy.empty [])
  = (Raised SystemExit, mkState Toy.empty [],
     [ELog INFO "Unable to load Json file %s" [AStr "/configs/none.conf"]]).
Proof.
  assert (Hopen : open_json_load (world (mkState Toy.empty []))
                    "/configs/none.conf" = Raised IOError) by reflexivity.
  destruct (load_configuration_unreadable expected_types "/configs/none.conf"
              (mkState Toy.empty []) IOError Hopen) as [Hexit _].
  exact (Hexit eq_refl).
Defined.

Lemma choose_version_to_install_returns_listed_witness :
  In "/configs/b.conf"
    (glob (world (mkState Toy.two_confs ["1"])) (join "/configs" "*.conf")).
Proof.
  apply (choose_version_to_install_returns_listed expected_types "/configs"
           (mkState Toy.two_confs ["1"]) "/configs/b.conf").
  reflexivity.
Defined.

(** The checks at the start on the machine of the scenario, and the whole
    script there. *)
Example startup_ready :
  startup (Cases.linux (Some "/cubes")) (Some "/clone") (mkState Cases.ready [])
  = (Returned ("/cubes", "/clone"), mkState Cases.ready [], []).
Proof. reflexivity. Qed.

Example startup_two_paths :
  result_of (startup (Cases.linux (Some "/cubes:/clone")) (Some "/clone")
               (mkState Cases.ready []))
  = Raised (Exception_
              "Only one extra path expected in the 'CW_CUBES_PATH' ({0}) environment variable."
              [paths_arg ["/cubes"; "/clone"]]).
Proof. reflexivity. Qed.

Example script_scenario :
  let r := script (Cases.linux (Some "/cubes")) expected_types (Some "/clone")
             "/configs" (mkState Cases.ready ["0"]) in
  result_of r = Returned tt /\
  commands_of (trace_of r)
  = [ (["pip"; "install"; "pytest"], None);
      (["git"; "clone"; "https://x/repo.git"; "/clone/mycube"], None) ] /\
  symlinks_of (trace_of r) = [("/clone/mycube/.", "/cubes/mycube")].
Proof. cbv zeta. repeat split. Qed.
